(** * The sqlite message storage of The Lounge

    A shallow embedding of [src/plugins/messageStorage/sqlite.js]: the
    [MessageStorage] class (enable, close, index, deleteChannel,
    getMessages, search, canProvideMessages) and the helper
    [parseSearchRowsToMessages], together with a model of the fragment of
    the sqlite engine that the statements issued by the class exercise.

    How the program is read:
    - JavaScript objects are lists of properties, and a property that an
      object does not have reads as [undefined];
    - a statement is the text that the program hands to the engine, with
      the list of the values bound to its [?]; the engine model reads the
      text back ([prepare]) and answers as sqlite does on the two tables
      of the schema;
    - the callbacks that the program gives to the engine are functions of
      their own ([schema_version_callback], [close_callback],
      [getMessages_callback], [search_callback]); a method applies its
      callback to the answer of the engine, in the order in which
      [serialize] queues the statements;
    - what the outside decides is an argument: the outcome of
      [fs.mkdirSync], the content of the database file, the error with
      which the handle closes, the configuration;
    - the methods are read in a process in which [require("sqlite3")]
      succeeded; what the module does when it failed is [load_sqlite3]
      and [enable_without_sqlite3];
    - numbers are integers: a bound [LIMIT] or version is taken as the
      engine takes a 64-bit integer, and [parseInt] reads the white space
      and the digits of ASCII. *)

From Stdlib Require Import ZArith List String Ascii Bool Lia.
From Stdlib Require Import Permutation Sorted DecimalString.
Import ListNotations.

Local Open Scope string_scope.
Local Open Scope Z_scope.

#[local] Set Warnings "-register-all".

(** ** JavaScript values

    Numbers are the integers (times in epoch milliseconds, row ids, the
    message counter); strings are sequences of 8-bit characters.  An object
    is the list of its own enumerable properties in insertion order, which
    is the order [Object.keys] and [JSON.stringify] walk. *)

Inductive jsval : Type :=
| JUndefined
| JNull
| JBool (b : bool)
| JNum (n : Z)
| JStr (s : string)
| JArr (items : list jsval)
| JObj (props : list (string * jsval)).

Definition jsobj : Type := list (string * jsval).

(** [o[k]] on an object: the value of the property, [undefined] when the
    object has no such property. *)
Fixpoint obj_get (o : jsobj) (k : string) : jsval :=
  match o with
  | [] => JUndefined
  | (k', v) :: o' => if String.eqb k' k then v else obj_get o' k
  end.

(** [o[k] = v]: an existing property keeps its place, a new one goes last. *)
Fixpoint obj_set (o : jsobj) (k : string) (v : jsval) : jsobj :=
  match o with
  | [] => [(k, v)]
  | (k', v') :: o' =>
      if String.eqb k' k then (k, v) :: o' else (k', v') :: obj_set o' k v
  end.

Definition Object_keys (o : jsobj) : list string := map fst o.

Definition has_own_property (v : jsval) (k : string) : bool :=
  match v with
  | JObj props => existsb (String.eqb k) (Object_keys props)
  | JArr _ => String.eqb k "length"
  | _ => false
  end.

(** Property read on any value, for the property names this development
    reads (none of them is an array index). *)
Definition get_prop (v : jsval) (k : string) : jsval :=
  match v with
  | JObj props => obj_get props k
  | JArr items =>
      if String.eqb k "length" then JNum (Z.of_nat (List.length items))
      else JUndefined
  | _ => JUndefined
  end.

Definition set_prop (v : jsval) (k : string) (x : jsval) : jsval :=
  match v with
  | JObj props => JObj (obj_set props k x)
  | _ => v
  end.

(** [ToBoolean]. *)
Definition truthy (v : jsval) : bool :=
  match v with
  | JUndefined | JNull => false
  | JBool b => b
  | JNum n => negb (n =? 0)
  | JStr s => negb (String.eqb s "")
  | JArr _ | JObj _ => true
  end.

(** An optional field of a plain object: [None] is a field that was left
    out (it reads as [undefined]). *)
Definition js_of_string (o : option string) : jsval :=
  match o with Some s => JStr s | None => JUndefined end.

Definition js_of_number (o : option Z) : jsval :=
  match o with Some n => JNum n | None => JUndefined end.

(** ** Strings *)

Definition is_upper (c : ascii) : bool :=
  ((65 <=? nat_of_ascii c) && (nat_of_ascii c <=? 90))%nat.

Definition lower_char (c : ascii) : ascii :=
  if is_upper c then ascii_of_nat (nat_of_ascii c + 32) else c.

(** [String.prototype.toLowerCase].  Characters are 8-bit and the letters
    that have a case are the ASCII letters. *)
Fixpoint toLowerCase (s : string) : string :=
  match s with
  | EmptyString => EmptyString
  | String c s' => String (lower_char c) (toLowerCase s')
  end.

Definition decimal (n : Z) : string := NilZero.string_of_int (Z.to_int n).

(** ** JSON text

    The [msg] column holds the text produced by [JSON.stringify].  The text
    is represented by the value it denotes, so that [JSON.parse] is the
    projection; [JSON.stringify] drops the properties whose value is
    [undefined] and turns an [undefined] array item into [null]. *)

Fixpoint json_value (v : jsval) : jsval :=
  match v with
  | JUndefined => JNull
  | JArr items => JArr (map json_value items)
  | JObj props =>
      JObj ((fix members (ps : list (string * jsval)) : list (string * jsval) :=
               match ps with
               | [] => []
               | (k, JUndefined) :: ps' => members ps'
               | (k, x) :: ps' => (k, json_value x) :: members ps'
               end) props)
  | _ => v
  end.

Definition json_members (o : jsobj) : jsobj :=
  match json_value (JObj o) with JObj ps => ps | _ => [] end.

Inductive json_text : Type := JsonText (o : jsobj).

Definition JSON_stringify (o : jsobj) : json_text := JsonText (json_members o).

Definition JSON_parse (j : json_text) : jsobj :=
  match j with JsonText o => o end.

(** The text of a JSON value, as [JSON.stringify] writes it. *)

Definition dquote : string := String (ascii_of_nat 34) "".

Definition hex_digit (n : nat) : string :=
  String (nth n (list_ascii_of_string "0123456789abcdef") "0"%char) "".

Definition json_escape_char (c : ascii) : string :=
  let n := nat_of_ascii c in
  if (n =? 34)%nat then "\" ++ dquote
  else if (n =? 92)%nat then "\\"
  else if (n =? 8)%nat then "\b"
  else if (n =? 9)%nat then "\t"
  else if (n =? 10)%nat then "\n"
  else if (n =? 12)%nat then "\f"
  else if (n =? 13)%nat then "\r"
  else if (n <? 32)%nat then "\u00" ++ hex_digit (n / 16)%nat ++ hex_digit (n mod 16)%nat
  else String c "".

Fixpoint json_escape (s : string) : string :=
  match s with
  | EmptyString => EmptyString
  | String c s' => json_escape_char c ++ json_escape s'
  end.

Fixpoint json_render (v : jsval) : string :=
  match v with
  | JUndefined | JNull => "null"
  | JBool b => if b then "true" else "false"
  | JNum n => decimal n
  | JStr s => dquote ++ json_escape s ++ dquote
  | JArr items =>
      "[" ++ (fix elems (l : list jsval) : string :=
                match l with
                | [] => ""
                | x :: l' =>
                    match l' with
                    | [] => json_render x
                    | _ :: _ => json_render x ++ "," ++ elems l'
                    end
                end) items ++ "]"
  | JObj props =>
      "{" ++ (fix members (l : list (string * jsval)) : string :=
                match l with
                | [] => ""
                | (k, x) :: l' =>
                    let m := dquote ++ json_escape k ++ dquote ++ ":" ++ json_render x in
                    match l' with
                    | [] => m
                    | _ :: _ => m ++ "," ++ members l'
                    end
                end) props ++ "}"
  end.

(** ** The sqlite engine: values and operators *)

Inductive sqlval : Type :=
| SNull
| SInt (n : Z)
| SText (s : string)
| SJson (j : json_text).

(** The result of a condition: [None] is NULL; a WHERE clause keeps the rows
    on which its condition is [Some true]. *)
Definition sqlbool : Type := option bool.

Definition sql_and (a b : sqlbool) : sqlbool :=
  match a, b with
  | Some false, _ | _, Some false => Some false
  | Some true, Some true => Some true
  | _, _ => None
  end.

Definition sql_or (a b : sqlbool) : sqlbool :=
  match a, b with
  | Some true, _ | _, Some true => Some true
  | Some false, Some false => Some false
  | _, _ => None
  end.

Definition is_true (c : sqlbool) : bool :=
  match c with Some true => true | _ => false end.

(** A comparison of an INTEGER column with a bound value that is an integer
    or NULL. *)
Definition int_eq (col : Z) (p : option Z) : sqlbool :=
  option_map (fun n => col =? n) p.

Definition int_lt (col : Z) (p : option Z) : sqlbool :=
  option_map (fun n => col <? n) p.

(** The LIKE operator of sqlite with an ESCAPE character: [%] matches any
    run of characters, [_] any one character, the escape character makes
    the character after it stand for itself, and every other character
    stands for itself.  Two characters are the same when they are equal
    after the ASCII upper case letters are folded to lower case: the
    [case_sensitive_like] pragma is off unless a program turns it on, and
    the storage never does. *)

Definition same_char (a b : ascii) : bool :=
  Ascii.eqb (lower_char a) (lower_char b).

(** [rest] accepts [text] or what is left of it after some characters. *)
Fixpoint any_suffix (rest : list ascii -> bool) (text : list ascii) : bool :=
  rest text
  || match text with
     | [] => false
     | _ :: text' => any_suffix rest text'
     end.

Fixpoint like_chars (esc : ascii) (pat text : list ascii) {struct pat} : bool :=
  match pat with
  | [] => match text with [] => true | _ :: _ => false end
  | c :: pat' =>
      if Ascii.eqb c "%" then any_suffix (like_chars esc pat') text
      else if Ascii.eqb c esc then
        match pat' with
        | [] => false
        | lit :: pat'' =>
            match text with
            | [] => false
            | x :: t' => same_char lit x && like_chars esc pat'' t'
            end
        end
      else if Ascii.eqb c "_" then
        match text with [] => false | _ :: t' => like_chars esc pat' t' end
      else
        match text with
        | [] => false
        | x :: t' => same_char c x && like_chars esc pat' t'
        end
  end.

(** [X LIKE P ESCAPE E]: NULL when X is NULL, and a number is matched
    through its decimal text. *)
Definition sql_like (x : sqlval) (pattern : string) (esc : ascii) : sqlbool :=
  let go text :=
    Some (like_chars esc (list_ascii_of_string pattern)
                     (list_ascii_of_string text)) in
  match x with
  | SNull => None
  | SInt n => go (decimal n)
  | SText s => go s
  | SJson (JsonText o) => go (json_render (JObj o))
  end.

(** [json_extract(X, '$.k')]: the member [k] of the object that the JSON
    text X holds. *)
Definition json_extract (j : json_text) (k : string) : sqlval :=
  match obj_get (JSON_parse j) k with
  | JUndefined | JNull => SNull
  | JBool b => SInt (if b then 1 else 0)
  | JNum n => SInt n
  | JStr s => SText s
  | (JArr _ | JObj _) as v => SText (json_render v)
  end.

(** ORDER BY: the rows are inserted one by one into the ordered result;
    [before a b] says that [a] may stand in front of [b].  The engine
    leaves open the order of rows between which the ordering terms do not
    decide; here they stay in the order of the scan. *)
Section OrderBy.
Context {A : Type} (before : A -> A -> bool).

Fixpoint insert_row (a : A) (l : list A) : list A :=
  match l with
  | [] => [a]
  | b :: l' => if before a b then a :: l else b :: insert_row a l'
  end.

Fixpoint order_by (l : list A) : list A :=
  match l with
  | [] => []
  | a :: l' => insert_row a (order_by l')
  end.
End OrderBy.

(** LIMIT: a negative bound is no bound. *)
Definition sql_limit {A : Type} (n : Z) (l : list A) : list A :=
  if n <? 0 then l else firstn (Z.to_nat n) l.

(** ** The database file *)

(** A row of [messages (network TEXT, channel TEXT, time INTEGER, type TEXT,
    msg TEXT)] with its rowid. *)
Record message_row : Type := {
  col_rowid : Z;
  col_network : string;
  col_channel : string;
  col_time : Z;
  col_type : string;
  col_msg : json_text
}.

(** The tables and indexes that exist, the rows of [options (name, value)]
    and the rows of [messages] in rowid order. *)
Record sqlite_db : Type := {
  objects : list string;
  options : list (string * string);
  messages : list message_row
}.

Definition empty_db : sqlite_db :=
  {| objects := []; options := []; messages := [] |}.

(** The rowid given to an inserted row: one more than the largest in use. *)
Definition next_rowid (rows : list message_row) : Z :=
  fold_right (fun r m => Z.max (col_rowid r) m) 0 rows + 1.

(** ** The statements the engine is given

    [prepare] reads the text of a statement; the texts are those the
    storage submits, with [?] for the bound values. *)

Inductive statement : Type :=
| CreateObject (name : string)
| SelectVersion
| InsertVersion
| UpdateVersion
| InsertMessage
| DeleteChannel
| SelectHistory
| SelectSearch (by_network by_channel after_cursor : bool).

Definition search_text (by_network by_channel after_cursor : bool) : string :=
  "SELECT rowid, msg, type, time, network, channel FROM messages WHERE type = "
  ++ dquote ++ "message" ++ dquote ++ " AND json_extract(msg, "
  ++ dquote ++ "$.text" ++ dquote ++ ") LIKE ? ESCAPE '@'"
  ++ (if by_network then " AND network = ? " else "")
  ++ (if by_channel then " AND channel = ? " else "")
  ++ (if after_cursor then " AND ((time = ? AND rowid < ?) OR time < ?)" else "")
  ++ " ORDER BY time DESC, rowid DESC LIMIT ?".

Definition statement_texts : list (string * statement) :=
  [ ("CREATE TABLE IF NOT EXISTS options (name TEXT, value TEXT, CONSTRAINT name_unique UNIQUE (name))",
     CreateObject "options");
    ("CREATE TABLE IF NOT EXISTS messages (network TEXT, channel TEXT, time INTEGER, type TEXT, msg TEXT)",
     CreateObject "messages");
    ("CREATE INDEX IF NOT EXISTS network_channel ON messages (network, channel)",
     CreateObject "network_channel");
    ("CREATE INDEX IF NOT EXISTS time ON messages (time)",
     CreateObject "time");
    ("SELECT value FROM options WHERE name = 'schema_version'", SelectVersion);
    ("INSERT INTO options (name, value) VALUES ('schema_version', ?)", InsertVersion);
    ("UPDATE options SET value = ? WHERE name = 'schema_version'", UpdateVersion);
    ("INSERT INTO messages(network, channel, time, type, msg) VALUES(?, ?, ?, ?, ?)",
     InsertMessage);
    ("DELETE FROM messages WHERE network = ? AND channel = ?", DeleteChannel);
    ("SELECT msg, type, time FROM messages WHERE network = ? AND channel = ? ORDER BY time DESC LIMIT ?",
     SelectHistory) ]
  ++ map (fun '(n, c, p) => (search_text n c p, SelectSearch n c p))
         (list_prod (list_prod [false; true] [false; true]) [false; true]).

Definition prepare (sql : string) : option statement :=
  option_map snd (find (fun entry => String.eqb (fst entry) sql) statement_texts).

(** The value a TEXT column stores for a bound text or integer. *)
Definition stored_text (p : sqlval) : option string :=
  match p with
  | SText s => Some s
  | SInt n => Some (decimal n)
  | _ => None
  end.

Definition has_option (name : string) (db : sqlite_db) : bool :=
  existsb (fun o => String.eqb (fst o) name) (options db).

Definition with_objects (db : sqlite_db) (os : list string) : sqlite_db :=
  {| objects := os; options := options db; messages := messages db |}.

Definition with_options (db : sqlite_db) (os : list (string * string)) : sqlite_db :=
  {| objects := objects db; options := os; messages := messages db |}.

Definition with_messages (db : sqlite_db) (rows : list message_row) : sqlite_db :=
  {| objects := objects db; options := options db; messages := rows |}.

(** [network = ? AND channel = ?] *)
Definition in_channel (network channel : string) (r : message_row) : bool :=
  String.eqb (col_network r) network && String.eqb (col_channel r) channel.

(** [Database#run]: a statement that returns no rows.  The answer is the
    error, if any, and the database afterwards; a statement in error
    changes nothing. *)
Definition exec_run (sql : string) (params : list sqlval) (db : sqlite_db)
  : option string * sqlite_db :=
  match prepare sql, params with
  | Some (CreateObject name), [] =>
      if existsb (String.eqb name) (objects db) then (None, db)
      else (None, with_objects db (objects db ++ [name]))
  | Some InsertVersion, [p] =>
      match stored_text p with
      | Some v =>
          if has_option "schema_version" db
          then (Some "SQLITE_CONSTRAINT: UNIQUE constraint failed: options.name", db)
          else (None, with_options db (options db ++ [("schema_version", v)]))
      | None => (Some "SQLITE_MISMATCH", db)
      end
  | Some UpdateVersion, [p] =>
      match stored_text p with
      | Some v =>
          (None, with_options db
                   (map (fun o => if String.eqb (fst o) "schema_version"
                                  then (fst o, v) else o) (options db)))
      | None => (Some "SQLITE_MISMATCH", db)
      end
  | Some InsertMessage, [SText network; SText channel; SInt time; SText type; SJson msg] =>
      (None, with_messages db
               (messages db ++
                [{| col_rowid := next_rowid (messages db);
                    col_network := network; col_channel := channel;
                    col_time := time; col_type := type; col_msg := msg |}]))
  | Some DeleteChannel, [SText network; SText channel] =>
      (None, with_messages db
               (filter (fun r => negb (in_channel network channel r)) (messages db)))
  | _, _ => (Some "SQLITE_ERROR", db)
  end.

(** [Database#get]: the first row of the answer, here its [value]. *)
Definition exec_get (sql : string) (params : list sqlval) (db : sqlite_db)
  : option string * option string :=
  match prepare sql, params with
  | Some SelectVersion, [] =>
      (None, option_map snd
               (find (fun o => String.eqb (fst o) "schema_version") (options db)))
  | _, _ => (Some "SQLITE_ERROR", None)
  end.

(** [ORDER BY time DESC] and [ORDER BY time DESC, rowid DESC]. *)
Definition time_desc (a b : message_row) : bool :=
  col_time b <=? col_time a.

Definition time_rowid_desc (a b : message_row) : bool :=
  (col_time b <? col_time a)
  || ((col_time b =? col_time a) && (col_rowid b <=? col_rowid a)).

(** Reading the bound values of a statement from left to right. *)
Definition pop_text (ps : list sqlval) : option (string * list sqlval) :=
  match ps with
  | SText s :: ps' => Some (s, ps')
  | _ => None
  end.

Definition pop_int (ps : list sqlval) : option (option Z * list sqlval) :=
  match ps with
  | SInt n :: ps' => Some (Some n, ps')
  | SNull :: ps' => Some (None, ps')
  | _ => None
  end.

Definition pop_when {A : Type} (present : bool)
    (pop : list sqlval -> option (A * list sqlval)) (ps : list sqlval)
  : option (option A * list sqlval) :=
  if present then
    match pop ps with
    | Some (a, ps') => Some (Some a, ps')
    | None => None
    end
  else Some (None, ps).

Definition pop_cursor (ps : list sqlval)
  : option ((option Z * option Z * option Z) * list sqlval) :=
  match pop_int ps with
  | Some (t1, ps1) =>
      match pop_int ps1 with
      | Some (i, ps2) =>
          match pop_int ps2 with
          | Some (t2, ps3) => Some ((t1, i, t2), ps3)
          | None => None
          end
      | None => None
      end
  | None => None
  end.

(** The WHERE clause of the search statement, with the optional terms that
    the statement text carries. *)
Definition search_condition (pattern : string) (network channel : option string)
    (cursor : option (option Z * option Z * option Z)) (r : message_row) : sqlbool :=
  let c0 := sql_and (Some (String.eqb (col_type r) "message"))
                    (sql_like (json_extract (col_msg r) "text") pattern "@") in
  let c1 := match network with
            | Some n => sql_and c0 (Some (String.eqb (col_network r) n))
            | None => c0
            end in
  let c2 := match channel with
            | Some c => sql_and c1 (Some (String.eqb (col_channel r) c))
            | None => c1
            end in
  match cursor with
  | Some (t1, i, t2) =>
      sql_and c2 (sql_or (sql_and (int_eq (col_time r) t1) (int_lt (col_rowid r) i))
                         (int_lt (col_time r) t2))
  | None => c2
  end.

Definition run_search (by_network by_channel after_cursor : bool)
    (params : list sqlval) (db : sqlite_db) : option (list message_row) :=
  match pop_text params with
  | Some (pattern, ps0) =>
      match pop_when by_network pop_text ps0 with
      | Some (network, ps1) =>
          match pop_when by_channel pop_text ps1 with
          | Some (channel, ps2) =>
              match pop_when after_cursor pop_cursor ps2 with
              | Some (cursor, [SInt limit]) =>
                  Some (sql_limit limit
                          (order_by time_rowid_desc
                             (filter (fun r => is_true (search_condition
                                                          pattern network channel cursor r))
                                     (messages db))))
              | _ => None
              end
          | None => None
          end
      | None => None
      end
  | None => None
  end.

(** [Database#all]: every row of the answer. *)
Definition exec_all (sql : string) (params : list sqlval) (db : sqlite_db)
  : option string * list message_row :=
  match prepare sql, params with
  | Some SelectHistory, [SText network; SText channel; SInt limit] =>
      (None, sql_limit limit
               (order_by time_desc (filter (in_channel network channel) (messages db))))
  | Some (SelectSearch n c p), _ =>
      match run_search n c p params db with
      | Some rows => (None, rows)
      | None => (Some "SQLITE_MISMATCH", [])
      end
  | _, _ => (Some "SQLITE_ERROR", [])
  end.

(** The properties of a row as the callbacks of [Database#all] see it: one
    property for each column of the SELECT list, nothing else. *)
Definition history_columns : list string := ["msg"; "type"; "time"].

Definition search_columns : list string :=
  ["rowid"; "msg"; "type"; "time"; "network"; "channel"].

Definition row_prop (columns : list string) (row : message_row) (k : string) : jsval :=
  if negb (existsb (String.eqb k) columns) then JUndefined
  else if String.eqb k "rowid" then JNum (col_rowid row)
  else if String.eqb k "network" then JStr (col_network row)
  else if String.eqb k "channel" then JStr (col_channel row)
  else if String.eqb k "time" then JNum (col_time row)
  else if String.eqb k "type" then JStr (col_type row)
  else if String.eqb k "msg" then JStr (json_render (JObj (JSON_parse (col_msg row))))
  else JUndefined.

(** ** The collaborators of the storage *)

Record Client : Type := { client_name : string; idMsg : Z }.

Record Network : Type := { uuid : string }.

Record Chan : Type := { name : string }.

(** A message handed to [index]: its own properties in key order, the
    epoch milliseconds of the Date in [msg.time], and the tag in
    [msg.type]. *)
Record Message : Type := {
  fields : jsobj;
  time : Z;
  type : string
}.

(** [Helper.config]. *)
Record Config : Type := { maxHistory : Z }.

(** Modelled from the spec: the constructor of [models/msg] is not part of
    the sources at hand.  A row is deserialized into a domain message
    object that carries the payload fields with the column-sourced values
    written over them, so the object built from [attr] has the properties
    of [attr]. *)
Definition Msg (attr : jsobj) : jsval := JObj attr.

Inductive promise : Type :=
| Resolved (v : jsval)
| Rejected (err : string).

(** What a call leaves behind for the outside: the lines it logs and the
    invocation of the callback it was given. *)
Inductive effect : Type :=
| LogError (message : string)
| LogInfo (message : string)
| Callback (err : option string).

(** A method either returns or throws. *)
Inductive completion (A : Type) : Type :=
| Normal (a : A)
| Throw (e : string).
Arguments Normal {A} a.
Arguments Throw {A} e.

(** ** class MessageStorage *)

Definition currentSchemaVersion : Z := 1520239200.

Definition schema : list string :=
  [ "CREATE TABLE IF NOT EXISTS options (name TEXT, value TEXT, CONSTRAINT name_unique UNIQUE (name))";
    "CREATE TABLE IF NOT EXISTS messages (network TEXT, channel TEXT, time INTEGER, type TEXT, msg TEXT)";
    "CREATE INDEX IF NOT EXISTS network_channel ON messages (network, channel)";
    "CREATE INDEX IF NOT EXISTS time ON messages (time)" ].

(** [database] is [None] until [enable] opens the file. *)
Record MessageStorage : Type := {
  client : Client;
  isEnabled : bool;
  database : option sqlite_db
}.

Definition constructor (client : Client) : MessageStorage :=
  {| client := client; isEnabled := false; database := None |}.

Definition set_isEnabled (this : MessageStorage) (b : bool) : MessageStorage :=
  {| client := client this; isEnabled := b; database := database this |}.

Definition set_database (this : MessageStorage) (db : sqlite_db) : MessageStorage :=
  {| client := client this; isEnabled := isEnabled this; database := Some db |}.

Definition set_client (this : MessageStorage) (c : Client) : MessageStorage :=
  {| client := c; isEnabled := isEnabled this; database := database this |}.

(** [this.database.run(sql, ...params)] without a callback: an error of
    the statement is dropped.  Reading [this.database] before [enable] has
    set it throws. *)
Definition database_run (this : MessageStorage) (sql : string) (params : list sqlval)
  : completion MessageStorage :=
  match database this with
  | None => Throw "TypeError: Cannot read properties of undefined"
  | Some db => Normal (set_database this (snd (exec_run sql params db)))
  end.

(** [parseInt(s, 10)]: leading white space, an optional sign, then the
    longest run of decimal digits; [None] is NaN. *)
Definition is_space (c : ascii) : bool :=
  let n := nat_of_ascii c in
  (((9 <=? n) && (n <=? 13)) || (n =? 32))%nat.

Definition digit_of (c : ascii) : option Z :=
  let n := nat_of_ascii c in
  if ((48 <=? n) && (n <=? 57))%nat then Some (Z.of_nat (n - 48)) else None.

Fixpoint skip_spaces (s : string) : string :=
  match s with
  | String c s' => if is_space c then skip_spaces s' else s
  | EmptyString => s
  end.

Fixpoint read_digits (acc : option Z) (s : string) : option Z :=
  match s with
  | String c s' =>
      match digit_of c with
      | Some d =>
          read_digits (Some (10 * match acc with Some a => a | None => 0 end + d)) s'
      | None => acc
      end
  | EmptyString => acc
  end.

Definition parseInt (s : string) : option Z :=
  match skip_spaces s with
  | String "-" s' => option_map Z.opp (read_digits None s')
  | String "+" s' => read_digits None s'
  | s' => read_digits None s'
  end.

(** How a template literal prints a number. *)
Definition number_text (n : option Z) : string :=
  match n with Some z => decimal z | None => "NaN" end.

(** The callback of the version query in [enable]: the lines it logs and
    the statement it submits, if any. *)
Definition schema_version_callback (err : option string) (row : option string)
  : list effect * option (string * list sqlval) :=
  match err with
  | Some e => ([LogError ("Failed to retrieve schema version: " ++ e)], None)
  | None =>
      match row with
      | None =>
          ([], Some ("INSERT INTO options (name, value) VALUES ('schema_version', ?)",
                     [SInt currentSchemaVersion]))
      | Some value =>
          let storedSchemaVersion := parseInt value in
          if match storedSchemaVersion with
             | Some v => v =? currentSchemaVersion
             | None => false
             end
          then ([], None)
          else if match storedSchemaVersion with
                  | Some v => currentSchemaVersion <? v
                  | None => false
                  end
          then ([LogError ("sqlite messages schema version is higher than expected ("
                           ++ number_text storedSchemaVersion ++ " > "
                           ++ decimal currentSchemaVersion
                           ++ "). Is The Lounge out of date?")], None)
          else ([LogInfo ("sqlite messages schema version is out of date ("
                          ++ number_text storedSchemaVersion ++ " < "
                          ++ decimal currentSchemaVersion
                          ++ "). Running migrations if any.")],
                Some ("UPDATE options SET value = ? WHERE name = 'schema_version'",
                      [SInt currentSchemaVersion]))
      end
  end.

(** [enable()], with the sqlite3 module loaded.  [mkdir] is the outcome of
    [fs.mkdirSync] ([Some e] when it throws [e]) and [file] what the file
    at [sqlitePath] holds when it is opened, [empty_db] for a new file.
    The statements run in the order in which [serialize] queues them. *)
Definition enable (mkdir : option string) (file : sqlite_db) (this : MessageStorage)
  : MessageStorage * list effect :=
  match mkdir with
  | Some e => (this, [LogError ("Unable to create logs directory " ++ e)])
  | None =>
      let this := set_isEnabled this true in
      let db := fold_left (fun db line => snd (exec_run line [] db)) schema file in
      let '(err, row) :=
        exec_get "SELECT value FROM options WHERE name = 'schema_version'" [] db in
      let '(log, next) := schema_version_callback err row in
      let db := match next with
                | Some (sql, params) => snd (exec_run sql params db)
                | None => db
                end in
      (set_database this db, log)
  end.

(** [enable()] in a process where [require("sqlite3")] threw, so that
    [sqlite3] is [undefined]: line 49 sets the flag and line 51 throws on
    [sqlite3.Database], before [this.database] is assigned.  The answer
    is the storage afterwards, the lines logged, and the error thrown, if
    one was. *)
Definition enable_without_sqlite3 (mkdir : option string) (this : MessageStorage)
  : MessageStorage * list effect * option string :=
  match mkdir with
  | Some e => (this, [LogError ("Unable to create logs directory " ++ e)], None)
  | None =>
      let this := set_isEnabled this true in
      (this, [], Some "TypeError: Cannot read properties of undefined")
  end.

(** The callback that [close] hands to [Database#close]. *)
Definition close_callback (callback : bool) (err : option string) : list effect :=
  match err with
  | Some e => [LogError ("Failed to close sqlite database: " ++ e)]
  | None => []
  end
  ++ (if callback then [Callback err] else []).

(** [close(callback)] either returns at once, or calls [Database#close]
    with the storage in the state [this] and the callback [on_closed],
    which the handle invokes with its error when it has closed. *)
Inductive close_result : Type :=
| CloseReturned (this : MessageStorage)
| CloseRequested (this : MessageStorage) (on_closed : option string -> list effect).

Definition close (this : MessageStorage) (callback : bool) : completion close_result :=
  if negb (isEnabled this) then Normal (CloseReturned this)
  else
    let this := set_isEnabled this false in
    match database this with
    | None => Throw "TypeError: Cannot read properties of undefined"
    | Some _ => Normal (CloseRequested this (close_callback callback))
    end.

Definition index (this : MessageStorage) (network : Network) (channel : Chan)
    (msg : Message) : completion MessageStorage :=
  if negb (isEnabled this) then Normal this
  else
    let clonedMsg :=
      fold_left
        (fun (newMsg : jsobj) prop =>
           if negb (String.eqb prop "id") && negb (String.eqb prop "previews")
              && negb (String.eqb prop "type") && negb (String.eqb prop "time")
           then obj_set newMsg prop (obj_get (fields msg) prop)
           else newMsg)
        (Object_keys (fields msg)) [] in
    database_run this
      "INSERT INTO messages(network, channel, time, type, msg) VALUES(?, ?, ?, ?, ?)"
      [ SText (uuid network); SText (toLowerCase (name channel));
        SInt (time msg); SText (type msg); SJson (JSON_stringify clonedMsg) ].

Definition deleteChannel (this : MessageStorage) (network : Network) (channel : Chan)
  : completion MessageStorage :=
  if negb (isEnabled this) then Normal this
  else
    database_run this
      "DELETE FROM messages WHERE network = ? AND channel = ?"
      [ SText (uuid network); SText (toLowerCase (name channel)) ].

Definition canProvideMessages (this : MessageStorage) : bool := isEnabled this.

(** The mapper of [getMessages]: one row becomes one message, which takes
    the next message id of the client. *)
Definition history_message (this : MessageStorage) (row : message_row)
  : jsval * MessageStorage :=
  let msg := JSON_parse (col_msg row) in
  let msg := obj_set msg "time" (row_prop history_columns row "time") in
  let msg := obj_set msg "type" (row_prop history_columns row "type") in
  let newMsg := Msg msg in
  let newMsg := set_prop newMsg "id" (JNum (idMsg (client this))) in
  (newMsg,
   set_client this {| client_name := client_name (client this);
                      idMsg := idMsg (client this) + 1 |}).

Fixpoint history_messages (this : MessageStorage) (rows : list message_row)
  : list jsval * MessageStorage :=
  match rows with
  | [] => ([], this)
  | row :: rows' =>
      let '(m, this1) := history_message this row in
      let '(ms, this2) := history_messages this1 rows' in
      (m :: ms, this2)
  end.

(** The callback of the query of [getMessages]. *)
Definition getMessages_callback (this : MessageStorage) (err : option string)
    (rows : list message_row) : promise * MessageStorage :=
  match err with
  | Some e => (Rejected e, this)
  | None =>
      let '(ms, this') := history_messages this (rev rows) in
      (Resolved (JArr ms), this')
  end.

(** [getMessages(network, channel)]: the promise, settled, the storage
    afterwards, and the statement given to the engine, if one was.  With
    no database the TypeError is thrown inside the executor of the
    promise, which rejects the promise. *)
Definition getMessages (config : Config) (this : MessageStorage)
    (network : Network) (channel : Chan)
  : completion (promise * MessageStorage * option (string * list sqlval)) :=
  if negb (isEnabled this) || (maxHistory config =? 0)
  then Normal (Resolved (JArr []), this, None)
  else
    let limit := if maxHistory config <? 0 then 100000 else maxHistory config in
    let sql :=
      "SELECT msg, type, time FROM messages WHERE network = ? AND channel = ? ORDER BY time DESC LIMIT ?" in
    let params :=
      [ SText (uuid network); SText (toLowerCase (name channel)); SInt limit ] in
    match database this with
    | None =>
        Normal (Rejected "TypeError: Cannot read properties of undefined", this, None)
    | Some db =>
        let '(err, rows) := exec_all sql params db in
        let '(p, this') := getMessages_callback this err rows in
        Normal (p, this', Some (sql, params))
    end.

Fixpoint parseSearchRowsToMessages (rows : list message_row) : list jsval :=
  match rows with
  | [] => []
  | row :: rows' =>
      let msg := JSON_parse (col_msg row) in
      let msg := obj_set msg "time" (row_prop search_columns row "time") in
      let msg := obj_set msg "type" (row_prop search_columns row "type") in
      let msg := obj_set msg "networkUuid" (row_prop search_columns row "network") in
      let msg := obj_set msg "channelName" (row_prop search_columns row "channel") in
      let msg := obj_set msg "id" (row_prop search_columns row "id") in
      Msg msg :: parseSearchRowsToMessages rows'
  end.

(** The query object of [search]; a field that may be left out is [None]
    when it is. *)
Record SearchQuery : Type := {
  searchTerm : string;
  networkUuid : option string;
  channelName : option string;
  lastTime : option Z;
  lastId : option Z
}.

(** [s.replace(/([%_@])/g, "@$1")] *)
Definition is_special (c : ascii) : bool :=
  Ascii.eqb c "%" || Ascii.eqb c "_" || Ascii.eqb c "@".

Fixpoint escape_specials (s : string) : string :=
  match s with
  | EmptyString => EmptyString
  | String c s' =>
      if is_special c then String "@" (String c (escape_specials s'))
      else String c (escape_specials s')
  end.

(** How a value is bound to a [?]: a string as text, a number as an
    integer, and [undefined] leaves the place unbound, which is NULL. *)
Definition bind_string (o : option string) : sqlval :=
  match o with Some s => SText s | None => SNull end.

Definition bind_number (o : option Z) : sqlval :=
  match o with Some n => SInt n | None => SNull end.

Definition maxResults : Z := 100.

(** The statement that [search] builds: its text and its bound values. *)
Definition search_statement (query : SearchQuery) : string * list sqlval :=
  let escapedSearchTerm := escape_specials (searchTerm query) in
  let select :=
    "SELECT rowid, msg, type, time, network, channel FROM messages WHERE type = "
    ++ dquote ++ "message" ++ dquote ++ " AND json_extract(msg, "
    ++ dquote ++ "$.text" ++ dquote ++ ") LIKE ? ESCAPE '@'" in
  let params := [ SText ("%" ++ escapedSearchTerm ++ "%") ] in
  let '(select, params) :=
    if truthy (js_of_string (networkUuid query))
    then (select ++ " AND network = ? ", (params ++ [bind_string (networkUuid query)])%list)
    else (select, params) in
  let '(select, params) :=
    if truthy (js_of_string (channelName query))
    then (select ++ " AND channel = ? ",
          (params ++ [bind_string (option_map toLowerCase (channelName query))])%list)
    else (select, params) in
  let '(select, params) :=
    if truthy (js_of_number (lastTime query))
    then (select ++ " AND ((time = ? AND rowid < ?) OR time < ?)",
          (params ++ [ bind_number (lastTime query); bind_number (lastId query);
                       bind_number (lastTime query) ])%list)
    else (select, params) in
  let select := select ++ " ORDER BY time DESC, rowid DESC" in
  let select := select ++ " LIMIT ?" in
  (select, (params ++ [SInt maxResults])%list).

(** The callback of the query of [search]. *)
Definition search_callback (query : SearchQuery) (err : option string)
    (rows : list message_row) : promise :=
  match err with
  | Some e => Rejected e
  | None =>
      let results := rev (parseSearchRowsToMessages rows) in
      let first := nth 0 results JUndefined in
      let response :=
        JObj [ ("searchTerm", JStr (searchTerm query));
               ("target", js_of_string (channelName query));
               ("networkUuid", js_of_string (networkUuid query));
               ("lastTime", if truthy first then get_prop first "time" else JNum (-1));
               ("lastId", if truthy first then get_prop first "rowid" else JNum (-1));
               ("results", JArr results) ] in
      Resolved response
  end.

Definition search (this : MessageStorage) (query : SearchQuery) : completion promise :=
  if negb (isEnabled this) then Normal (Resolved (JArr []))
  else
    let '(select, params) := search_statement query in
    match database this with
    | None => Normal (Rejected "TypeError: Cannot read properties of undefined")
    | Some db =>
        let '(err, rows) := exec_all select params db in
        Normal (search_callback query err rows)
    end.

(** ** Notions used to state the properties *)


(** The same, up to the case of the ASCII letters. *)
Definition same_text (a b : string) : Prop :=
  Forall2 (fun x y => same_char x y = true)
          (list_ascii_of_string a) (list_ascii_of_string b).

Definition contains_nocase (term text : string) : Prop :=
  exists before found after,
    text = before ++ found ++ after /\ same_text term found.

(** The text that the search compares: the member [text] of the payload,
    as the engine hands it to LIKE. *)
Definition extracted_text (r : message_row) : option string :=
  match json_extract (col_msg r) "text" with
  | SText s => Some s
  | SInt n => Some (decimal n)
  | _ => None
  end.

(** The LIKE pattern that [search] binds for a term. *)
Definition search_pattern (term : string) : string :=
  "%" ++ escape_specials term ++ "%".

(** A scoping field of the query counts when it is truthy. *)
Definition scope (o : option string) : option string :=
  if truthy (js_of_string o) then o else None.

(** The rows that a search for [query] is about: those that satisfy its
    condition on the type, the text and the scope, whatever the cursor. *)
Definition matches (query : SearchQuery) (r : message_row) : bool :=
  is_true (search_condition (search_pattern (searchTerm query))
                            (scope (networkUuid query))
                            (option_map toLowerCase (scope (channelName query)))
                            None r).

Definition matching (query : SearchQuery) (db : sqlite_db) : list message_row :=
  filter (matches query) (messages db).

(** The rows that the engine answers to the statement of [search]: the
    rows of the page, latest first. *)
Definition search_rows (this : MessageStorage) (query : SearchQuery) : list message_row :=
  match database this with
  | Some db =>
      snd (exec_all (fst (search_statement query)) (snd (search_statement query)) db)
  | None => []
  end.

(** The rows that the engine answers to the statement of [getMessages]. *)
Definition history_limit (config : Config) : Z :=
  if maxHistory config <? 0 then 100000 else maxHistory config.

Definition history_rows (config : Config) (db : sqlite_db)
    (network : Network) (channel : Chan) : list message_row :=
  sql_limit (history_limit config)
    (order_by time_desc
       (filter (in_channel (uuid network) (toLowerCase (name channel))) (messages db))).

(** A caller that pages through the results of a search: it calls [search],
    reads the cursor of the response, and calls again with that cursor,
    until the cursor is the sentinel.  The answer lists the rows of the
    pages in the order in which they were delivered by the engine; [None]
    when [fuel] calls did not reach the sentinel.  A cursor field that
    holds no number goes into the next query as a field left out. *)
Definition as_number (v : jsval) : option Z :=
  match v with JNum n => Some n | _ => None end.

Definition is_sentinel (lastTime lastId : jsval) : bool :=
  match lastTime, lastId with
  | JNum t, JNum i => (t =? -1) && (i =? -1)
  | _, _ => false
  end.

Definition with_cursor (query : SearchQuery) (t i : option Z) : SearchQuery :=
  {| searchTerm := searchTerm query;
     networkUuid := networkUuid query;
     channelName := channelName query;
     lastTime := t;
     lastId := i |}.

Fixpoint paginate (fuel : nat) (this : MessageStorage) (query : SearchQuery)
  : option (list message_row) :=
  match fuel with
  | O => None
  | S fuel' =>
      match search this query with
      | Normal (Resolved response) =>
          let t := get_prop response "lastTime" in
          let i := get_prop response "lastId" in
          if is_sentinel t i then Some (search_rows this query)
          else
            option_map (app (search_rows this query))
              (paginate fuel' this (with_cursor query (as_number t) (as_number i)))
      | _ => None
      end
  end.

(** The caller that the composite cursor is made for: it asks for the rows
    before the last row of the page it was given, by the time and the
    rowid of that row, and stops at the empty page. *)
Fixpoint paginate_by_rowid (fuel : nat) (this : MessageStorage) (query : SearchQuery)
  : option (list message_row) :=
  match fuel with
  | O => None
  | S fuel' =>
      match search this query with
      | Normal (Resolved _) =>
          let rows := search_rows this query in
          match rev rows with
          | [] => Some []
          | last :: _ =>
              option_map (app rows)
                (paginate_by_rowid fuel' this
                   (with_cursor query (Some (col_time last)) (Some (col_rowid last))))
          end
      | _ => None
      end
  end.

(** [r] comes strictly after [x] in the order of the search. *)
Definition after_row (x r : message_row) : bool :=
  ((col_time r =? col_time x) && (col_rowid r <? col_rowid x))
  || (col_time r <? col_time x).

(** What the callback of [close] leaves behind when the handle reports
    [err]; nothing when [close] returned without calling the handle. *)
Definition close_effects (r : completion close_result) (err : option string)
  : list effect :=
  match r with
  | Normal (CloseRequested _ on_closed) => on_closed err
  | _ => []
  end.

(** The [time] of a delivered message. *)
Definition message_time (m : jsval) : jsval := get_prop m "time".

Definition first_query (term : string) (network channel : option string) : SearchQuery :=
  {| searchTerm := term; networkUuid := network; channelName := channel;
     lastTime := None; lastId := None |}.

(** The values that [search] binds after the pattern. *)
Definition text_params (o : option string) : list sqlval :=
  match o with Some s => [SText s] | None => [] end.

Definition cursor_params (query : SearchQuery) : list sqlval :=
  if truthy (js_of_number (lastTime query))
  then [ bind_number (lastTime query); bind_number (lastId query);
         bind_number (lastTime query) ]
  else [].

(** The cursor that the statement of [search] carries, and the condition
    that its WHERE clause puts on a row. *)
Definition search_cursor (query : SearchQuery)
  : option (option Z * option Z * option Z) :=
  if truthy (js_of_number (lastTime query))
  then Some (lastTime query, lastId query, lastTime query)
  else None.

Definition page_condition (query : SearchQuery) (r : message_row) : sqlbool :=
  search_condition (search_pattern (searchTerm query))
                   (scope (networkUuid query))
                   (option_map toLowerCase (scope (channelName query)))
                   (search_cursor query) r.

(** The file after the statements of [schema], and the version that the
    file records. *)
Definition create_schema (file : sqlite_db) : sqlite_db :=
  fold_left (fun db line => snd (exec_run line [] db)) schema file.

Definition stored_version (db : sqlite_db) : option string :=
  option_map snd (find (fun o => String.eqb (fst o) "schema_version") (options db)).

Definition schema_objects : list string :=
  ["options"; "messages"; "network_channel"; "time"].

(** ** A storage to try things on

    The storage of a client after [enable] on a new file and after the
    given messages have been indexed, one after the other. *)
Definition example_client : Client := {| client_name := "alice"; idMsg := 1 |}.

Definition example_network : Network := {| uuid := "net-1" |}.

Definition example_message (t : Z) (text : string) : Message :=
  {| fields := [ ("text", JStr text); ("id", JNum 0); ("previews", JArr []);
                 ("self", JBool false) ];
     time := t;
     type := "message" |}.

Definition index_all (this : MessageStorage)
    (entries : list (Network * Chan * Message)) : MessageStorage :=
  fold_left (fun st '(network, channel, msg) =>
               match index st network channel msg with
               | Normal st' => st'
               | Throw _ => st
               end) entries this.

Definition fresh_storage : MessageStorage :=
  fst (enable None empty_db (constructor example_client)).

(** Three messages in the channel [#a], at the times 100, 300 and 200. *)
Definition example_storage : MessageStorage :=
  index_all fresh_storage
    [ (example_network, {| name := "#a" |}, example_message 100 "first one");
      (example_network, {| name := "#a" |}, example_message 300 "third one");
      (example_network, {| name := "#a" |}, example_message 200 "second") ].

Definition example_db : sqlite_db :=
  match database example_storage with Some db => db | None => empty_db end.

Definition file_at_version (value : string) : sqlite_db :=
  {| objects := schema_objects;
     options := [("schema_version", value)];
     messages := messages example_db |}.

(** The characters that [escape_specials] writes for one character. *)
Definition escaped_char (c : ascii) : list ascii :=
  if is_special c then ["@"%char; c] else [c].

(** The message [m] is the one that [getMessages] builds from [row]: the
    payload of the row with the [time] and the [type] of its columns (and
    an [id] of its own). *)
Definition delivers (m : jsval) (row : message_row) : Prop :=
  message_time m = JNum (col_time row)
  /\ get_prop m "type" = JStr (col_type row)
  /\ forall k, k <> "time" -> k <> "type" -> k <> "id" ->
       get_prop m k = obj_get (JSON_parse (col_msg row)) k.

(** 101 messages that share one time. *)
Definition crowded_storage : MessageStorage :=
  index_all fresh_storage
    (repeat (example_network, {| name := "#a" |}, example_message 500 "tick") 101).

Definition crowded_db : sqlite_db :=
  match database crowded_storage with Some db => db | None => empty_db end.


(** The message that [parseSearchRowsToMessages] builds from one row. *)
Definition search_message (row : message_row) : jsval :=
  match parseSearchRowsToMessages [row] with
  | m :: _ => m
  | [] => JUndefined
  end.

(** No number stands twice in the list. *)
Fixpoint distinct (l : list Z) : bool :=
  match l with
  | [] => true
  | x :: l' => negb (existsb (Z.eqb x) l') && distinct l'
  end.

(** The matching rows in the order of the search, and the size of a page. *)
Definition found_rows (query : SearchQuery) (db : sqlite_db) : list message_row :=
  order_by time_rowid_desc (matching query db).

Definition page_size : nat := Z.to_nat maxResults.

(** ** The rest of the module *)

(** The body of the module, lines 9 to 19: when [require("sqlite3")]
    throws, the storage takes itself out of [Helper.config.messageStorage]
    and logs the failure.  The answer is the list afterwards and the lines
    logged. *)
Definition load_sqlite3 (loads : bool) (messageStorage : list string)
  : list string * list effect :=
  if loads then (messageStorage, [])
  else
    (filter (fun item => negb (String.eqb item "sqlite")) messageStorage,
     [LogError "Unable to load node-sqlite3 module. See https://github.com/mapbox/node-sqlite3/wiki/Binaries"]).

(** The properties that [index] keeps out of the payload. *)
Definition kept_out (prop : string) : bool :=
  String.eqb prop "id" || String.eqb prop "previews"
  || String.eqb prop "type" || String.eqb prop "time".

(** The object [clonedMsg] that [index] builds from a message. *)
Definition clonedMsg_of (msg : Message) : jsobj :=
  fold_left
    (fun (newMsg : jsobj) prop =>
       if negb (String.eqb prop "id") && negb (String.eqb prop "previews")
          && negb (String.eqb prop "type") && negb (String.eqb prop "time")
       then obj_set newMsg prop (obj_get (fields msg) prop)
       else newMsg)
    (Object_keys (fields msg)) [].

(** The row that [index] writes. *)
Definition indexed_row (db : sqlite_db) (network : Network) (channel : Chan)
    (msg : Message) : message_row :=
  {| col_rowid := next_rowid (messages db);
     col_network := uuid network;
     col_channel := toLowerCase (name channel);
     col_time := time msg;
     col_type := type msg;
     col_msg := JSON_stringify (clonedMsg_of msg) |}.

(** What [JSON.stringify] followed by [JSON.parse] makes of a property
    value: [undefined] is a property that is gone. *)
Definition through_json (v : jsval) : jsval :=
  match v with
  | JUndefined => JUndefined
  | _ => json_value v
  end.

(** The storages that the methods make from a new one, in a process in
    which the sqlite3 module has loaded. *)
Inductive reachable : MessageStorage -> Prop :=
| reach_constructor (c : Client) : reachable (constructor c)
| reach_enable (mkdir : option string) (file : sqlite_db) (this : MessageStorage) :
    reachable this -> reachable (fst (enable mkdir file this))
| reach_close (this this' : MessageStorage) (callback : bool)
    (on_closed : option string -> list effect) :
    reachable this ->
    close this callback = Normal (CloseRequested this' on_closed) ->
    reachable this'
| reach_index (this this' : MessageStorage) (network : Network) (channel : Chan)
    (msg : Message) :
    reachable this -> index this network channel msg = Normal this' -> reachable this'
| reach_deleteChannel (this this' : MessageStorage) (network : Network) (channel : Chan) :
    reachable this -> deleteChannel this network channel = Normal this' -> reachable this'
| reach_getMessages (config : Config) (this this' : MessageStorage)
    (network : Network) (channel : Chan) (p : promise)
    (statement : option (string * list sqlval)) :
    reachable this ->
    getMessages config this network channel = Normal (p, this', statement) ->
    reachable this'.

(** Every channel name in the table is in lower case. *)
Definition channels_lowercase (db : sqlite_db) : Prop :=
  Forall (fun r => col_channel r = toLowerCase (col_channel r)) (messages db).

(** The ids [first], [first + 1], ... of [n] messages. *)
Definition ids_from (first : Z) (n : nat) : list jsval :=
  map (fun k => JNum (first + Z.of_nat k)) (seq 0 n).

(** * Properties *)

(** ** The statement of a search *)

Lemma search_statement_shape (query : SearchQuery) :
  search_statement query =
    (search_text (truthy (js_of_string (networkUuid query)))
                 (truthy (js_of_string (channelName query)))
                 (truthy (js_of_number (lastTime query))),
     ([SText (search_pattern (searchTerm query))]
        ++ text_params (scope (networkUuid query))
        ++ text_params (option_map toLowerCase (scope (channelName query)))
        ++ cursor_params query
        ++ [SInt maxResults])%list).
Proof.
  destruct query as [term net chan t i].
  unfold search_statement, cursor_params, text_params, scope,
    search_pattern; cbn [searchTerm networkUuid channelName lastTime lastId].
  destruct net as [n|]; [destruct (truthy (js_of_string (Some n))) eqn:En|];
    (destruct chan as [c|]; [destruct (truthy (js_of_string (Some c))) eqn:Ec|]);
    (destruct t as [z|]; [destruct (truthy (js_of_number (Some z))) eqn:Et|]);
    cbn [option_map js_of_string js_of_number truthy bind_string app];
    rewrite ?En, ?Ec, ?Et;
    (apply (f_equal2 pair); [vm_compute; reflexivity | reflexivity]).
Qed.

Lemma prepare_search_text (n c p : bool) :
  prepare (search_text n c p) = Some (SelectSearch n c p).
Proof. destruct n, c, p; vm_compute; reflexivity. Qed.

Lemma run_search_statement (query : SearchQuery) (db : sqlite_db) :
  run_search (truthy (js_of_string (networkUuid query)))
             (truthy (js_of_string (channelName query)))
             (truthy (js_of_number (lastTime query)))
             (snd (search_statement query)) db
  = Some (sql_limit maxResults
            (order_by time_rowid_desc
               (filter (fun r => is_true (page_condition query r)) (messages db)))).
Proof.
  rewrite search_statement_shape. unfold page_condition, search_cursor, cursor_params, scope.
  destruct query as [term net chan t i];
    cbn [searchTerm networkUuid channelName lastTime lastId snd].
  destruct net as [n|]; [destruct (truthy (js_of_string (Some n)))|];
    (destruct chan as [c|]; [destruct (truthy (js_of_string (Some c)))|]);
    (destruct t as [z|]; [destruct (truthy (js_of_number (Some z)))|]);
    try destruct i as [i|]; reflexivity.
Qed.

Lemma exec_all_search (query : SearchQuery) (db : sqlite_db) :
  exec_all (fst (search_statement query)) (snd (search_statement query)) db
  = (None,
     sql_limit maxResults
       (order_by time_rowid_desc
          (filter (fun r => is_true (page_condition query r)) (messages db)))).
Proof.
  unfold exec_all.
  replace (prepare (fst (search_statement query)))
    with (Some (SelectSearch (truthy (js_of_string (networkUuid query)))
                             (truthy (js_of_string (channelName query)))
                             (truthy (js_of_number (lastTime query)))))
    by (rewrite search_statement_shape; symmetry; apply prepare_search_text).
  rewrite run_search_statement. reflexivity.
Qed.

Lemma search_rows_page (this : MessageStorage) (query : SearchQuery) (db : sqlite_db) :
  database this = Some db ->
  search_rows this query
  = sql_limit maxResults
      (order_by time_rowid_desc
         (filter (fun r => is_true (page_condition query r)) (messages db))).
Proof.
  intros Hdb. unfold search_rows. rewrite Hdb, exec_all_search. reflexivity.
Qed.

Lemma search_enabled (this : MessageStorage) (query : SearchQuery) (db : sqlite_db) :
  isEnabled this = true ->
  database this = Some db ->
  search this query
  = Normal (search_callback query None (search_rows this query)).
Proof.
  intros Hen Hdb. unfold search, search_rows. rewrite Hen, Hdb. cbn [negb].
  destruct (search_statement query) as [select params] eqn:Hs.
  pose proof (exec_all_search query db) as He. rewrite Hs in He.
  cbn [fst snd] in *. rewrite He. reflexivity.
Qed.

(** ** The response of a search *)

(** C9.  On a disabled storage [search] resolves to the empty array itself:
    none of [searchTerm], [target], [networkUuid], [lastTime], [lastId],
    [results] is a property of the value, and reading any of them gives
    [undefined].  On an enabled storage [search] resolves to an object that
    has exactly these six properties. *)
Theorem search_disabled_resolves_bare_array
    (this : MessageStorage) (query : SearchQuery) :
  (isEnabled this = false ->
   search this query = Normal (Resolved (JArr []))
   /\ forall k,
        In k ["searchTerm"; "target"; "networkUuid"; "lastTime"; "lastId"; "results"] ->
        has_own_property (JArr []) k = false /\ get_prop (JArr []) k = JUndefined)
  /\ (isEnabled this = true ->
      forall db, database this = Some db ->
      exists response,
        search this query = Normal (Resolved (JObj response))
        /\ Object_keys response
           = ["searchTerm"; "target"; "networkUuid"; "lastTime"; "lastId"; "results"]).
Proof.
  split.
  - intros Hen. split.
    + unfold search. rewrite Hen. reflexivity.
    + intros k Hk. cbn in Hk.
      repeat (destruct Hk as [<- | Hk]; [split; reflexivity|]). contradiction.
  - intros Hen db Hdb. rewrite (search_enabled this query db Hen Hdb).
    unfold search_callback. eexists. split; reflexivity.
Qed.

Lemma search_disabled_resolves_bare_array_witness :
  (search (constructor example_client) (first_query "one" None None)
   = Normal (Resolved (JArr [])))
  /\ (exists response,
        search example_storage (first_query "one" None None)
        = Normal (Resolved (JObj response))
        /\ Object_keys response
           = ["searchTerm"; "target"; "networkUuid"; "lastTime"; "lastId"; "results"]).
Proof.
  split.
  - apply (search_disabled_resolves_bare_array
             (constructor example_client) (first_query "one" None None)).
    reflexivity.
  - apply (proj2 (search_disabled_resolves_bare_array
                    example_storage (first_query "one" None None))
                 eq_refl example_db).
    reflexivity.
Defined.


(** ** Closing *)

(** C4, as stated, fails on a disabled storage: [close] returns without
    ever invoking the callback it was given. *)
Lemma close_disabled_never_calls_back :
  isEnabled (constructor example_client) = false
  /\ forall err e,
       ~ In (Callback e) (close_effects (close (constructor example_client) true) err).
Proof.
  split; [reflexivity|]. intros err e H. exact H.
Qed.

(** C4, amended.  On a disabled storage [close] returns at once, leaves the
    storage as it is and invokes nothing.  On an enabled storage the flag
    is already false in the state in which the close of the handle is
    requested, and when the handle has closed its error, if any, is logged
    and handed to the callback, if one was given. *)
Theorem close_clears_flag_before_handle_close
    (this : MessageStorage) (callback : bool) :
  (isEnabled this = false ->
   close this callback = Normal (CloseReturned this)
   /\ forall err, close_effects (close this callback) err = [])
  /\ (isEnabled this = true ->
      forall db, database this = Some db ->
      exists this' on_closed,
        close this callback = Normal (CloseRequested this' on_closed)
        /\ isEnabled this' = false
        /\ canProvideMessages this' = false
        /\ database this' = Some db
        /\ on_closed None = (if callback then [Callback None] else [])
        /\ forall e,
             on_closed (Some e)
             = LogError ("Failed to close sqlite database: " ++ e)
                 :: (if callback then [Callback (Some e)] else [])).
Proof.
  split.
  - intros Hen. unfold close. rewrite Hen. split; reflexivity.
  - intros Hen db Hdb. unfold close. rewrite Hen. cbn [negb set_isEnabled database].
    rewrite Hdb. eexists. eexists. split; [reflexivity|].
    repeat split; try assumption.
Qed.

Lemma close_clears_flag_before_handle_close_witness :
  close (constructor example_client) true
  = Normal (CloseReturned (constructor example_client))
  /\ exists this' on_closed,
       close example_storage true = Normal (CloseRequested this' on_closed)
       /\ isEnabled this' = false
       /\ on_closed (Some "SQLITE_BUSY")
          = [ LogError "Failed to close sqlite database: SQLITE_BUSY";
              Callback (Some "SQLITE_BUSY") ].
Proof.
  split.
  - apply (close_clears_flag_before_handle_close (constructor example_client) true).
    reflexivity.
  - destruct (proj2 (close_clears_flag_before_handle_close example_storage true)
                    eq_refl example_db eq_refl)
      as (this' & on_closed & Hc & Hf & _ & _ & _ & He).
    exists this', on_closed. split; [exact Hc|]. split; [exact Hf|].
    rewrite He. reflexivity.
Defined.

(** ** Deleting a channel *)

Lemma prepare_delete :
  prepare "DELETE FROM messages WHERE network = ? AND channel = ?" = Some DeleteChannel.
Proof. vm_compute. reflexivity. Qed.

Lemma in_channel_true (network channel : string) (r : message_row) :
  in_channel network channel r = true
  <-> col_network r = network /\ col_channel r = channel.
Proof.
  unfold in_channel. rewrite andb_true_iff, !String.eqb_eq. reflexivity.
Qed.

(** C8.  On an enabled storage [deleteChannel] removes the rows whose
    network is [network.uuid] and whose channel is the lowercased
    [channel.name], and no other: every other row stays, as it was and in
    its place, and nothing else of the database changes. *)
Theorem deleteChannel_removes_exactly_the_channel
    (this : MessageStorage) (db : sqlite_db) (network : Network) (channel : Chan) :
  isEnabled this = true ->
  database this = Some db ->
  exists db',
    deleteChannel this network channel = Normal (set_database this db')
    /\ objects db' = objects db
    /\ options db' = options db
    /\ messages db'
       = filter (fun r => negb (in_channel (uuid network)
                                           (toLowerCase (name channel)) r))
                (messages db)
    /\ forall r,
         In r (messages db')
         <-> In r (messages db)
             /\ ~ (col_network r = uuid network
                   /\ col_channel r = toLowerCase (name channel)).
Proof.
  intros Hen Hdb. unfold deleteChannel, database_run. rewrite Hen, Hdb. cbn [negb].
  unfold exec_run. rewrite prepare_delete. cbn [snd].
  eexists. split; [reflexivity|]. cbn [objects options messages with_messages].
  repeat split; try reflexivity.
  - apply filter_In in H. apply H.
  - apply filter_In in H. destruct H as [_ H]. intros Hm.
    apply in_channel_true in Hm. rewrite Hm in H. discriminate.
  - intros [Hin Hn]. apply filter_In. split; [exact Hin|].
    destruct (in_channel (uuid network) (toLowerCase (name channel)) r) eqn:E;
      [|reflexivity].
    apply in_channel_true in E. contradiction.
Qed.

Lemma deleteChannel_removes_exactly_the_channel_witness :
  exists db',
    deleteChannel example_storage example_network {| name := "#A" |}
    = Normal (set_database example_storage db')
    /\ messages db' = [].
Proof.
  destruct (deleteChannel_removes_exactly_the_channel
              example_storage example_db example_network {| name := "#A" |}
              eq_refl eq_refl)
    as (db' & Hd & _ & _ & Hm & _).
  exists db'. split; [exact Hd|]. rewrite Hm. vm_compute. reflexivity.
Defined.

(** ** The schema version *)

Lemma exec_run_create (name text : string) (db : sqlite_db) :
  prepare text = Some (CreateObject name) ->
  snd (exec_run text [] db)
  = if existsb (String.eqb name) (objects db) then db
    else with_objects db (objects db ++ [name]).
Proof.
  intros Hp. unfold exec_run. rewrite Hp.
  destruct (existsb (String.eqb name) (objects db)); reflexivity.
Qed.

Lemma exec_run_create_frame (name text : string) (db : sqlite_db) :
  prepare text = Some (CreateObject name) ->
  options (snd (exec_run text [] db)) = options db
  /\ messages (snd (exec_run text [] db)) = messages db
  /\ (In name (objects db) -> snd (exec_run text [] db) = db)
  /\ (forall o, In o (objects db) -> In o (objects (snd (exec_run text [] db)))).
Proof.
  intros Hp. rewrite (exec_run_create name text db Hp).
  destruct (existsb (String.eqb name) (objects db)) eqn:E.
  - repeat split; auto.
  - repeat split; try reflexivity.
    + intros Hin. assert (existsb (String.eqb name) (objects db) = true) as Ht.
      { apply existsb_exists. exists name. split; [exact Hin|apply String.eqb_refl]. }
      congruence.
    + intros o Ho. cbn. apply in_or_app. left. exact Ho.
Qed.

Lemma create_schema_frame (file : sqlite_db) :
  options (create_schema file) = options file
  /\ messages (create_schema file) = messages file
  /\ (incl schema_objects (objects file) -> create_schema file = file).
Proof.
  unfold create_schema, schema. cbn [fold_left].
  set (t1 := "CREATE TABLE IF NOT EXISTS options (name TEXT, value TEXT, CONSTRAINT name_unique UNIQUE (name))").
  set (t2 := "CREATE TABLE IF NOT EXISTS messages (network TEXT, channel TEXT, time INTEGER, type TEXT, msg TEXT)").
  set (t3 := "CREATE INDEX IF NOT EXISTS network_channel ON messages (network, channel)").
  set (t4 := "CREATE INDEX IF NOT EXISTS time ON messages (time)").
  assert (prepare t1 = Some (CreateObject "options")) as P1 by (vm_compute; reflexivity).
  assert (prepare t2 = Some (CreateObject "messages")) as P2 by (vm_compute; reflexivity).
  assert (prepare t3 = Some (CreateObject "network_channel")) as P3 by (vm_compute; reflexivity).
  assert (prepare t4 = Some (CreateObject "time")) as P4 by (vm_compute; reflexivity).
  set (d1 := snd (exec_run t1 [] file)).
  set (d2 := snd (exec_run t2 [] d1)).
  set (d3 := snd (exec_run t3 [] d2)).
  destruct (exec_run_create_frame _ _ file P1) as (O1 & M1 & I1 & _).
  destruct (exec_run_create_frame _ _ d1 P2) as (O2 & M2 & I2 & _).
  destruct (exec_run_create_frame _ _ d2 P3) as (O3 & M3 & I3 & _).
  destruct (exec_run_create_frame _ _ d3 P4) as (O4 & M4 & I4 & _).
  fold d1 in O1, M1, I1. fold d2 in O2, M2, I2. fold d3 in O3, M3, I3.
  split; [congruence|]. split; [congruence|].
  intros Hincl.
  assert (d1 = file) as E1 by (apply I1, Hincl; cbn; auto).
  assert (d2 = file) as E2
      by (transitivity d1; [apply I2; rewrite E1; apply Hincl; cbn; auto | exact E1]).
  assert (d3 = file) as E3
      by (transitivity d2; [apply I3; rewrite E2; apply Hincl; cbn; auto | exact E2]).
  transitivity d3; [apply I4; rewrite E3; apply Hincl; cbn; auto | exact E3].
Qed.

Lemma enable_steps (this : MessageStorage) (file : sqlite_db) :
  enable None file this
  = (let '(log, next) := schema_version_callback None (stored_version file) in
     (set_database (set_isEnabled this true)
        match next with
        | Some (sql, params) => snd (exec_run sql params (create_schema file))
        | None => create_schema file
        end,
      log)).
Proof.
  unfold enable. fold (create_schema file).
  assert (exec_get "SELECT value FROM options WHERE name = 'schema_version'" []
                   (create_schema file)
          = (None, stored_version file)) as Hg.
  { unfold exec_get.
    replace (prepare "SELECT value FROM options WHERE name = 'schema_version'")
      with (Some SelectVersion) by (vm_compute; reflexivity).
    unfold stored_version.
    rewrite (proj1 (create_schema_frame file)). reflexivity. }
  rewrite Hg. reflexivity.
Qed.

Lemma no_version_no_option (db : sqlite_db) :
  stored_version db = None -> has_option "schema_version" db = false.
Proof.
  unfold stored_version, has_option. induction (options db) as [|o os IH]; cbn.
  - reflexivity.
  - destruct (String.eqb (fst o) "schema_version"); [discriminate|]. exact IH.
Qed.

Lemma stored_version_updated (os : list (string * string)) (value v : string) :
  option_map snd (find (fun o => String.eqb (fst o) "schema_version") os) = Some value ->
  option_map snd
    (find (fun o => String.eqb (fst o) "schema_version")
          (map (fun o => if String.eqb (fst o) "schema_version" then (fst o, v) else o) os))
  = Some v.
Proof.
  induction os as [|o os IH]; cbn; [discriminate|].
  destruct (String.eqb (fst o) "schema_version") eqn:E; cbn; rewrite E.
  - reflexivity.
  - exact IH.
Qed.

(** C7.  [enable] settles the schema version by four cases.  Without a
    version row the current version is inserted.  A stored version equal to
    the current one leaves the file as the CREATE IF NOT EXISTS statements
    left it.  A greater one is logged as an error, nothing is submitted, so
    the tables, the indexes and the version row stay as they are, and the
    storage is enabled all the same.  A smaller one is replaced by the
    current version.  The statements of [schema] themselves change nothing
    in a file that has the tables and the indexes. *)
Theorem enable_settles_schema_version (this : MessageStorage) (file : sqlite_db) :
  let created := create_schema file in
  let this' := fst (enable None file this) in
  let log := snd (enable None file this) in
  isEnabled this' = true
  /\ (incl schema_objects (objects file) -> created = file)
  /\ (stored_version file = None ->
      database this'
      = Some (with_options created
                (options file ++ [("schema_version", decimal currentSchemaVersion)]))
      /\ log = [])
  /\ (forall value v,
        stored_version file = Some value -> parseInt value = Some v ->
        (v = currentSchemaVersion -> database this' = Some created /\ log = [])
        /\ (currentSchemaVersion < v ->
            database this' = Some created
            /\ stored_version created = Some value
            /\ log = [LogError ("sqlite messages schema version is higher than expected ("
                                ++ decimal v ++ " > " ++ decimal currentSchemaVersion
                                ++ "). Is The Lounge out of date?")])
        /\ (v < currentSchemaVersion ->
            exists db',
              database this' = Some db'
              /\ stored_version db' = Some (decimal currentSchemaVersion)
              /\ objects db' = objects created
              /\ messages db' = messages file
              /\ log = [LogInfo ("sqlite messages schema version is out of date ("
                                 ++ decimal v ++ " < " ++ decimal currentSchemaVersion
                                 ++ "). Running migrations if any.")])).
Proof.
  intros created this' log. subst this' log. rewrite enable_steps.
  destruct (create_schema_frame file) as (Ho & Hm & Hsame). fold created in Ho, Hm, Hsame.
  split; [|split; [exact Hsame|split]].
  - destruct (schema_version_callback None (stored_version file)) as [l n]. reflexivity.
  - intros Hnone. rewrite Hnone. cbn [schema_version_callback fst snd].
    unfold exec_run.
    replace (prepare "INSERT INTO options (name, value) VALUES ('schema_version', ?)")
      with (Some InsertVersion) by (vm_compute; reflexivity).
    cbn [stored_text]. fold created.
    rewrite (no_version_no_option created)
      by (unfold stored_version; rewrite Ho; exact Hnone).
    cbn [snd set_database database]. rewrite Ho. split; reflexivity.
  - intros value v Hv Hp. rewrite Hv. unfold schema_version_callback. rewrite Hp.
    cbn [number_text]. split; [|split].
    + intros ->. rewrite Z.eqb_refl. split; reflexivity.
    + intros Hgt.
      replace (v =? currentSchemaVersion) with false by (symmetry; apply Z.eqb_neq; lia).
      replace (currentSchemaVersion <? v) with true by (symmetry; apply Z.ltb_lt; lia).
      cbn [fst snd set_database database]. fold created.
      split; [reflexivity|]. split; [|reflexivity].
      unfold stored_version. rewrite Ho. exact Hv.
    + intros Hlt.
      replace (v =? currentSchemaVersion) with false by (symmetry; apply Z.eqb_neq; lia).
      replace (currentSchemaVersion <? v) with false by (symmetry; apply Z.ltb_ge; lia).
      cbn [fst snd set_database database]. fold created.
      unfold exec_run.
      replace (prepare "UPDATE options SET value = ? WHERE name = 'schema_version'")
        with (Some UpdateVersion) by (vm_compute; reflexivity).
      cbn [stored_text snd]. eexists. split; [reflexivity|].
      unfold stored_version at 1. cbn [options objects messages with_options].
      rewrite Ho. split; [|split; [reflexivity|split; [exact Hm|reflexivity]]].
      apply (stored_version_updated (options file) value). exact Hv.
Qed.

Lemma enable_settles_schema_version_witness :
  (database (fst (enable None empty_db (constructor example_client)))
   = Some {| objects := schema_objects;
             options := [("schema_version", "1520239200")];
             messages := [] |})
  /\ (database (fst (enable None (file_at_version "1520239200")
                            (constructor example_client)))
      = Some (file_at_version "1520239200"))
  /\ (database (fst (enable None (file_at_version "1600000000")
                            (constructor example_client)))
      = Some (file_at_version "1600000000")
      /\ snd (enable None (file_at_version "1600000000") (constructor example_client))
         = [LogError "sqlite messages schema version is higher than expected (1600000000 > 1520239200). Is The Lounge out of date?"])
  /\ (exists db',
        database (fst (enable None (file_at_version "1519000000")
                              (constructor example_client))) = Some db'
        /\ stored_version db' = Some "1520239200").
Proof.
  split; [|split; [|split]].
  - destruct (enable_settles_schema_version (constructor example_client) empty_db)
      as (_ & _ & Hnew & _).
    destruct (Hnew eq_refl) as [Hdb _]. rewrite Hdb. vm_compute. reflexivity.
  - destruct (enable_settles_schema_version (constructor example_client)
                (file_at_version "1520239200")) as (_ & Hsame & _ & Hold).
    destruct (Hold "1520239200" 1520239200 eq_refl eq_refl) as (Heq & _ & _).
    destruct (Heq eq_refl) as [Hdb _]. rewrite Hdb.
    rewrite Hsame by (intros o Ho; exact Ho). reflexivity.
  - destruct (enable_settles_schema_version (constructor example_client)
                (file_at_version "1600000000")) as (_ & Hsame & _ & Hold).
    destruct (Hold "1600000000" 1600000000 eq_refl eq_refl) as (_ & Hgt & _).
    destruct (Hgt eq_refl) as (Hdb & _ & Hlog). split.
    + rewrite Hdb. rewrite Hsame by (intros o Ho; exact Ho). reflexivity.
    + rewrite Hlog. vm_compute. reflexivity.
  - destruct (enable_settles_schema_version (constructor example_client)
                (file_at_version "1519000000")) as (_ & _ & _ & Hold).
    destruct (Hold "1519000000" 1519000000 eq_refl eq_refl) as (_ & _ & Hlt).
    destruct (Hlt eq_refl) as (db' & Hdb & Hv & _).
    exists db'. split; [exact Hdb|]. rewrite Hv. vm_compute. reflexivity.
Defined.

(** ** The pattern of a search *)

Lemma list_ascii_of_string_append (a b : string) :
  list_ascii_of_string (a ++ b)
  = (list_ascii_of_string a ++ list_ascii_of_string b)%list.
Proof. induction a as [|c a IH]; cbn; [reflexivity|]. rewrite IH. reflexivity. Qed.

Lemma string_of_list_ascii_append (a b : list ascii) :
  string_of_list_ascii (a ++ b)%list
  = string_of_list_ascii a ++ string_of_list_ascii b.
Proof. induction a as [|c a IH]; cbn; [reflexivity|]. rewrite IH. reflexivity. Qed.

Lemma escape_specials_chars (s : string) :
  list_ascii_of_string (escape_specials s)
  = flat_map escaped_char (list_ascii_of_string s).
Proof.
  induction s as [|c s IH]; cbn; [reflexivity|].
  unfold escaped_char at 1. destruct (is_special c); cbn; rewrite IH; reflexivity.
Qed.

Lemma any_suffix_true (rest : list ascii -> bool) (text : list ascii) :
  any_suffix rest text = true
  <-> exists skipped left, text = (skipped ++ left)%list /\ rest left = true.
Proof.
  induction text as [|x text IH]; cbn [any_suffix].
  - rewrite orb_false_r. split.
    + intros H. exists [], []. split; [reflexivity|exact H].
    + intros (a & b & Hab & Hb). symmetry in Hab.
      apply app_eq_nil in Hab. destruct Hab as [_ ->]. exact Hb.
  - rewrite orb_true_iff, IH. split.
    + intros [H | (a & b & -> & Hb)].
      * exists [], (x :: text). split; [reflexivity|exact H].
      * exists (x :: a), b. split; [reflexivity|exact Hb].
    + intros (a & b & Hab & Hb). destruct a as [|y a]; cbn in Hab.
      * left. rewrite Hab. exact Hb.
      * right. injection Hab as _ ->. exists a, b. split; [reflexivity|exact Hb].
Qed.

Lemma like_percent (esc : ascii) (pat text : list ascii) :
  like_chars esc ("%"%char :: pat) text = any_suffix (like_chars esc pat) text.
Proof. reflexivity. Qed.

Lemma like_escaped_char (c : ascii) (pat text : list ascii) :
  like_chars "@" (escaped_char c ++ pat) text
  = match text with
    | [] => false
    | x :: text' => same_char c x && like_chars "@" pat text'
    end.
Proof.
  unfold escaped_char, is_special.
  destruct (Ascii.eqb c "%") eqn:E1; [reflexivity|].
  destruct (Ascii.eqb c "_") eqn:E2; [reflexivity|].
  destruct (Ascii.eqb c "@") eqn:E3; [reflexivity|].
  cbn [orb app like_chars]. rewrite E1, E2, E3. reflexivity.
Qed.

Lemma like_escaped_term (term pat text : list ascii) :
  like_chars "@" (flat_map escaped_char term ++ pat) text = true
  <-> exists found left,
        text = (found ++ left)%list
        /\ Forall2 (fun x y => same_char x y = true) term found
        /\ like_chars "@" pat left = true.
Proof.
  revert text. induction term as [|c term IH]; intros text; cbn [flat_map].
  - cbn [app]. split.
    + intros H. exists [], text. repeat split; [constructor|exact H].
    + intros (f & l & -> & Hf & Hl). inversion Hf; subst. exact Hl.
  - rewrite <- app_assoc, like_escaped_char. destruct text as [|x text].
    + split; [discriminate|]. intros (f & l & Hfl & Hf & _).
      inversion Hf; subst. discriminate.
    + rewrite andb_true_iff, IH. split.
      * intros (Hc & f & l & -> & Hf & Hl). exists (x :: f), l.
        repeat split; [constructor; assumption|exact Hl].
      * intros (f & l & Hfl & Hf & Hl). inversion Hf as [|? y ? f' Hc Hf']; subst.
        cbn in Hfl. injection Hfl as -> ->. split; [exact Hc|].
        exists f', l. repeat split; assumption.
Qed.

Lemma like_search_pattern (term text : string) :
  like_chars "@" (list_ascii_of_string (search_pattern term))
             (list_ascii_of_string text) = true
  <-> contains_nocase term text.
Proof.
  unfold search_pattern, contains_nocase, same_text.
  rewrite !list_ascii_of_string_append, escape_specials_chars.
  change (list_ascii_of_string "%") with ["%"%char]. cbn [app].
  rewrite like_percent, any_suffix_true. split.
  - intros (a & b & Hab & Hb). apply like_escaped_term in Hb.
    destruct Hb as (f & l & -> & Hf & _).
    exists (string_of_list_ascii a), (string_of_list_ascii f), (string_of_list_ascii l).
    split.
    + rewrite <- !string_of_list_ascii_append, <- Hab.
      symmetry. apply string_of_list_ascii_of_string.
    + rewrite list_ascii_of_string_of_list_ascii. exact Hf.
  - intros (a & f & l & -> & Hf).
    exists (list_ascii_of_string a), (list_ascii_of_string (f ++ l)).
    split; [apply list_ascii_of_string_append|].
    apply like_escaped_term.
    exists (list_ascii_of_string f), (list_ascii_of_string l).
    split; [apply list_ascii_of_string_append|]. split; [exact Hf|].
    rewrite like_percent. apply any_suffix_true.
    exists (list_ascii_of_string l), []. split; [symmetry; apply app_nil_r|reflexivity].
Qed.

Lemma is_true_and (a b : sqlbool) :
  is_true (sql_and a b) = is_true a && is_true b.
Proof. destruct a as [[|]|], b as [[|]|]; reflexivity. Qed.

Lemma is_true_some (b : bool) : is_true (Some b) = b.
Proof. destruct b; reflexivity. Qed.

Lemma is_true_like_extracted (r : message_row) (pattern : string) :
  is_true (sql_like (json_extract (col_msg r) "text") pattern "@")
  = match extracted_text r with
    | Some text => like_chars "@" (list_ascii_of_string pattern)
                              (list_ascii_of_string text)
    | None => false
    end.
Proof.
  unfold extracted_text, json_extract.
  destruct (obj_get (JSON_parse (col_msg r)) "text");
    cbn [sql_like]; try reflexivity; apply is_true_some.
Qed.

Lemma matches_true (query : SearchQuery) (r : message_row) :
  matches query r = true
  <-> col_type r = "message"
      /\ (exists text, extracted_text r = Some text
                       /\ contains_nocase (searchTerm query) text)
      /\ (forall n, scope (networkUuid query) = Some n -> col_network r = n)
      /\ (forall c, scope (channelName query) = Some c
                    -> col_channel r = toLowerCase c).
Proof.
  unfold matches, search_condition.
  assert (forall b o (f : string -> string) (col : string),
             is_true (match option_map f o with
                      | Some x => sql_and b (Some (String.eqb col x))
                      | None => b
                      end) = true
             <-> is_true b = true /\ forall x, o = Some x -> col = f x) as Hopt.
  { intros b o f col. destruct o as [x|]; cbn [option_map].
    - rewrite is_true_and, andb_true_iff. cbn [is_true].
      split; intros [Hb Hx]; (split; [exact Hb|]).
      + intros y [= <-]. destruct (String.eqb_spec col (f x)); [assumption|discriminate].
      + rewrite (Hx x eq_refl). rewrite String.eqb_refl. reflexivity.
    - split; [intros Hb; split; [exact Hb|discriminate]|intros [Hb _]; exact Hb]. }
  rewrite (Hopt _ (scope (channelName query)) toLowerCase).
  assert (forall o : option string, o = option_map (fun x => x) o) as Hid
      by (intros [x|]; reflexivity).
  rewrite (Hid (scope (networkUuid query))) at 1.
  rewrite (Hopt _ (scope (networkUuid query)) (fun x => x)).
  rewrite is_true_and, andb_true_iff, is_true_like_extracted, is_true_some.
  assert ((col_type r =? "message")%string = true <-> col_type r = "message") as Ht
      by apply String.eqb_eq.
  assert (match extracted_text r with
          | Some text =>
              like_chars "@" (list_ascii_of_string (search_pattern (searchTerm query)))
                         (list_ascii_of_string text)
          | None => false
          end = true
          <-> exists text, extracted_text r = Some text
                           /\ contains_nocase (searchTerm query) text) as Hl.
  { destruct (extracted_text r) as [text|].
    - rewrite like_search_pattern. split.
      + intros H. exists text. split; [reflexivity|exact H].
      + intros (t & [= <-] & H). exact H.
    - split; [discriminate|]. intros (t & Ht' & _). discriminate. }
  rewrite Hl, Ht. tauto.
Qed.

(** ** ORDER BY and LIMIT *)

Section OrderByFacts.
Context {A : Type} (before : A -> A -> bool).
Hypothesis before_total : forall a b, before a b = false -> before b a = true.
Hypothesis before_trans :
  forall a b c, before a b = true -> before b c = true -> before a c = true.

Lemma insert_row_perm (a : A) (l : list A) :
  Permutation (a :: l) (insert_row before a l).
Proof.
  induction l as [|b l IH]; cbn; [reflexivity|].
  destruct (before a b); [reflexivity|].
  rewrite perm_swap. constructor. exact IH.
Qed.

Lemma order_by_perm (l : list A) : Permutation l (order_by before l).
Proof.
  induction l as [|a l IH]; cbn; [constructor|].
  rewrite <- insert_row_perm. constructor. exact IH.
Qed.

Lemma order_by_In (l : list A) (x : A) : In x (order_by before l) <-> In x l.
Proof.
  split; apply Permutation_in; [symmetry|]; apply order_by_perm.
Qed.

Lemma insert_row_sorted (a : A) (l : list A) :
  StronglySorted (fun a b => before a b = true) l -> StronglySorted (fun a b => before a b = true) (insert_row before a l).
Proof.
  induction l as [|b l IH]; intros Hs; cbn.
  - constructor; constructor.
  - destruct (before a b) eqn:E.
    + constructor; [exact Hs|]. constructor; [exact E|].
      inversion Hs as [|? ? _ Hall]; subst.
      eapply Forall_impl; [|exact Hall]. intros c Hc. exact (before_trans _ _ _ E Hc).
    + inversion Hs as [|? ? Hs' Hall]; subst. constructor; [apply IH; exact Hs'|].
      apply Forall_forall. intros x Hx.
      apply (Permutation_in _ (Permutation_sym (insert_row_perm a l))) in Hx.
      destruct Hx as [<- | Hx]; [apply before_total; exact E|].
      rewrite Forall_forall in Hall. apply Hall. exact Hx.
Qed.

Lemma order_by_sorted (l : list A) : StronglySorted (fun a b => before a b = true) (order_by before l).
Proof.
  induction l as [|a l IH]; cbn; [constructor|]. apply insert_row_sorted. exact IH.
Qed.

(** Inserting in front of rows that all come after. *)
Lemma insert_row_first (a : A) (l : list A) :
  Forall (fun b => before a b = true) l -> insert_row before a l = a :: l.
Proof.
  destruct l as [|b l]; cbn; [reflexivity|]. intros H.
  inversion H as [|? ? Hb _]; subst. cbv beta in Hb. rewrite Hb. reflexivity.
Qed.

Lemma filter_insert_row (f : A -> bool) (a : A) (l : list A) :
  StronglySorted (fun a b => before a b = true) l ->
  filter f (insert_row before a l)
  = if f a then insert_row before a (filter f l) else filter f l.
Proof.
  induction l as [|b l IH]; intros Hs; cbn.
  - destruct (f a); reflexivity.
  - inversion Hs as [|? ? Hs' Hall]; subst. destruct (before a b) eqn:E.
    + cbn [filter]. destruct (f a); [|reflexivity].
      symmetry. apply insert_row_first.
      assert (Forall (fun b => before a b = true) (b :: l)) as Hfa.
      { constructor; [exact E|]. eapply Forall_impl; [|exact Hall].
        intros c Hc. exact (before_trans _ _ _ E Hc). }
      apply Forall_forall. intros x Hx.
      change (b :: l) with ([b] ++ l)%list in Hfa.
      rewrite Forall_forall in Hfa. apply Hfa.
      change (if f b then b :: filter f l else filter f l)
        with (filter f (b :: l)) in Hx.
      apply filter_In in Hx. apply Hx.
    + cbn [filter]. rewrite (IH Hs').
      destruct (f b), (f a); cbn [insert_row]; rewrite ?E; reflexivity.
Qed.

(** A WHERE term may be applied before or after the ordering. *)
Lemma filter_order_by (f : A -> bool) (l : list A) :
  filter f (order_by before l) = order_by before (filter f l).
Proof.
  induction l as [|a l IH]; cbn; [reflexivity|].
  rewrite filter_insert_row by apply order_by_sorted.
  rewrite IH. destruct (f a); reflexivity.
Qed.
End OrderByFacts.

Lemma time_desc_total (a b : message_row) :
  time_desc a b = false -> time_desc b a = true.
Proof. unfold time_desc. intros H. apply Z.leb_gt in H. apply Z.leb_le. lia. Qed.

Lemma time_desc_trans (a b c : message_row) :
  time_desc a b = true -> time_desc b c = true -> time_desc a c = true.
Proof. unfold time_desc. rewrite !Z.leb_le. lia. Qed.

Lemma time_rowid_desc_spec (a b : message_row) :
  time_rowid_desc a b = true
  <-> col_time b < col_time a
      \/ (col_time b = col_time a /\ col_rowid b <= col_rowid a).
Proof.
  unfold time_rowid_desc.
  rewrite orb_true_iff, andb_true_iff, Z.ltb_lt, Z.eqb_eq, Z.leb_le. reflexivity.
Qed.

Lemma time_rowid_desc_total (a b : message_row) :
  time_rowid_desc a b = false -> time_rowid_desc b a = true.
Proof.
  intros H. apply time_rowid_desc_spec.
  destruct (time_rowid_desc a b) eqn:E; [discriminate|].
  assert (~ (col_time b < col_time a
             \/ (col_time b = col_time a /\ col_rowid b <= col_rowid a))) as Hn
      by (rewrite <- time_rowid_desc_spec, E; discriminate).
  lia.
Qed.

Lemma time_rowid_desc_trans (a b c : message_row) :
  time_rowid_desc a b = true -> time_rowid_desc b c = true ->
  time_rowid_desc a c = true.
Proof. rewrite !time_rowid_desc_spec. lia. Qed.

Lemma sorted_app_ordered {A : Type} (R : A -> A -> Prop) (l1 l2 : list A) :
  StronglySorted R (l1 ++ l2) ->
  forall a b, In a l1 -> In b l2 -> R a b.
Proof.
  induction l1 as [|x l1 IH]; cbn; intros Hs a b Ha Hb; [contradiction|].
  inversion Hs as [|? ? Hs' Hall]; subst. destruct Ha as [<- | Ha].
  - rewrite Forall_forall in Hall. apply Hall, in_or_app. right. exact Hb.
  - exact (IH Hs' a b Ha Hb).
Qed.

Lemma sorted_app_left {A : Type} (R : A -> A -> Prop) (l1 l2 : list A) :
  StronglySorted R (l1 ++ l2) -> StronglySorted R l1.
Proof.
  induction l1 as [|x l1 IH]; cbn; intros Hs; [constructor|].
  inversion Hs as [|? ? Hs' Hall]; subst. constructor; [exact (IH Hs')|].
  apply Forall_app in Hall. apply Hall.
Qed.

Lemma sorted_app_right {A : Type} (R : A -> A -> Prop) (l1 l2 : list A) :
  StronglySorted R (l1 ++ l2) -> StronglySorted R l2.
Proof.
  induction l1 as [|x l1 IH]; cbn; intros Hs; [exact Hs|].
  inversion Hs; subst. auto.
Qed.

Lemma sorted_snoc {A : Type} (R : A -> A -> Prop) (l : list A) (x : A) :
  StronglySorted R l -> Forall (fun y => R y x) l -> StronglySorted R (l ++ [x]).
Proof.
  induction l as [|y l IH]; cbn; intros Hs Hx.
  - constructor; constructor.
  - inversion Hs as [|? ? Hs' Hall]; subst. inversion Hx as [|? ? Hy Hx']; subst.
    constructor; [exact (IH Hs' Hx')|].
    apply Forall_app. split; [exact Hall|]. constructor; [exact Hy|constructor].
Qed.

Lemma sorted_rev {A : Type} (R : A -> A -> Prop) (l : list A) :
  StronglySorted R l -> StronglySorted (fun a b => R b a) (rev l).
Proof.
  induction l as [|x l IH]; cbn; intros Hs; [constructor|].
  inversion Hs as [|? ? Hs' Hall]; subst.
  apply sorted_snoc; [exact (IH Hs')|].
  apply Forall_forall. intros y Hy. rewrite Forall_forall in Hall.
  apply Hall. apply in_rev. exact Hy.
Qed.

Lemma sorted_impl {A : Type} (R Q : A -> A -> Prop) (l : list A) :
  (forall a b, R a b -> Q a b) -> StronglySorted R l -> StronglySorted Q l.
Proof.
  intros Himp. induction 1 as [|x l Hs IH Hall]; constructor; [exact IH|].
  eapply Forall_impl; [|exact Hall]. intros b. apply Himp.
Qed.

Lemma sql_limit_split {A : Type} (n : Z) (l : list A) :
  exists rest, l = (sql_limit n l ++ rest)%list.
Proof.
  unfold sql_limit. destruct (n <? 0).
  - exists []. symmetry. apply app_nil_r.
  - exists (skipn (Z.to_nat n) l). symmetry. apply firstn_skipn.
Qed.

Lemma sql_limit_length {A : Type} (n : Z) (l : list A) :
  0 <= n -> Z.of_nat (List.length (sql_limit n l)) <= n.
Proof.
  intros Hn. unfold sql_limit.
  replace (n <? 0) with false by (symmetry; apply Z.ltb_ge; lia).
  rewrite length_firstn. lia.
Qed.

(** ** Objects *)

Lemma obj_get_set_same (o : jsobj) (k : string) (v : jsval) :
  obj_get (obj_set o k v) k = v.
Proof.
  induction o as [|[k' v'] o IH]; cbn.
  - rewrite String.eqb_refl. reflexivity.
  - destruct (String.eqb k' k) eqn:E; cbn.
    + rewrite String.eqb_refl. reflexivity.
    + rewrite E. exact IH.
Qed.

Lemma obj_get_set_other (o : jsobj) (k k' : string) (v : jsval) :
  k <> k' -> obj_get (obj_set o k v) k' = obj_get o k'.
Proof.
  intros Hne. induction o as [|[k0 v0] o IH]; cbn.
  - destruct (String.eqb_spec k k'); [contradiction|reflexivity].
  - destruct (String.eqb_spec k0 k) as [->|Hk]; cbn.
    + destruct (String.eqb_spec k k'); [contradiction|reflexivity].
    + destruct (String.eqb k0 k'); [reflexivity|exact IH].
Qed.

(** ** History *)

Lemma history_message_time (this : MessageStorage) (row : message_row) :
  message_time (fst (history_message this row)) = JNum (col_time row).
Proof.
  unfold history_message, message_time, Msg. cbn [fst set_prop get_prop].
  rewrite obj_get_set_other by discriminate.
  rewrite obj_get_set_other by discriminate.
  rewrite obj_get_set_same. reflexivity.
Qed.

Lemma history_messages_times (rows : list message_row) (this : MessageStorage) :
  map message_time (fst (history_messages this rows))
  = map (fun r => JNum (col_time r)) rows.
Proof.
  revert this. induction rows as [|row rows IH]; intros this;
    cbn [history_messages]; [reflexivity|].
  destruct (history_message this row) as [m this1] eqn:Em.
  destruct (history_messages this1 rows) as [ms this2] eqn:Ems.
  cbn [fst map]. f_equal.
  - rewrite <- (history_message_time this row), Em. reflexivity.
  - rewrite <- (IH this1), Ems. reflexivity.
Qed.

Lemma getMessages_enabled (config : Config) (this : MessageStorage) (db : sqlite_db)
    (network : Network) (channel : Chan) :
  isEnabled this = true ->
  database this = Some db ->
  maxHistory config <> 0 ->
  getMessages config this network channel
  = let rows := history_rows config db network channel in
    Normal (Resolved (JArr (fst (history_messages this (rev rows)))),
            snd (history_messages this (rev rows)),
            Some ("SELECT msg, type, time FROM messages WHERE network = ? AND channel = ? ORDER BY time DESC LIMIT ?",
                  [ SText (uuid network); SText (toLowerCase (name channel));
                    SInt (history_limit config) ])).
Proof.
  intros Hen Hdb Hmax. unfold getMessages. rewrite Hen, Hdb.
  replace (maxHistory config =? 0) with false by (symmetry; apply Z.eqb_neq; exact Hmax).
  cbn [negb orb]. fold (history_limit config). unfold exec_all.
  replace (prepare "SELECT msg, type, time FROM messages WHERE network = ? AND channel = ? ORDER BY time DESC LIMIT ?")
    with (Some SelectHistory) by (vm_compute; reflexivity).
  fold (history_rows config db network channel).
  unfold getMessages_callback.
  destruct (history_messages this (rev (history_rows config db network channel))).
  reflexivity.
Qed.

(** C5.  On an enabled storage: with a [maxHistory] of 0 [getMessages]
    resolves to the empty array and gives the engine no statement;
    otherwise it resolves to at most 100000 messages when [maxHistory] is
    negative and to at most [maxHistory] messages when it is positive;
    the messages are those of rows of the channel, no row of the channel
    that was left out is later than one that was taken, and the times of
    the messages go up along the array. *)
Theorem getMessages_latest_rows_in_time_order
    (config : Config) (this : MessageStorage) (db : sqlite_db)
    (network : Network) (channel : Chan) :
  isEnabled this = true ->
  database this = Some db ->
  (maxHistory config = 0 ->
   getMessages config this network channel = Normal (Resolved (JArr []), this, None))
  /\ (maxHistory config <> 0 ->
      exists ms this' statement rows,
        getMessages config this network channel
        = Normal (Resolved (JArr ms), this', Some statement)
        /\ map message_time ms = map (fun r => JNum (col_time r)) rows
        /\ List.length ms
           = Nat.min (Z.to_nat (history_limit config))
                     (List.length
                        (filter (in_channel (uuid network) (toLowerCase (name channel)))
                                (messages db)))
        /\ (maxHistory config < 0 -> Z.of_nat (List.length ms) <= 100000)
        /\ (0 < maxHistory config -> Z.of_nat (List.length ms) <= maxHistory config)
        /\ StronglySorted (fun a b => col_time a <= col_time b) rows
        /\ (forall r, In r rows ->
              In r (messages db)
              /\ in_channel (uuid network) (toLowerCase (name channel)) r = true)
        /\ (forall r r',
              In r rows ->
              In r' (messages db) ->
              in_channel (uuid network) (toLowerCase (name channel)) r' = true ->
              ~ In r' rows ->
              col_time r' <= col_time r)).
Proof.
  intros Hen Hdb. split.
  - intros H0. unfold getMessages. rewrite Hen, H0. reflexivity.
  - intros Hmax. rewrite (getMessages_enabled config this db network channel Hen Hdb Hmax).
    cbv zeta. set (rows := history_rows config db network channel).
    set (scan := filter (in_channel (uuid network) (toLowerCase (name channel)))
                        (messages db)).
    assert (StronglySorted (fun a b => time_desc a b = true) (order_by time_desc scan))
      as Hsorted by (apply order_by_sorted; [apply time_desc_total|apply time_desc_trans]).
    destruct (sql_limit_split (history_limit config) (order_by time_desc scan))
      as [rest Hsplit].
    fold scan in Hsplit. change (sql_limit (history_limit config) (order_by time_desc scan))
      with rows in Hsplit.
    rewrite Hsplit in Hsorted.
    pose proof (history_messages_times (rev rows) this) as Htimes.
    assert (List.length (fst (history_messages this (rev rows))) = List.length rows) as Hlen.
    { rewrite <- (length_map message_time), Htimes, length_map, length_rev. reflexivity. }
    assert (forall r, In r rows -> In r scan) as Hin.
    { intros r Hr. apply (order_by_In time_desc). rewrite Hsplit.
      apply in_or_app. left. exact Hr. }
    exists (fst (history_messages this (rev rows))),
           (snd (history_messages this (rev rows))).
    eexists. exists (rev rows). split; [reflexivity|]. split; [exact Htimes|].
    split; [|split; [|split; [|split; [|split]]]].
    + rewrite Hlen. unfold rows, history_rows, sql_limit. fold scan.
      replace (history_limit config <? 0) with false
        by (symmetry; apply Z.ltb_ge; unfold history_limit;
            destruct (maxHistory config <? 0) eqn:E;
            [lia|apply Z.ltb_ge in E; exact E]).
      rewrite length_firstn.
      rewrite <- (Permutation_length (order_by_perm time_desc scan)). reflexivity.
    + intros Hneg. rewrite Hlen. unfold rows, history_rows.
      pose proof (sql_limit_length (history_limit config) (order_by time_desc scan)) as Hl.
      unfold history_limit in *.
      replace (maxHistory config <? 0) with true in * by (symmetry; apply Z.ltb_lt; lia).
      apply Hl. lia.
    + intros Hpos. rewrite Hlen. unfold rows, history_rows.
      pose proof (sql_limit_length (history_limit config) (order_by time_desc scan)) as Hl.
      unfold history_limit in *.
      replace (maxHistory config <? 0) with false in * by (symmetry; apply Z.ltb_ge; lia).
      apply Hl. lia.
    + apply sorted_app_left in Hsorted.
      apply (sorted_rev (fun a b => time_desc a b = true)) in Hsorted.
      eapply sorted_impl; [|exact Hsorted].
      intros a b H. cbv beta in H. unfold time_desc in H. apply Z.leb_le in H. exact H.
    + intros r Hr. apply in_rev in Hr. apply Hin in Hr.
      apply filter_In in Hr. exact Hr.
    + intros r r' Hr Hr' Hc Hout. apply in_rev in Hr.
      assert (In r' (rows ++ rest)%list) as Hall.
      { rewrite <- Hsplit. apply (order_by_In time_desc). apply filter_In. auto. }
      apply in_app_or in Hall. destruct Hall as [Hl | Hrest].
      * exfalso. apply Hout. apply in_rev. rewrite rev_involutive. exact Hl.
      * pose proof (sorted_app_ordered _ _ _ Hsorted r r' Hr Hrest) as Ho.
        cbv beta in Ho. unfold time_desc in Ho. apply Z.leb_le in Ho. exact Ho.
Qed.

Lemma getMessages_latest_rows_in_time_order_witness :
  exists ms this' statement,
    getMessages {| maxHistory := 2 |} example_storage example_network {| name := "#A" |}
    = Normal (Resolved (JArr ms), this', Some statement)
    /\ map message_time ms = [JNum 200; JNum 300].
Proof.
  destruct (proj2 (getMessages_latest_rows_in_time_order
                     {| maxHistory := 2 |} example_storage example_db
                     example_network {| name := "#A" |} eq_refl eq_refl))
    as (ms & this' & statement & rows & Hg & _); [discriminate|].
  exists ms, this', statement. split; [exact Hg|].
  vm_compute in Hg. injection Hg as <- _ _. reflexivity.
Defined.

(** ** Channel names *)

Lemma history_message_delivers (this : MessageStorage) (row : message_row) :
  delivers (fst (history_message this row)) row.
Proof.
  unfold delivers, history_message, message_time, Msg. cbn [fst set_prop get_prop].
  split; [|split].
  - rewrite obj_get_set_other by discriminate.
    rewrite obj_get_set_other by discriminate.
    apply obj_get_set_same.
  - rewrite obj_get_set_other by discriminate. apply obj_get_set_same.
  - intros k Ht Hy Hi. rewrite !obj_get_set_other by congruence. reflexivity.
Qed.

Lemma history_messages_deliver (rows : list message_row) (this : MessageStorage)
    (row : message_row) :
  In row rows -> exists m, In m (fst (history_messages this rows)) /\ delivers m row.
Proof.
  revert this. induction rows as [|r rows IH]; intros this Hin; [contradiction|].
  cbn [history_messages].
  pose proof (history_message_delivers this r) as Hd.
  destruct (history_message this r) as [m this1].
  specialize (IH this1). destruct (history_messages this1 rows) as [ms this2].
  cbn [fst] in *. destruct Hin as [<- | Hin].
  - exists m. split; [left; reflexivity|exact Hd].
  - destruct (IH Hin) as (m' & Hm' & Hd'). exists m'. split; [right; exact Hm'|exact Hd'].
Qed.

Lemma index_enabled (this : MessageStorage) (db : sqlite_db)
    (network : Network) (channel : Chan) (msg : Message) :
  isEnabled this = true ->
  database this = Some db ->
  exists payload,
    index this network channel msg
    = Normal (set_database this
                (with_messages db
                   (messages db ++
                    [{| col_rowid := next_rowid (messages db);
                        col_network := uuid network;
                        col_channel := toLowerCase (name channel);
                        col_time := time msg;
                        col_type := type msg;
                        col_msg := payload |}]))).
Proof.
  intros Hen Hdb. unfold index, database_run. rewrite Hen, Hdb. cbn [negb].
  unfold exec_run.
  replace (prepare "INSERT INTO messages(network, channel, time, type, msg) VALUES(?, ?, ?, ?, ?)")
    with (Some InsertMessage) by (vm_compute; reflexivity).
  eexists. reflexivity.
Qed.

Lemma deleteChannel_enabled (this : MessageStorage) (db : sqlite_db)
    (network : Network) (channel : Chan) :
  isEnabled this = true ->
  database this = Some db ->
  deleteChannel this network channel
  = Normal (set_database this
              (with_messages db
                 (filter (fun r => negb (in_channel (uuid network)
                                                    (toLowerCase (name channel)) r))
                         (messages db)))).
Proof.
  intros Hen Hdb. unfold deleteChannel, database_run. rewrite Hen, Hdb. cbn [negb].
  unfold exec_run. rewrite prepare_delete. reflexivity.
Qed.

Lemma history_rows_all (config : Config) (db : sqlite_db)
    (network : Network) (channel : Chan) (row : message_row) :
  maxHistory config <> 0 ->
  (List.length (filter (in_channel (uuid network) (toLowerCase (name channel)))
                       (messages db))
   <= Z.to_nat (history_limit config))%nat ->
  In row (messages db) ->
  in_channel (uuid network) (toLowerCase (name channel)) row = true ->
  In row (history_rows config db network channel).
Proof.
  intros Hmax Hlen Hin Hc. unfold history_rows, sql_limit.
  destruct (history_limit config <? 0).
  - apply order_by_In. apply filter_In. auto.
  - rewrite firstn_all2.
    + apply order_by_In. apply filter_In. auto.
    + rewrite <- (Permutation_length (order_by_perm time_desc _)). exact Hlen.
Qed.

(** ** The cursor of a page *)

(** C2 fails on the code: the example of the specification, a search for a
    term that only the message at the time 200 holds.  The page is the one
    row with the rowid 3, and the cursor of the response has the time 200
    but no id: [parseSearchRowsToMessages] copies [row.id], which is not a
    column of the statement, and never [row.rowid], so [results[0].rowid]
    is [undefined]. *)
Theorem search_cursor_has_no_rowid :
  exists row response,
    search_rows example_storage (first_query "second" None None) = [row]
    /\ col_time row = 200
    /\ col_rowid row = 3
    /\ search example_storage (first_query "second" None None)
       = Normal (Resolved response)
    /\ get_prop response "lastTime" = JNum 200
    /\ get_prop response "lastId" = JUndefined
    /\ row_prop search_columns row "id" = JUndefined
    /\ row_prop search_columns row "rowid" = JNum 3.
Proof.
  eexists. eexists. split; [vm_compute; reflexivity|].
  split; [reflexivity|]. split; [reflexivity|].
  split; [vm_compute; reflexivity|]. repeat split.
Qed.

Lemma parseSearchRowsToMessages_map (rows : list message_row) :
  parseSearchRowsToMessages rows = map search_message rows.
Proof.
  induction rows as [|row rows IH]; [reflexivity|].
  cbn [parseSearchRowsToMessages map]. rewrite IH. reflexivity.
Qed.

Lemma search_message_time (row : message_row) :
  get_prop (search_message row) "time" = JNum (col_time row).
Proof.
  unfold search_message, parseSearchRowsToMessages, Msg. cbn [get_prop].
  rewrite !obj_get_set_other by discriminate. rewrite obj_get_set_same. reflexivity.
Qed.

Lemma search_message_rowid (row : message_row) :
  get_prop (search_message row) "rowid" = obj_get (JSON_parse (col_msg row)) "rowid".
Proof.
  unfold search_message, parseSearchRowsToMessages, Msg. cbn [get_prop].
  rewrite !obj_get_set_other by discriminate. reflexivity.
Qed.

(** The cursor of the response: the sentinel for an empty page, otherwise
    the [time] of the last row of the page and the [rowid] member of its
    payload. *)
Lemma search_callback_cursor (query : SearchQuery) (rows : list message_row) :
  exists response,
    search_callback query None rows = Resolved response
    /\ match rev rows with
       | [] => get_prop response "lastTime" = JNum (-1)
               /\ get_prop response "lastId" = JNum (-1)
       | last :: _ =>
           get_prop response "lastTime" = JNum (col_time last)
           /\ get_prop response "lastId"
              = obj_get (JSON_parse (col_msg last)) "rowid"
       end.
Proof.
  unfold search_callback. eexists. split; [reflexivity|].
  rewrite parseSearchRowsToMessages_map, <- map_rev.
  destruct (rev rows) as [|last rest]; cbn [map nth].
  - split; reflexivity.
  - replace (truthy (search_message last)) with true by reflexivity.
    cbn [get_prop obj_get String.eqb Ascii.eqb Bool.eqb].
    split; [apply search_message_time|apply search_message_rowid].
Qed.

(** ** Paging through a search *)

Lemma sql_limit_maxResults {A : Type} (l : list A) :
  sql_limit maxResults l = firstn (Z.to_nat maxResults) l.
Proof. reflexivity. Qed.

Lemma filter_andb {A : Type} (f g : A -> bool) (l : list A) :
  filter (fun x => f x && g x) l = filter g (filter f l).
Proof.
  induction l as [|x l IH]; cbn; [reflexivity|].
  destruct (f x); cbn; [|exact IH]. destruct (g x); rewrite IH; reflexivity.
Qed.

Lemma page_condition_first (term : string) (network channel : option string)
    (i : option Z) (r : message_row) :
  is_true (page_condition (with_cursor (first_query term network channel) None i) r)
  = matches (first_query term network channel) r.
Proof. reflexivity. Qed.

Lemma page_condition_after (term : string) (network channel : option string)
    (t : Z) (r : message_row) :
  t <> 0 ->
  is_true (page_condition
             (with_cursor (first_query term network channel) (Some t) None) r)
  = matches (first_query term network channel) r && (col_time r <? t).
Proof.
  intros Ht. unfold page_condition, matches, search_cursor.
  cbn [with_cursor first_query searchTerm networkUuid channelName lastTime lastId
       js_of_number truthy].
  replace (t =? 0) with false by (symmetry; apply Z.eqb_neq; exact Ht).
  cbn [negb]. unfold search_condition at 1.
  fold (search_condition (search_pattern term) (scope network)
          (option_map toLowerCase (scope channel)) None r).
  rewrite is_true_and. f_equal.
  cbn [int_eq int_lt option_map].
  destruct (col_time r =? t), (col_time r <? t); reflexivity.
Qed.

(** Rows in strictly falling time: the rows earlier than a row of the list
    are the rows behind it. *)
Lemma rows_after (front rest : list message_row) (x : message_row) :
  StronglySorted (fun a b => col_time b < col_time a) (front ++ x :: rest) ->
  filter (fun r => col_time r <? col_time x) (front ++ x :: rest) = rest.
Proof.
  induction front as [|y front IH]; cbn [app]; intros Hs.
  - inversion Hs as [|? ? _ Hall]; subst. cbn [filter]. rewrite Z.ltb_irrefl.
    apply forallb_filter_id. apply forallb_forall. intros r Hr.
    rewrite Forall_forall in Hall. apply Z.ltb_lt. apply Hall. exact Hr.
  - inversion Hs as [|? ? Hs' Hall]; subst. cbn [filter].
    replace (col_time y <? col_time x) with false; [exact (IH Hs')|].
    symmetry. apply Z.ltb_ge. rewrite Forall_forall in Hall.
    assert (col_time x < col_time y)
      by (apply Hall, in_or_app; right; left; reflexivity).
    lia.
Qed.

Lemma sorted_strict (l : list message_row) :
  StronglySorted (fun a b => time_rowid_desc a b = true) l ->
  NoDup (map col_time l) ->
  StronglySorted (fun a b => col_time b < col_time a) l.
Proof.
  induction 1 as [|x l Hs IH Hall]; cbn [map]; intros Hnd; [constructor|].
  inversion Hnd as [|? ? Hnotin Hnd']; subst. constructor; [exact (IH Hnd')|].
  apply Forall_forall. intros b Hb. rewrite Forall_forall in Hall.
  specialize (Hall b Hb). apply time_rowid_desc_spec in Hall.
  destruct Hall as [Hlt | [Heq _]]; [exact Hlt|].
  exfalso. apply Hnotin. rewrite <- Heq. apply in_map. exact Hb.
Qed.

Section Paging.
Variables (this : MessageStorage) (db : sqlite_db).
Variables (term : string) (network channel : option string).

Local Abbreviation query := (first_query term network channel).
Local Abbreviation found := (found_rows (first_query term network channel) db).

Hypothesis enabled : isEnabled this = true.
Hypothesis opened : database this = Some db.
Hypothesis distinct_times : NoDup (map col_time (matching query db)).
Hypothesis no_epoch : forall r, In r (matching query db) -> col_time r <> 0.
Hypothesis no_rowid_member :
  forall r, In r (matching query db) ->
            obj_get (JSON_parse (col_msg r)) "rowid" = JUndefined.

Lemma found_falling : StronglySorted (fun a b => col_time b < col_time a) found.
Proof.
  apply sorted_strict.
  - apply order_by_sorted; [apply time_rowid_desc_total|apply time_rowid_desc_trans].
  - eapply Permutation_NoDup; [|exact distinct_times].
    apply Permutation_map. apply order_by_perm.
Qed.

Lemma search_rows_first : search_rows this query = firstn page_size found.
Proof.
  rewrite (search_rows_page this query db opened), sql_limit_maxResults. reflexivity.
Qed.

Lemma search_rows_after (t : Z) :
  t <> 0 ->
  search_rows this (with_cursor query (Some t) None)
  = firstn page_size (filter (fun r => col_time r <? t) found).
Proof.
  intros Ht. rewrite (search_rows_page this _ db opened), sql_limit_maxResults.
  f_equal. unfold found.
  rewrite (filter_order_by time_rowid_desc time_rowid_desc_total time_rowid_desc_trans).
  f_equal. unfold matching. rewrite <- filter_andb. apply filter_ext.
  intros r. apply page_condition_after. exact Ht.
Qed.

Lemma paginate_from (fuel : nat) :
  forall (seen left : list message_row) (q : SearchQuery),
    found = (seen ++ left)%list ->
    (List.length left < fuel)%nat ->
    search_rows this q = firstn page_size left ->
    (forall t i, with_cursor q t i = with_cursor query t i) ->
    paginate fuel this q = Some left.
Proof.
  induction fuel as [|fuel IH]; intros seen left q Hsplit Hfuel Hrows Hq; [lia|].
  cbn [paginate]. rewrite (search_enabled this q db enabled opened).
  destruct (search_callback_cursor q (search_rows this q)) as (response & Hr & Hcur).
  rewrite Hr, Hrows in *.
  destruct (rev (firstn page_size left)) as [|x rest] eqn:Erev.
  - destruct Hcur as [-> ->]. cbn [is_sentinel Z.eqb andb].
    assert (firstn page_size left = []) as Hnil
        by (rewrite <- (rev_involutive (firstn page_size left)), Erev; reflexivity).
    rewrite Hnil. f_equal. destruct left as [|r left]; [reflexivity|].
    discriminate Hnil.
  - assert (firstn page_size left = (rev rest ++ [x])%list) as Hpage
        by (rewrite <- (rev_involutive (firstn page_size left)), Erev; reflexivity).
    assert (In x (matching query db)) as Hx.
    { apply (order_by_In time_rowid_desc). fold found. rewrite Hsplit.
      apply in_or_app. right. rewrite <- (firstn_skipn page_size left), Hpage.
      apply in_or_app. left. apply in_or_app. right. left. reflexivity. }
    destruct Hcur as [-> ->]. rewrite (no_rowid_member x Hx).
    cbn [is_sentinel as_number]. rewrite Hq.
    rewrite (IH (seen ++ firstn page_size left)%list (skipn page_size left)).
    + cbn [option_map]. rewrite firstn_skipn. reflexivity.
    + rewrite <- app_assoc, firstn_skipn. exact Hsplit.
    + rewrite length_skipn.
      assert (0 < page_size)%nat by (unfold page_size, maxResults; lia).
      assert (left <> []) as Hne by (intros ->; rewrite firstn_nil in Hpage;
                                     destruct (rev rest); discriminate).
      destruct left; [contradiction|]. cbn [List.length] in *. lia.
    + rewrite (search_rows_after (col_time x) (no_epoch x Hx)). f_equal.
      pose proof found_falling as Hfall.
      assert (found = ((seen ++ rev rest) ++ x :: skipn page_size left)%list) as Hs.
      { rewrite Hsplit, <- (firstn_skipn page_size left) at 1.
        rewrite Hpage, <- !app_assoc. reflexivity. }
      rewrite Hs in Hfall |- *. apply rows_after. exact Hfall.
    + intros t i. reflexivity.
Qed.
End Paging.

Lemma page_condition_after_row (term : string) (network channel : option string)
    (x r : message_row) :
  col_time x <> 0 ->
  is_true (page_condition
             (with_cursor (first_query term network channel)
                          (Some (col_time x)) (Some (col_rowid x))) r)
  = matches (first_query term network channel) r && after_row x r.
Proof.
  intros Ht. unfold page_condition, matches, search_cursor.
  cbn [with_cursor first_query searchTerm networkUuid channelName lastTime lastId
       js_of_number truthy].
  replace (col_time x =? 0) with false by (symmetry; apply Z.eqb_neq; exact Ht).
  cbn [negb]. unfold search_condition at 1.
  fold (search_condition (search_pattern term) (scope network)
          (option_map toLowerCase (scope channel)) None r).
  rewrite is_true_and. f_equal. unfold after_row.
  cbn [int_eq int_lt option_map].
  destruct (col_time r =? col_time x), (col_rowid r <? col_rowid x),
    (col_time r <? col_time x); reflexivity.
Qed.

Lemma after_row_true (x r : message_row) :
  after_row x r = true
  <-> col_time r < col_time x
      \/ (col_time r = col_time x /\ col_rowid r < col_rowid x).
Proof.
  unfold after_row.
  rewrite orb_true_iff, andb_true_iff, !Z.ltb_lt, Z.eqb_eq. tauto.
Qed.

Lemma sorted_strict_rowid (l : list message_row) :
  StronglySorted (fun a b => time_rowid_desc a b = true) l ->
  NoDup (map col_rowid l) ->
  StronglySorted (fun a b => after_row a b = true) l.
Proof.
  induction 1 as [|x l Hs IH Hall]; cbn [map]; intros Hnd; [constructor|].
  inversion Hnd as [|? ? Hnotin Hnd']; subst. constructor; [exact (IH Hnd')|].
  apply Forall_forall. intros b Hb. rewrite Forall_forall in Hall.
  specialize (Hall b Hb). apply time_rowid_desc_spec in Hall. apply after_row_true.
  destruct Hall as [Hlt | [Heq Hle]]; [left; exact Hlt|].
  right. split; [exact Heq|].
  assert (col_rowid b <> col_rowid x)
    by (intros E; apply Hnotin; rewrite <- E; apply in_map; exact Hb).
  lia.
Qed.

Lemma rows_after_row (front rest : list message_row) (x : message_row) :
  StronglySorted (fun a b => after_row a b = true) (front ++ x :: rest) ->
  filter (after_row x) (front ++ x :: rest) = rest.
Proof.
  induction front as [|y front IH]; cbn [app]; intros Hs.
  - inversion Hs as [|? ? _ Hall]; subst. cbn [filter].
    replace (after_row x x) with false
      by (symmetry; apply not_true_iff_false; rewrite after_row_true; lia).
    apply forallb_filter_id. apply forallb_forall. intros r Hr.
    rewrite Forall_forall in Hall. apply Hall. exact Hr.
  - inversion Hs as [|? ? Hs' Hall]; subst. cbn [filter].
    replace (after_row x y) with false; [exact (IH Hs')|].
    symmetry. apply not_true_iff_false. rewrite after_row_true.
    rewrite Forall_forall in Hall.
    assert (after_row y x = true) as Hyx
        by (apply Hall, in_or_app; right; left; reflexivity).
    apply after_row_true in Hyx. lia.
Qed.

Section PagingByRowid.
Variables (this : MessageStorage) (db : sqlite_db).
Variables (term : string) (network channel : option string).

Local Abbreviation query := (first_query term network channel).
Local Abbreviation found := (found_rows (first_query term network channel) db).

Hypothesis enabled : isEnabled this = true.
Hypothesis opened : database this = Some db.
Hypothesis distinct_rowids : NoDup (map col_rowid (matching query db)).
Hypothesis no_epoch : forall r, In r (matching query db) -> col_time r <> 0.

Lemma found_strict : StronglySorted (fun a b => after_row a b = true) found.
Proof.
  apply sorted_strict_rowid.
  - apply order_by_sorted; [apply time_rowid_desc_total|apply time_rowid_desc_trans].
  - eapply Permutation_NoDup; [|exact distinct_rowids].
    apply Permutation_map. apply order_by_perm.
Qed.

Lemma search_rows_after_row (x : message_row) :
  col_time x <> 0 ->
  search_rows this (with_cursor query (Some (col_time x)) (Some (col_rowid x)))
  = firstn page_size (filter (after_row x) found).
Proof.
  intros Ht. rewrite (search_rows_page this _ db opened), sql_limit_maxResults.
  f_equal. unfold found_rows.
  rewrite (filter_order_by time_rowid_desc time_rowid_desc_total time_rowid_desc_trans).
  f_equal. unfold matching. rewrite <- filter_andb. apply filter_ext.
  intros r. apply page_condition_after_row. exact Ht.
Qed.

Lemma paginate_by_rowid_from (fuel : nat) :
  forall (seen left : list message_row) (q : SearchQuery),
    found = (seen ++ left)%list ->
    (List.length left < fuel)%nat ->
    search_rows this q = firstn page_size left ->
    (forall t i, with_cursor q t i = with_cursor query t i) ->
    paginate_by_rowid fuel this q = Some left.
Proof.
  induction fuel as [|fuel IH]; intros seen left q Hsplit Hfuel Hrows Hq; [lia|].
  cbn [paginate_by_rowid]. rewrite (search_enabled this q db enabled opened).
  destruct (search_callback_cursor q (search_rows this q)) as (response & -> & _).
  rewrite Hrows.
  destruct (rev (firstn page_size left)) as [|x rest] eqn:Erev.
  - assert (firstn page_size left = []) as Hnil
        by (rewrite <- (rev_involutive (firstn page_size left)), Erev; reflexivity).
    f_equal. destruct left as [|r left]; [reflexivity|]. discriminate Hnil.
  - assert (firstn page_size left = (rev rest ++ [x])%list) as Hpage
        by (rewrite <- (rev_involutive (firstn page_size left)), Erev; reflexivity).
    assert (In x (matching query db)) as Hx.
    { apply (order_by_In time_rowid_desc). fold found. rewrite Hsplit.
      apply in_or_app. right. rewrite <- (firstn_skipn page_size left), Hpage.
      apply in_or_app. left. apply in_or_app. right. left. reflexivity. }
    rewrite Hq.
    rewrite (IH (seen ++ firstn page_size left)%list (skipn page_size left)).
    + cbn [option_map]. rewrite firstn_skipn. reflexivity.
    + rewrite <- app_assoc, firstn_skipn. exact Hsplit.
    + rewrite length_skipn.
      assert (0 < page_size)%nat by (unfold page_size, maxResults; lia).
      assert (left <> []) as Hne by (intros ->; rewrite firstn_nil in Hpage;
                                     destruct (rev rest); discriminate).
      destruct left; [contradiction|]. cbn [List.length] in *. lia.
    + rewrite (search_rows_after_row x (no_epoch x Hx)). f_equal.
      pose proof found_strict as Hstrict.
      assert (found = ((seen ++ rev rest) ++ x :: skipn page_size left)%list) as Hs.
      { rewrite Hsplit, <- (firstn_skipn page_size left) at 1.
        rewrite Hpage, <- !app_assoc. reflexivity. }
      rewrite Hs in Hstrict |- *. apply rows_after_row. exact Hstrict.
    + intros t i. reflexivity.
Qed.
End PagingByRowid.

(** The rowids of a table stay pairwise different. *)
Lemma next_rowid_above (rows : list message_row) (r : message_row) :
  In r rows -> col_rowid r < next_rowid rows.
Proof.
  unfold next_rowid. induction rows as [|x rows IH]; cbn; [contradiction|].
  intros [<- | Hin]; [lia|]. specialize (IH Hin). lia.
Qed.

Lemma filter_keeps_rowids (f : message_row -> bool) (rows : list message_row) :
  NoDup (map col_rowid rows) -> NoDup (map col_rowid (filter f rows)).
Proof.
  induction rows as [|x rows IH]; cbn; intros Hnd; [constructor|].
  inversion Hnd as [|? ? Hnotin Hnd']; subst. destruct (f x); [|exact (IH Hnd')].
  cbn. constructor; [|exact (IH Hnd')].
  intros Hin. apply Hnotin. apply in_map_iff in Hin. destruct Hin as (y & Hy & Hin).
  apply filter_In in Hin. rewrite <- Hy. apply in_map. apply Hin.
Qed.

Lemma index_keeps_rowids (this : MessageStorage) (db : sqlite_db)
    (network : Network) (channel : Chan) (msg : Message) :
  isEnabled this = true ->
  database this = Some db ->
  NoDup (map col_rowid (messages db)) ->
  exists db',
    index this network channel msg = Normal (set_database this db')
    /\ NoDup (map col_rowid (messages db')).
Proof.
  intros Hen Hdb Hnd.
  destruct (index_enabled this db network channel msg Hen Hdb) as [payload Hi].
  eexists. split; [exact Hi|]. cbn [messages with_messages].
  rewrite map_app. cbn [map col_rowid].
  apply NoDup_app.
  { exact Hnd. }
  { constructor; [intros []|constructor]. }
  intros x Hx [<- | []]. apply in_map_iff in Hx. destruct Hx as (r & Hr & Hin).
  pose proof (next_rowid_above (messages db) r Hin). lia.
Qed.

Lemma deleteChannel_keeps_rowids (this : MessageStorage) (db : sqlite_db)
    (network : Network) (channel : Chan) :
  isEnabled this = true ->
  database this = Some db ->
  NoDup (map col_rowid (messages db)) ->
  exists db',
    deleteChannel this network channel = Normal (set_database this db')
    /\ NoDup (map col_rowid (messages db')).
Proof.
  intros Hen Hdb Hnd. eexists.
  split; [apply (deleteChannel_enabled this db network channel Hen Hdb)|].
  cbn [messages with_messages]. apply filter_keeps_rowids. exact Hnd.
Qed.

(** X18.  The condition on the cursor does what the comment in [search]
    says when it is given the time and the rowid of a row.  Let the rows
    that match the term and the scope all have a time other than 0, and
    let the rowids of the table be pairwise different, as the engine
    keeps them.  The caller that starts without cursor and asks, page
    after page, for the rows before the time and the rowid of the last
    row it was given, comes to the empty page, and the pages it was given
    hold every matching row once, in falling order of time and rowid,
    also when rows share a time. *)
Theorem search_by_row_cursor_visits_each_row_once
    (this : MessageStorage) (db : sqlite_db)
    (term : string) (network channel : option string) :
  let query := first_query term network channel in
  isEnabled this = true ->
  database this = Some db ->
  NoDup (map col_rowid (messages db)) ->
  (forall r, In r (matching query db) -> col_time r <> 0) ->
  forall fuel,
    (List.length (matching query db) < fuel)%nat ->
    exists visited,
      paginate_by_rowid fuel this query = Some visited
      /\ Permutation visited (matching query db)
      /\ NoDup visited
      /\ StronglySorted (fun a b => after_row a b = true) visited.
Proof.
  intros query Hen Hdb Hall Hzero fuel Hfuel.
  pose proof (order_by_perm time_rowid_desc (matching query db)) as Hperm.
  assert (NoDup (map col_rowid (matching query db))) as Hrowids
      by (apply filter_keeps_rowids; exact Hall).
  exists (found_rows query db). split; [|split; [|split]].
  - apply (paginate_by_rowid_from this db term network channel Hen Hdb Hrowids Hzero
             fuel []).
    + reflexivity.
    + unfold found_rows. rewrite <- (Permutation_length Hperm). exact Hfuel.
    + apply search_rows_first. exact Hdb.
    + intros t i. reflexivity.
  - symmetry. exact Hperm.
  - apply (NoDup_map_inv col_rowid). eapply Permutation_NoDup; [|exact Hrowids].
    apply Permutation_map. exact Hperm.
  - apply found_strict. exact Hrowids.
Qed.

(** With the cursor that the response carries, the caller comes to the
    sentinel and has been given every matching row once when no two
    matching rows share a time (and no time is 0, and no payload has a
    member [rowid]). *)
Lemma returned_cursor_pages_rows_of_different_times
    (this : MessageStorage) (db : sqlite_db)
    (term : string) (network channel : option string) :
  let query := first_query term network channel in
  isEnabled this = true ->
  database this = Some db ->
  (forall r, In r (matching query db) -> col_time r <> 0) ->
  NoDup (map col_time (matching query db)) ->
  (forall r, In r (matching query db) ->
             obj_get (JSON_parse (col_msg r)) "rowid" = JUndefined) ->
  forall fuel,
    (List.length (matching query db) < fuel)%nat ->
    exists visited,
      paginate fuel this query = Some visited
      /\ Permutation visited (matching query db)
      /\ NoDup visited.
Proof.
  intros query Hen Hdb Hzero Hdistinct Hmember fuel Hfuel.
  pose proof (order_by_perm time_rowid_desc (matching query db)) as Hperm.
  exists (found_rows query db). split; [|split].
  - apply (paginate_from this db term network channel Hen Hdb Hdistinct Hzero Hmember
             fuel []).
    + reflexivity.
    + unfold found_rows. rewrite <- (Permutation_length Hperm). exact Hfuel.
    + apply search_rows_first. exact Hdb.
    + intros t i. reflexivity.
  - symmetry. exact Hperm.
  - apply (NoDup_map_inv col_time). eapply Permutation_NoDup; [|exact Hdistinct].
    apply Permutation_map. exact Hperm.
Qed.

Lemma distinct_sound (l : list Z) : distinct l = true -> NoDup l.
Proof.
  induction l as [|x l IH]; cbn; intros H; [constructor|].
  apply andb_true_iff in H. destruct H as [Hx Hl]. constructor; [|exact (IH Hl)].
  intros Hin. apply negb_true_iff in Hx.
  assert (existsb (Z.eqb x) l = true) as Ht
      by (apply existsb_exists; exists x; split; [exact Hin|apply Z.eqb_refl]).
  congruence.
Qed.

Lemma search_by_row_cursor_visits_each_row_once_witness :
  exists visited,
    paginate_by_rowid 102 crowded_storage (first_query "tick" None None) = Some visited
    /\ Permutation visited (matching (first_query "tick" None None) crowded_db)
    /\ NoDup visited
    /\ StronglySorted (fun a b => after_row a b = true) visited.
Proof.
  pose proof (search_by_row_cursor_visits_each_row_once
                crowded_storage crowded_db "tick" None None) as H.
  cbv zeta in H.
  assert (isEnabled crowded_storage = true) as H1 by (vm_compute; reflexivity).
  assert (database crowded_storage = Some crowded_db) as H2
      by (vm_compute; reflexivity).
  assert (NoDup (map col_rowid (messages crowded_db))) as H3
      by (apply distinct_sound; vm_compute; reflexivity).
  assert (forall r, In r (matching (first_query "tick" None None) crowded_db) ->
                    col_time r <> 0) as H4.
  { intros r Hr.
    assert (forallb (fun r => negb (col_time r =? 0))
                    (matching (first_query "tick" None None) crowded_db) = true) as Hall
        by (vm_compute; reflexivity).
    rewrite forallb_forall in Hall. specialize (Hall r Hr).
    apply negb_true_iff, Z.eqb_neq in Hall. exact Hall. }
  assert (List.length (matching (first_query "tick" None None) crowded_db) < 102)%nat
    as H5 by (vm_compute; lia).
  exact (H H1 H2 H3 H4 102%nat H5).
Defined.

(** C1 fails on the code, through the cursor without row id.  101
    messages that share the time 500 and all match the term: the first
    call delivers the 100 rows with the highest rowids and a response whose
    [lastTime] is 500 and whose [lastId] is [undefined]; fed back, the
    cursor asks for the rows before (500, NULL), of which there is none,
    so the second page is empty, its response carries the sentinel, and
    the caller ends without ever having been given the row with the rowid
    1.  Given the rowid of the last row, the same condition delivers all
    101 rows. *)
Theorem search_pages_skip_rows_sharing_a_time :
  let query := first_query "tick" None None in
  exists visited response,
    List.length (matching query crowded_db) = 101%nat
    /\ forallb (fun r => col_time r =? 500) (matching query crowded_db) = true
    /\ search crowded_storage query = Normal (Resolved response)
    /\ get_prop response "lastTime" = JNum 500
    /\ get_prop response "lastId" = JUndefined
    /\ search_rows crowded_storage
         (with_cursor query (as_number (get_prop response "lastTime"))
                      (as_number (get_prop response "lastId")))
       = []
    /\ paginate 2 crowded_storage query = Some visited
    /\ List.length visited = 100%nat
    /\ existsb (fun r => col_rowid r =? 1) (matching query crowded_db) = true
    /\ existsb (fun r => col_rowid r =? 1) visited = false
    /\ option_map (@List.length message_row)
         (paginate_by_rowid 3 crowded_storage query)
       = Some 101%nat.
Proof.
  intros query. eexists. eexists.
  split; [vm_compute; reflexivity|]. split; [vm_compute; reflexivity|].
  split; [vm_compute; reflexivity|]. split; [vm_compute; reflexivity|].
  split; [vm_compute; reflexivity|]. split; [vm_compute; reflexivity|].
  split; [vm_compute; reflexivity|]. split; [vm_compute; reflexivity|].
  split; [vm_compute; reflexivity|]. split; vm_compute; reflexivity.
Qed.

(** ** What a search term matches *)

Lemma page_condition_matches (query : SearchQuery) (r : message_row) :
  is_true (page_condition query r) = true -> matches query r = true.
Proof.
  unfold page_condition, matches, search_condition.
  destruct (search_cursor query) as [[[t1 i] t2]|]; [|auto].
  rewrite is_true_and, andb_true_iff. intros [H _]. exact H.
Qed.




(** ** Channel names, in every method *)




(** Without cursor, and with no more matching rows than a page holds, the
    page of a search holds every matching row. *)
Lemma search_rows_whole (this : MessageStorage) (db : sqlite_db)
    (query : SearchQuery) (row : message_row) :
  database this = Some db ->
  truthy (js_of_number (lastTime query)) = false ->
  (List.length (matching query db) <= 100)%nat ->
  In row (messages db) ->
  matches query row = true ->
  In row (search_rows this query).
Proof.
  intros Hdb Hfirst Hlen Hin Hm.
  rewrite (search_rows_page this query db Hdb), sql_limit_maxResults.
  assert (filter (fun r => is_true (page_condition query r)) (messages db)
          = matching query db) as E.
  { apply filter_ext. intros r. unfold page_condition, matches, search_cursor.
    rewrite Hfirst. reflexivity. }
  rewrite E, firstn_all2.
  - apply order_by_In. apply filter_In. split; assumption.
  - rewrite <- (Permutation_length (order_by_perm time_rowid_desc _)).
    change (Z.to_nat maxResults) with 100%nat. exact Hlen.
Qed.

Lemma search_results (this : MessageStorage) (db : sqlite_db) (query : SearchQuery) :
  isEnabled this = true ->
  database this = Some db ->
  exists response,
    search this query = Normal (Resolved response)
    /\ get_prop response "results"
       = JArr (map search_message (rev (search_rows this query))).
Proof.
  intros Hen Hdb. rewrite (search_enabled this query db Hen Hdb).
  unfold search_callback. rewrite parseSearchRowsToMessages_map, <- map_rev.
  eexists. split; reflexivity.
Qed.

Lemma index_writes (this : MessageStorage) (db : sqlite_db)
    (network : Network) (channel : Chan) (msg : Message) :
  isEnabled this = true ->
  database this = Some db ->
  index this network channel msg
  = Normal (set_database this
              (with_messages db
                 (messages db ++ [indexed_row db network channel msg]))).
Proof.
  intros Hen Hdb. unfold index, database_run. rewrite Hen, Hdb. cbn [negb].
  unfold exec_run.
  replace (prepare "INSERT INTO messages(network, channel, time, type, msg) VALUES(?, ?, ?, ?, ?)")
    with (Some InsertMessage) by (vm_compute; reflexivity).
  reflexivity.
Qed.

Lemma search_rows_sorted (this : MessageStorage) (db : sqlite_db) (query : SearchQuery) :
  database this = Some db ->
  StronglySorted (fun a b => time_rowid_desc a b = true) (search_rows this query)
  /\ (List.length (search_rows this query) <= 100)%nat
  /\ forall r, In r (search_rows this query) ->
               In r (messages db) /\ matches query r = true.
Proof.
  intros Hdb. rewrite (search_rows_page this query db Hdb).
  set (all := order_by time_rowid_desc
                (filter (fun r => is_true (page_condition query r)) (messages db))).
  destruct (sql_limit_split maxResults all) as [rest Hsplit].
  assert (StronglySorted (fun a b => time_rowid_desc a b = true) all) as Hs
      by (apply order_by_sorted; [apply time_rowid_desc_total|apply time_rowid_desc_trans]).
  split; [|split].
  - rewrite Hsplit in Hs. apply sorted_app_left in Hs. exact Hs.
  - pose proof (sql_limit_length maxResults all) as Hl. unfold maxResults in *. lia.
  - intros r Hr.
    assert (In r all) as Hin by (rewrite Hsplit; apply in_or_app; left; exact Hr).
    apply order_by_In in Hin. apply filter_In in Hin. destruct Hin as [Hm Hc].
    split; [exact Hm|apply page_condition_matches; exact Hc].
Qed.




(** * More of the storage *)

(** ** What [index] writes *)

Lemma obj_get_absent (o : jsobj) (k : string) :
  ~ In k (Object_keys o) -> obj_get o k = JUndefined.
Proof.
  induction o as [|[k' v] o IH]; cbn; intros Hn; [reflexivity|].
  destruct (String.eqb_spec k' k) as [->|Hk]; [exfalso; apply Hn; left; reflexivity|].
  apply IH. intros Hin. apply Hn. right. exact Hin.
Qed.

Lemma obj_set_keys (o : jsobj) (k k' : string) (v : jsval) :
  In k' (Object_keys (obj_set o k v)) <-> k' = k \/ In k' (Object_keys o).
Proof.
  unfold Object_keys. induction o as [|[k0 v0] o IH]; cbn.
  - split; [intros [<- | []]; left; reflexivity|intros [-> | []]; left; reflexivity].
  - destruct (String.eqb_spec k0 k) as [->|Hk]; cbn.
    + intuition congruence.
    + rewrite IH. intuition congruence.
Qed.

Lemma obj_set_keys_nodup (o : jsobj) (k : string) (v : jsval) :
  NoDup (Object_keys o) -> NoDup (Object_keys (obj_set o k v)).
Proof.
  induction o as [|[k0 v0] o IH]; cbn; intros Hnd.
  - constructor; [intros []|constructor].
  - inversion Hnd as [|? ? Hnotin Hnd']; subst.
    destruct (String.eqb_spec k0 k) as [->|Hk]; cbn.
    + constructor; assumption.
    + constructor; [|exact (IH Hnd')].
      intros Hin. apply (obj_set_keys o k k0 v) in Hin.
      destruct Hin as [-> | Hin]; [apply Hk; reflexivity|exact (Hnotin Hin)].
Qed.

Lemma json_members_cons (k : string) (v : jsval) (o : jsobj) :
  json_members ((k, v) :: o)
  = match v with
    | JUndefined => json_members o
    | _ => (k, json_value v) :: json_members o
    end.
Proof. destruct v; reflexivity. Qed.

(** A property read back from the JSON text of an object. *)
Lemma json_members_get (o : jsobj) (k : string) :
  NoDup (Object_keys o) ->
  obj_get (json_members o) k = through_json (obj_get o k).
Proof.
  induction o as [|[k0 v0] o IH]; intros Hnd; [reflexivity|].
  inversion Hnd as [|? ? Hnotin Hnd']; subst. specialize (IH Hnd').
  rewrite json_members_cons. cbn [obj_get].
  destruct (String.eqb_spec k0 k) as [->|Hk].
  - destruct v0; cbn [obj_get]; rewrite ?String.eqb_refl; try reflexivity.
    rewrite IH, (obj_get_absent o k Hnotin). reflexivity.
  - destruct v0; cbn [obj_get];
      try (destruct (String.eqb_spec k0 k); [contradiction|]); exact IH.
Qed.

Lemma kept_out_condition (prop : string) :
  negb (String.eqb prop "id") && negb (String.eqb prop "previews")
  && negb (String.eqb prop "type") && negb (String.eqb prop "time")
  = negb (kept_out prop).
Proof.
  unfold kept_out.
  destruct (String.eqb prop "id"), (String.eqb prop "previews"),
    (String.eqb prop "type"), (String.eqb prop "time"); reflexivity.
Qed.

Lemma clonedMsg_fold (msg : Message) (keys : list string) (acc : jsobj) (k : string) :
  obj_get
    (fold_left
       (fun (newMsg : jsobj) prop =>
          if negb (String.eqb prop "id") && negb (String.eqb prop "previews")
             && negb (String.eqb prop "type") && negb (String.eqb prop "time")
          then obj_set newMsg prop (obj_get (fields msg) prop)
          else newMsg) keys acc) k
  = if negb (kept_out k) && existsb (String.eqb k) keys
    then obj_get (fields msg) k
    else obj_get acc k.
Proof.
  revert acc. induction keys as [|p keys IH]; intros acc; cbn [fold_left existsb].
  - rewrite andb_false_r. reflexivity.
  - rewrite IH, (kept_out_condition p).
    destruct (String.eqb_spec k p) as [->|Hk]; cbn [orb].
    + destruct (kept_out p) eqn:Ep; cbn [negb andb].
      * reflexivity.
      * rewrite obj_get_set_same. destruct (existsb (String.eqb p) keys); reflexivity.
    + destruct (negb (kept_out k) && existsb (String.eqb k) keys); [reflexivity|].
      destruct (negb (kept_out p)); [|reflexivity].
      apply obj_get_set_other. congruence.
Qed.

Lemma clonedMsg_fold_nodup (msg : Message) (keys : list string) (acc : jsobj) :
  NoDup (Object_keys acc) ->
  NoDup (Object_keys
           (fold_left
              (fun (newMsg : jsobj) prop =>
                 if negb (String.eqb prop "id") && negb (String.eqb prop "previews")
                    && negb (String.eqb prop "type") && negb (String.eqb prop "time")
                 then obj_set newMsg prop (obj_get (fields msg) prop)
                 else newMsg) keys acc)).
Proof.
  revert acc. induction keys as [|p keys IH]; intros acc Hnd; cbn [fold_left];
    [exact Hnd|].
  apply IH.
  destruct (negb (String.eqb p "id") && negb (String.eqb p "previews")
            && negb (String.eqb p "type") && negb (String.eqb p "time"));
    [apply obj_set_keys_nodup|]; exact Hnd.
Qed.

Lemma clonedMsg_get (msg : Message) (k : string) :
  obj_get (clonedMsg_of msg) k
  = if kept_out k then JUndefined else obj_get (fields msg) k.
Proof.
  unfold clonedMsg_of. rewrite clonedMsg_fold.
  destruct (kept_out k); cbn [negb andb obj_get]; [reflexivity|].
  destruct (existsb (String.eqb k) (Object_keys (fields msg))) eqn:E; [reflexivity|].
  symmetry. apply obj_get_absent. intros Hin.
  assert (existsb (String.eqb k) (Object_keys (fields msg)) = true) as Ht
      by (apply existsb_exists; exists k; split; [exact Hin|apply String.eqb_refl]).
  congruence.
Qed.

(** X1.  On an enabled storage [index] appends one row and changes nothing
    else: the row has the uuid of the network, the lowercased name of the
    channel, the time and the type of the message, and a rowid above every
    rowid of the table; its payload has no member [id], [previews], [type]
    or [time], and every other property of the message is in it as
    [JSON.stringify] writes it (a property that is [undefined] is not). *)
Theorem index_appends_one_row
    (this : MessageStorage) (db : sqlite_db)
    (network : Network) (channel : Chan) (msg : Message) :
  isEnabled this = true ->
  database this = Some db ->
  exists db' row,
    index this network channel msg = Normal (set_database this db')
    /\ messages db' = (messages db ++ [row])%list
    /\ objects db' = objects db
    /\ options db' = options db
    /\ col_network row = uuid network
    /\ col_channel row = toLowerCase (name channel)
    /\ col_time row = time msg
    /\ col_type row = type msg
    /\ (forall r, In r (messages db) -> col_rowid r < col_rowid row)
    /\ (forall k,
          obj_get (JSON_parse (col_msg row)) k
          = if kept_out k then JUndefined else through_json (obj_get (fields msg) k)).
Proof.
  intros Hen Hdb. eexists. exists (indexed_row db network channel msg).
  split; [apply (index_writes this db network channel msg Hen Hdb)|].
  repeat (split; [reflexivity|]). split.
  - intros r Hr. apply next_rowid_above. exact Hr.
  - intros k. cbn [indexed_row col_msg JSON_stringify JSON_parse].
    rewrite json_members_get.
    + rewrite clonedMsg_get. destruct (kept_out k); reflexivity.
    + apply clonedMsg_fold_nodup. constructor.
Qed.

Lemma index_appends_one_row_witness :
  exists db' row,
    index example_storage example_network {| name := "#New" |}
          (example_message 400 "fourth")
    = Normal (set_database example_storage db')
    /\ messages db' = (messages example_db ++ [row])%list
    /\ col_channel row = "#new"
    /\ obj_get (JSON_parse (col_msg row)) "id" = JUndefined
    /\ obj_get (JSON_parse (col_msg row)) "text" = JStr "fourth".
Proof.
  destruct (index_appends_one_row example_storage example_db example_network
              {| name := "#New" |} (example_message 400 "fourth") eq_refl eq_refl)
    as (db' & row & Hi & Hm & _ & _ & _ & Hc & _ & _ & _ & Hp).
  exists db', row. split; [exact Hi|]. split; [exact Hm|]. split; [exact Hc|].
  split; rewrite Hp; reflexivity.
Defined.

(** ** What [getMessages] delivers *)

Lemma ids_from_succ (first : Z) (n : nat) :
  ids_from first (S n) = JNum first :: ids_from (first + 1) n.
Proof.
  unfold ids_from. cbn [seq map]. f_equal; [f_equal; lia|].
  rewrite <- seq_shift, map_map. apply map_ext. intros k. f_equal. lia.
Qed.

Lemma history_messages_cons (this : MessageStorage) (row : message_row)
    (rows : list message_row) :
  history_messages this (row :: rows)
  = (fst (history_message this row)
       :: fst (history_messages (snd (history_message this row)) rows),
     snd (history_messages (snd (history_message this row)) rows)).
Proof.
  cbn [history_messages]. destruct (history_message this row) as [m this1].
  cbn [fst snd]. destruct (history_messages this1 rows). reflexivity.
Qed.

Lemma history_messages_ids (rows : list message_row) (this : MessageStorage) :
  map (fun m => get_prop m "id") (fst (history_messages this rows))
  = ids_from (idMsg (client this)) (List.length rows)
  /\ List.length (fst (history_messages this rows)) = List.length rows
  /\ idMsg (client (snd (history_messages this rows)))
     = idMsg (client this) + Z.of_nat (List.length rows)
  /\ client_name (client (snd (history_messages this rows)))
     = client_name (client this)
  /\ isEnabled (snd (history_messages this rows)) = isEnabled this
  /\ database (snd (history_messages this rows)) = database this.
Proof.
  revert this. induction rows as [|row rows IH]; intros this.
  - cbn. repeat split. lia.
  - rewrite history_messages_cons. cbn [fst snd].
    destruct (IH (snd (history_message this row)))
      as (Hids & Hlen & Hnext & Hname & Hen & Hdb).
    cbn [List.length map]. rewrite ids_from_succ.
    split; [|split; [|split; [|split; [|split]]]].
    + f_equal; [|exact Hids].
      unfold history_message, Msg. cbn [fst set_prop get_prop]. apply obj_get_set_same.
    + rewrite Hlen. reflexivity.
    + rewrite Hnext. cbn. lia.
    + rewrite Hname. reflexivity.
    + rewrite Hen. reflexivity.
    + rewrite Hdb. reflexivity.
Qed.

(** X2.  The messages that [getMessages] resolves to carry the ids
    [idMsg], [idMsg + 1], ... of the client in the order of the array; the
    counter of the client has moved on by their number, and nothing else of
    the storage has changed. *)
Theorem getMessages_gives_fresh_ids
    (config : Config) (this : MessageStorage) (db : sqlite_db)
    (network : Network) (channel : Chan) :
  isEnabled this = true ->
  database this = Some db ->
  maxHistory config <> 0 ->
  exists ms this' statement,
    getMessages config this network channel
    = Normal (Resolved (JArr ms), this', Some statement)
    /\ map (fun m => get_prop m "id") ms
       = ids_from (idMsg (client this)) (List.length ms)
    /\ idMsg (client this') = idMsg (client this) + Z.of_nat (List.length ms)
    /\ client_name (client this') = client_name (client this)
    /\ isEnabled this' = true
    /\ database this' = Some db.
Proof.
  intros Hen Hdb Hmax.
  rewrite (getMessages_enabled config this db network channel Hen Hdb Hmax). cbv zeta.
  destruct (history_messages_ids (rev (history_rows config db network channel)) this)
    as (Hids & Hlen & Hnext & Hname & Hen' & Hdb').
  eexists. eexists. eexists. split; [reflexivity|].
  rewrite Hlen. split; [exact Hids|]. split; [exact Hnext|]. split; [exact Hname|].
  split; [rewrite Hen'; exact Hen|rewrite Hdb'; exact Hdb].
Qed.

Lemma getMessages_gives_fresh_ids_witness :
  exists ms this' statement,
    getMessages {| maxHistory := -1 |} example_storage example_network {| name := "#a" |}
    = Normal (Resolved (JArr ms), this', Some statement)
    /\ map (fun m => get_prop m "id") ms = [JNum 1; JNum 2; JNum 3]
    /\ idMsg (client this') = 4.
Proof.
  destruct (getMessages_gives_fresh_ids
              {| maxHistory := -1 |} example_storage example_db
              example_network {| name := "#a" |} eq_refl eq_refl)
    as (ms & this' & statement & Hg & Hids & Hnext & _); [discriminate|].
  exists ms, this', statement. split; [exact Hg|].
  vm_compute in Hg. injection Hg as <- <- _. split; reflexivity.
Defined.

Lemma kept_out_false (k : string) :
  kept_out k = false -> k <> "id" /\ k <> "previews" /\ k <> "type" /\ k <> "time".
Proof.
  unfold kept_out. intros H.
  repeat split; intros ->; discriminate H.
Qed.

(** X3.  A message that was indexed comes back from [getMessages] for its
    channel, as long as the channel holds fewer rows than the limit: with
    the time and the type it was indexed with, and with every property
    that [index] does not keep out, as JSON carries it. *)
Theorem getMessages_returns_the_indexed_message
    (config : Config) (this : MessageStorage) (db : sqlite_db)
    (network : Network) (channel : Chan) (msg : Message) :
  isEnabled this = true ->
  database this = Some db ->
  maxHistory config <> 0 ->
  (List.length (filter (in_channel (uuid network) (toLowerCase (name channel)))
                       (messages db))
   < Z.to_nat (history_limit config))%nat ->
  exists this1 ms this2 statement m,
    index this network channel msg = Normal this1
    /\ getMessages config this1 network channel
       = Normal (Resolved (JArr ms), this2, statement)
    /\ In m ms
    /\ message_time m = JNum (time msg)
    /\ get_prop m "type" = JStr (type msg)
    /\ (forall k, kept_out k = false ->
                  get_prop m k = through_json (obj_get (fields msg) k)).
Proof.
  intros Hen Hdb Hmax Hroom.
  set (row := indexed_row db network channel msg).
  set (db1 := with_messages db (messages db ++ [row])).
  assert (in_channel (uuid network) (toLowerCase (name channel)) row = true) as Hscope
      by (apply in_channel_true; split; reflexivity).
  exists (set_database this db1).
  rewrite (getMessages_enabled config (set_database this db1) db1 network channel
             Hen eq_refl Hmax). cbv zeta.
  destruct (history_messages_deliver
              (rev (history_rows config db1 network channel))
              (set_database this db1) row) as (m & Hm & Htime & Htype & Hrest).
  { apply -> in_rev. apply history_rows_all; [exact Hmax| | |exact Hscope].
    - cbn [db1 messages with_messages]. rewrite filter_app, length_app.
      cbn [filter]. rewrite Hscope. cbn [List.length]. lia.
    - cbn. apply in_or_app. right. left. reflexivity. }
  eexists. eexists. eexists. exists m.
  split; [apply (index_writes this db network channel msg Hen Hdb)|].
  split; [reflexivity|]. split; [exact Hm|]. split; [exact Htime|].
  split; [exact Htype|].
  intros k Hk. destruct (kept_out_false k Hk) as (Hid & _ & Hty & Hti).
  rewrite (Hrest k Hti Hty Hid).
  cbn [row indexed_row col_msg JSON_stringify JSON_parse].
  rewrite json_members_get by (apply clonedMsg_fold_nodup; constructor).
  rewrite clonedMsg_get, Hk. reflexivity.
Qed.

Lemma getMessages_returns_the_indexed_message_witness :
  exists this1 ms this2 statement m,
    index example_storage example_network {| name := "#A" |}
          (example_message 400 "fourth") = Normal this1
    /\ getMessages {| maxHistory := 10 |} this1 example_network {| name := "#A" |}
       = Normal (Resolved (JArr ms), this2, statement)
    /\ In m ms
    /\ message_time m = JNum 400
    /\ get_prop m "text" = JStr "fourth".
Proof.
  destruct (getMessages_returns_the_indexed_message
              {| maxHistory := 10 |} example_storage example_db example_network
              {| name := "#A" |} (example_message 400 "fourth") eq_refl eq_refl)
    as (this1 & ms & this2 & statement & m & Hi & Hg & Hm & Ht & _ & Hp).
  - discriminate.
  - vm_compute. lia.
  - exists this1, ms, this2, statement, m.
    split; [exact Hi|]. split; [exact Hg|]. split; [exact Hm|]. split; [exact Ht|].
    rewrite Hp by reflexivity. reflexivity.
Defined.

(** ** Opening a file again *)

Lemma exec_run_create_has (name text : string) (db : sqlite_db) :
  prepare text = Some (CreateObject name) ->
  In name (objects (snd (exec_run text [] db))).
Proof.
  intros Hp. rewrite (exec_run_create name text db Hp).
  destruct (existsb (String.eqb name) (objects db)) eqn:E.
  - apply existsb_exists in E. destruct E as (x & Hx & Ex).
    apply String.eqb_eq in Ex. subst x. exact Hx.
  - cbn. apply in_or_app. right. left. reflexivity.
Qed.

Lemma create_schema_objects (file : sqlite_db) :
  incl schema_objects (objects (create_schema file)).
Proof.
  unfold create_schema, schema. cbn [fold_left].
  set (t1 := "CREATE TABLE IF NOT EXISTS options (name TEXT, value TEXT, CONSTRAINT name_unique UNIQUE (name))").
  set (t2 := "CREATE TABLE IF NOT EXISTS messages (network TEXT, channel TEXT, time INTEGER, type TEXT, msg TEXT)").
  set (t3 := "CREATE INDEX IF NOT EXISTS network_channel ON messages (network, channel)").
  set (t4 := "CREATE INDEX IF NOT EXISTS time ON messages (time)").
  assert (prepare t1 = Some (CreateObject "options")) as P1 by (vm_compute; reflexivity).
  assert (prepare t2 = Some (CreateObject "messages")) as P2 by (vm_compute; reflexivity).
  assert (prepare t3 = Some (CreateObject "network_channel")) as P3 by (vm_compute; reflexivity).
  assert (prepare t4 = Some (CreateObject "time")) as P4 by (vm_compute; reflexivity).
  set (d1 := snd (exec_run t1 [] file)).
  set (d2 := snd (exec_run t2 [] d1)).
  set (d3 := snd (exec_run t3 [] d2)).
  pose proof (exec_run_create_has _ _ file P1) as H1. fold d1 in H1.
  pose proof (exec_run_create_has _ _ d1 P2) as H2. fold d2 in H2.
  pose proof (exec_run_create_has _ _ d2 P3) as H3. fold d3 in H3.
  pose proof (exec_run_create_has _ _ d3 P4) as H4.
  destruct (exec_run_create_frame _ _ d1 P2) as (_ & _ & _ & K2). fold d2 in K2.
  destruct (exec_run_create_frame _ _ d2 P3) as (_ & _ & _ & K3). fold d3 in K3.
  destruct (exec_run_create_frame _ _ d3 P4) as (_ & _ & _ & K4).
  intros o Ho. cbn in Ho.
  destruct Ho as [<- | [<- | [<- | [<- | []]]]]; auto.
Qed.

Lemma stored_version_inserted (os : list (string * string)) (v : string) :
  option_map snd (find (fun o => String.eqb (fst o) "schema_version") os) = None ->
  option_map snd
    (find (fun o => String.eqb (fst o) "schema_version")
          (os ++ [("schema_version", v)])) = Some v.
Proof.
  induction os as [|o os IH]; cbn; [reflexivity|].
  destruct (String.eqb (fst o) "schema_version"); [discriminate|]. exact IH.
Qed.

(** The answer of [enable] when the version is written anew. *)
Lemma enable_updates (this : MessageStorage) (file : sqlite_db) (value : string) :
  stored_version file = Some value ->
  match parseInt value with
  | Some v => v < currentSchemaVersion
  | None => True
  end ->
  enable None file this
  = (set_database (set_isEnabled this true)
       (with_options (create_schema file)
          (map (fun o => if String.eqb (fst o) "schema_version"
                         then (fst o, decimal currentSchemaVersion) else o)
               (options file))),
     [LogInfo ("sqlite messages schema version is out of date ("
               ++ number_text (parseInt value) ++ " < "
               ++ decimal currentSchemaVersion
               ++ "). Running migrations if any.")]).
Proof.
  intros Hv Hlow. rewrite enable_steps, Hv. unfold schema_version_callback.
  destruct (parseInt value) as [v|].
  - replace (v =? currentSchemaVersion) with false by (symmetry; apply Z.eqb_neq; lia).
    replace (currentSchemaVersion <? v) with false by (symmetry; apply Z.ltb_ge; lia).
    unfold exec_run.
    replace (prepare "UPDATE options SET value = ? WHERE name = 'schema_version'")
      with (Some UpdateVersion) by (vm_compute; reflexivity).
    cbn [stored_text snd]. rewrite (proj1 (create_schema_frame file)). reflexivity.
  - unfold exec_run.
    replace (prepare "UPDATE options SET value = ? WHERE name = 'schema_version'")
      with (Some UpdateVersion) by (vm_compute; reflexivity).
    cbn [stored_text snd]. rewrite (proj1 (create_schema_frame file)). reflexivity.
Qed.

(** X4.  A stored version that [parseInt] cannot read is NaN, which is
    neither equal to the current version nor greater: [enable] takes it
    for an old version, logs the line about migrations with [NaN] in it,
    and writes the current version over it; the messages stay. *)
Theorem enable_overwrites_unreadable_version
    (this : MessageStorage) (file : sqlite_db) (value : string) :
  stored_version file = Some value ->
  parseInt value = None ->
  exists db',
    database (fst (enable None file this)) = Some db'
    /\ isEnabled (fst (enable None file this)) = true
    /\ stored_version db' = Some (decimal currentSchemaVersion)
    /\ messages db' = messages file
    /\ snd (enable None file this)
       = [LogInfo ("sqlite messages schema version is out of date (NaN < "
                   ++ decimal currentSchemaVersion
                   ++ "). Running migrations if any.")].
Proof.
  intros Hv Hnan.
  rewrite (enable_updates this file value Hv) by (rewrite Hnan; exact I).
  rewrite Hnan. eexists. split; [reflexivity|]. split; [reflexivity|].
  split; [|split; [|reflexivity]].
  - unfold stored_version at 1. cbn [options with_options].
    apply (stored_version_updated (options file) value). exact Hv.
  - cbn [messages with_options]. apply (create_schema_frame file).
Qed.

Lemma enable_overwrites_unreadable_version_witness :
  exists db',
    database (fst (enable None (file_at_version "v1") (constructor example_client)))
    = Some db'
    /\ stored_version db' = Some "1520239200"
    /\ snd (enable None (file_at_version "v1") (constructor example_client))
       = [LogInfo "sqlite messages schema version is out of date (NaN < 1520239200). Running migrations if any."].
Proof.
  destruct (enable_overwrites_unreadable_version
              (constructor example_client) (file_at_version "v1") "v1"
              eq_refl eq_refl) as (db' & Hdb & _ & Hv & _ & Hlog).
  exists db'. split; [exact Hdb|]. split; [rewrite Hv|rewrite Hlog]; reflexivity.
Defined.

Lemma enable_inserts (this : MessageStorage) (file : sqlite_db) :
  stored_version file = None ->
  enable None file this
  = (set_database (set_isEnabled this true)
       (with_options (create_schema file)
          (options file ++ [("schema_version", decimal currentSchemaVersion)])),
     []).
Proof.
  intros Hnone. rewrite enable_steps, Hnone. cbn [schema_version_callback].
  unfold exec_run.
  replace (prepare "INSERT INTO options (name, value) VALUES ('schema_version', ?)")
    with (Some InsertVersion) by (vm_compute; reflexivity).
  cbn [stored_text].
  rewrite (no_version_no_option (create_schema file))
    by (unfold stored_version; rewrite (proj1 (create_schema_frame file)); exact Hnone).
  cbn [snd]. rewrite (proj1 (create_schema_frame file)). reflexivity.
Qed.

Lemma enable_current (this : MessageStorage) (file : sqlite_db) (value : string) :
  stored_version file = Some value ->
  parseInt value = Some currentSchemaVersion ->
  enable None file this
  = (set_database (set_isEnabled this true) (create_schema file), []).
Proof.
  intros Hv Hp. rewrite enable_steps, Hv. unfold schema_version_callback.
  rewrite Hp, Z.eqb_refl. reflexivity.
Qed.

Lemma enable_newer (this : MessageStorage) (file : sqlite_db) (value : string) (v : Z) :
  stored_version file = Some value ->
  parseInt value = Some v ->
  currentSchemaVersion < v ->
  enable None file this
  = (set_database (set_isEnabled this true) (create_schema file),
     [LogError ("sqlite messages schema version is higher than expected ("
                ++ decimal v ++ " > " ++ decimal currentSchemaVersion
                ++ "). Is The Lounge out of date?")]).
Proof.
  intros Hv Hp Hgt. rewrite enable_steps, Hv. unfold schema_version_callback.
  rewrite Hp.
  replace (v =? currentSchemaVersion) with false by (symmetry; apply Z.eqb_neq; lia).
  replace (currentSchemaVersion <? v) with true by (symmetry; apply Z.ltb_lt; lia).
  reflexivity.
Qed.

Lemma parseInt_current : parseInt (decimal currentSchemaVersion) = Some currentSchemaVersion.
Proof. vm_compute. reflexivity. Qed.

(** X5.  Opening is idempotent on the file: when [enable] is run again on
    the file that a first [enable] has left, whatever that first file
    was, the file stays as it is; the second run logs nothing, or, when the
    file is of a newer version, the same error as the first. *)
Theorem enable_again_changes_nothing
    (this this' : MessageStorage) (file : sqlite_db) :
  exists db1,
    database (fst (enable None file this)) = Some db1
    /\ database (fst (enable None db1 this')) = Some db1
    /\ isEnabled (fst (enable None db1 this')) = true
    /\ (snd (enable None db1 this') = []
        \/ snd (enable None db1 this') = snd (enable None file this)).
Proof.
  pose proof (create_schema_objects file) as Hobj.
  destruct (create_schema_frame file) as (Hopt & _ & _).
  assert (forall db1 : sqlite_db,
             incl schema_objects (objects db1) -> create_schema db1 = db1) as Hfix
      by (intros db1; apply create_schema_frame).
  destruct (stored_version file) as [value|] eqn:Hv.
  - destruct (parseInt value) as [v|] eqn:Hp.
    + destruct (Z.lt_trichotomy v currentSchemaVersion) as [Hlt | [-> | Hgt]].
      * rewrite (enable_updates this file value Hv) by (rewrite Hp; exact Hlt).
        eexists. split; [reflexivity|].
        rewrite (enable_current this' _ (decimal currentSchemaVersion)).
        -- rewrite (Hfix (with_options (create_schema file) _) Hobj). split; [reflexivity|].
           split; [reflexivity|left; reflexivity].
        -- unfold stored_version. cbn [options with_options].
           apply (stored_version_updated (options file) value). exact Hv.
        -- exact parseInt_current.
      * rewrite (enable_current this file value Hv Hp).
        eexists. split; [reflexivity|].
        rewrite (enable_current this' _ value).
        -- rewrite (Hfix (create_schema file) Hobj).
           split; [reflexivity|]. split; [reflexivity|left; reflexivity].
        -- unfold stored_version. rewrite Hopt. exact Hv.
        -- exact Hp.
      * rewrite (enable_newer this file value v Hv Hp Hgt).
        eexists. split; [reflexivity|].
        rewrite (enable_newer this' _ value v).
        -- rewrite (Hfix (create_schema file) Hobj).
           split; [reflexivity|]. split; [reflexivity|right; reflexivity].
        -- unfold stored_version. rewrite Hopt. exact Hv.
        -- exact Hp.
        -- exact Hgt.
    + rewrite (enable_updates this file value Hv) by (rewrite Hp; exact I).
      eexists. split; [reflexivity|].
      rewrite (enable_current this' _ (decimal currentSchemaVersion)).
      * rewrite (Hfix (with_options (create_schema file) _) Hobj). split; [reflexivity|].
        split; [reflexivity|left; reflexivity].
      * unfold stored_version. cbn [options with_options].
        apply (stored_version_updated (options file) value). exact Hv.
      * exact parseInt_current.
  - rewrite (enable_inserts this file Hv).
    eexists. split; [reflexivity|].
    rewrite (enable_current this' _ (decimal currentSchemaVersion)).
    + rewrite (Hfix (with_options (create_schema file) _) Hobj). split; [reflexivity|].
      split; [reflexivity|left; reflexivity].
    + unfold stored_version. cbn [options with_options].
      apply stored_version_inserted. exact Hv.
    + exact parseInt_current.
Qed.

(** ** After [close], and before [enable] *)

(** X6.  Once [close] has asked the handle to close, the storage is
    inert, before the handle has answered: [index] and [deleteChannel]
    leave it as it is, [getMessages] and [search] resolve to the empty
    array without a statement, a second [close] returns at once and calls
    nothing, and [canProvideMessages] says no. *)
Theorem closing_storage_is_inert
    (this : MessageStorage) (db : sqlite_db) (callback : bool) :
  isEnabled this = true ->
  database this = Some db ->
  exists this' on_closed,
    close this callback = Normal (CloseRequested this' on_closed)
    /\ canProvideMessages this' = false
    /\ (forall network channel msg, index this' network channel msg = Normal this')
    /\ (forall network channel, deleteChannel this' network channel = Normal this')
    /\ (forall config network channel,
          getMessages config this' network channel
          = Normal (Resolved (JArr []), this', None))
    /\ (forall query, search this' query = Normal (Resolved (JArr [])))
    /\ (forall callback',
          close this' callback' = Normal (CloseReturned this')
          /\ forall err, close_effects (close this' callback') err = []).
Proof.
  intros Hen Hdb. unfold close at 1. rewrite Hen. cbn [negb set_isEnabled database].
  rewrite Hdb. eexists. eexists. split; [reflexivity|].
  repeat split.
Qed.

Lemma closing_storage_is_inert_witness :
  exists this' on_closed,
    close example_storage true = Normal (CloseRequested this' on_closed)
    /\ index this' example_network {| name := "#a" |} (example_message 500 "late")
       = Normal this'
    /\ search this' (first_query "one" None None) = Normal (Resolved (JArr [])).
Proof.
  destruct (closing_storage_is_inert example_storage example_db true eq_refl eq_refl)
    as (this' & on_closed & Hc & _ & Hi & _ & _ & Hs & _).
  exists this', on_closed. split; [exact Hc|]. split; [apply Hi|apply Hs].
Defined.

Lemma reachable_has_database (this : MessageStorage) :
  reachable this -> isEnabled this = true -> exists db, database this = Some db.
Proof.
  induction 1 as [c | mkdir file this Hr IH | this this' callback k Hr IH Hc
                 | this this' network channel msg Hr IH Hi
                 | this this' network channel Hr IH Hd
                 | config this this' network channel p statement Hr IH Hg];
    intros Hen.
  - discriminate.
  - destruct mkdir as [e|]; [apply IH; exact Hen|].
    rewrite enable_steps.
    destruct (schema_version_callback None (stored_version file)) as [log next].
    eexists. reflexivity.
  - unfold close in Hc. destruct (isEnabled this); cbn [negb] in Hc; [|discriminate].
    cbn [set_isEnabled database] in Hc. destruct (database this); [|discriminate].
    injection Hc as <- _. discriminate.
  - unfold index, database_run in Hi.
    destruct (isEnabled this) eqn:E; cbn [negb] in Hi.
    + destruct (database this); [|discriminate]. injection Hi as <-.
      eexists. reflexivity.
    + injection Hi as <-. congruence.
  - unfold deleteChannel, database_run in Hd.
    destruct (isEnabled this) eqn:E; cbn [negb] in Hd.
    + destruct (database this); [|discriminate]. injection Hd as <-.
      eexists. reflexivity.
    + injection Hd as <-. congruence.
  - unfold getMessages in Hg.
    destruct (negb (isEnabled this) || (maxHistory config =? 0)) eqn:E.
    + injection Hg as _ <- _. apply IH. exact Hen.
    + apply orb_false_iff in E. destruct E as [E _]. apply negb_false_iff in E.
      destruct (IH E) as [db Hdb]. rewrite Hdb in Hg.
      destruct (exec_all _ _ db) as [err rows]. unfold getMessages_callback in Hg.
      destruct err as [e|].
      * injection Hg as _ <- _. exists db. exact Hdb.
      * pose proof (history_messages_ids (rev rows) this) as (_ & _ & _ & _ & _ & Hk).
        destruct (history_messages this (rev rows)) as [ms this2].
        injection Hg as _ <- _. exists db. cbn [snd] in Hk. congruence.
Qed.

(** X7.  With the sqlite3 module loaded, no method throws on a storage
    that the methods have made from a new one: whenever the flag is set
    there is a database to talk to, so every call returns.  Without the
    module, [enable] sets the flag and then throws, with no database
    assigned; on the storage it leaves behind [index], [deleteChannel]
    and [close] throw, and the promises of [getMessages] and [search] are
    rejected. *)
Theorem reachable_storage_never_throws (this : MessageStorage) :
  (reachable this ->
   (forall network channel msg, exists this', index this network channel msg = Normal this')
   /\ (forall network channel,
         exists this', deleteChannel this network channel = Normal this')
   /\ (forall config network channel,
         exists answer, getMessages config this network channel = Normal answer)
   /\ (forall query, exists p, search this query = Normal p)
   /\ (forall callback, exists r, close this callback = Normal r))
  /\ (database this = None ->
      exists this' e,
        enable_without_sqlite3 None this = (this', [], Some e)
        /\ isEnabled this' = true
        /\ database this' = None
        /\ (forall network channel msg, index this' network channel msg = Throw e)
        /\ (forall network channel, deleteChannel this' network channel = Throw e)
        /\ (forall callback, close this' callback = Throw e)
        /\ (forall config network channel,
              maxHistory config <> 0 ->
              getMessages config this' network channel
              = Normal (Rejected e, this', None))
        /\ (forall query, search this' query = Normal (Rejected e))).
Proof.
  split.
  - intros Hr. pose proof (reachable_has_database this Hr) as Hdb.
    destruct (isEnabled this) eqn:Hen.
    + destruct (Hdb eq_refl) as [db Ed]. split; [|split; [|split; [|split]]].
      * intros. unfold index, database_run. rewrite Hen, Ed. eexists. reflexivity.
      * intros. unfold deleteChannel, database_run. rewrite Hen, Ed. eexists. reflexivity.
      * intros. unfold getMessages. rewrite Hen, Ed. cbn [negb orb].
        destruct (maxHistory config =? 0); [eexists; reflexivity|].
        destruct (exec_all _ _ db) as [err rows].
        destruct (getMessages_callback this err rows). eexists. reflexivity.
      * intros. rewrite (search_enabled this query db Hen Ed). eexists. reflexivity.
      * intros. unfold close. rewrite Hen. cbn [negb set_isEnabled database].
        rewrite Ed. eexists. reflexivity.
    + split; [|split; [|split; [|split]]]; intros.
      * unfold index. rewrite Hen. eexists. reflexivity.
      * unfold deleteChannel. rewrite Hen. eexists. reflexivity.
      * unfold getMessages. rewrite Hen. eexists. reflexivity.
      * unfold search. rewrite Hen. eexists. reflexivity.
      * unfold close. rewrite Hen. eexists. reflexivity.
  - intros Hnone. eexists. eexists. split; [reflexivity|].
    split; [reflexivity|]. split; [exact Hnone|].
    split; [|split; [|split; [|split]]].
    + intros. unfold index, database_run. cbn [set_isEnabled isEnabled database negb].
      rewrite Hnone. reflexivity.
    + intros. unfold deleteChannel, database_run.
      cbn [set_isEnabled isEnabled database negb]. rewrite Hnone. reflexivity.
    + intros. unfold close. cbn [set_isEnabled isEnabled database negb].
      rewrite Hnone. reflexivity.
    + intros config network channel Hmax. unfold getMessages.
      cbn [set_isEnabled isEnabled database negb orb].
      replace (maxHistory config =? 0) with false
        by (symmetry; apply Z.eqb_neq; exact Hmax).
      rewrite Hnone. reflexivity.
    + intros query. unfold search. cbn [set_isEnabled isEnabled database negb].
      destruct (search_statement query). rewrite Hnone. reflexivity.
Qed.

Lemma reachable_storage_never_throws_witness :
  (exists this', index fresh_storage example_network {| name := "#a" |}
                       (example_message 1 "x") = Normal this')
  /\ exists this' e,
       enable_without_sqlite3 None (constructor example_client) = (this', [], Some e)
       /\ index this' example_network {| name := "#a" |} (example_message 1 "x")
          = Throw e
       /\ search this' (first_query "x" None None) = Normal (Rejected e).
Proof.
  split.
  - apply (reachable_storage_never_throws fresh_storage).
    apply reach_enable. apply reach_constructor.
  - destruct (reachable_storage_never_throws (constructor example_client)) as [_ H].
    destruct (H eq_refl) as (this' & e & He & _ & _ & Hi & _ & _ & _ & Hs).
    exists this', e. split; [exact He|]. split; [apply Hi|apply Hs].
Defined.

(** ** Loading the engine *)

(** X8.  When the sqlite3 module does not load, exactly the entries
    [sqlite] leave the list of message storages: every other entry stays,
    in its place, and one error is logged; when it loads, the list is as
    it was and nothing is logged. *)
Theorem load_failure_removes_only_sqlite (messageStorage : list string) :
  load_sqlite3 true messageStorage = (messageStorage, [])
  /\ (forall item,
        In item (fst (load_sqlite3 false messageStorage))
        <-> In item messageStorage /\ item <> "sqlite")
  /\ (forall before after,
        messageStorage = (before ++ "sqlite" :: after)%list ->
        fst (load_sqlite3 false messageStorage)
        = (fst (load_sqlite3 false before) ++ fst (load_sqlite3 false after))%list)
  /\ (~ In "sqlite" messageStorage ->
      fst (load_sqlite3 false messageStorage) = messageStorage)
  /\ List.length (snd (load_sqlite3 false messageStorage)) = 1%nat.
Proof.
  split; [reflexivity|]. cbn [load_sqlite3 fst snd]. split; [|split; [|split]].
  - intros item. rewrite filter_In, negb_true_iff.
    destruct (String.eqb_spec item "sqlite"); intuition congruence.
  - intros before after ->. rewrite filter_app. reflexivity.
  - intros Hnot. apply forallb_filter_id. apply forallb_forall. intros x Hx.
    apply negb_true_iff. destruct (String.eqb_spec x "sqlite"); [|reflexivity].
    subst x. contradiction.
  - reflexivity.
Qed.

Lemma load_failure_removes_only_sqlite_witness :
  fst (load_sqlite3 false ["text"; "sqlite"; "sqlite"]) = ["text"].
Proof.
  destruct (load_failure_removes_only_sqlite ["text"; "sqlite"; "sqlite"])
    as (_ & _ & Hsplit & _).
  rewrite (Hsplit ["text"] ["sqlite"] eq_refl). reflexivity.
Defined.

(** ** The page of a search *)

Lemma search_message_columns (row : message_row) :
  get_prop (search_message row) "type" = JStr (col_type row)
  /\ get_prop (search_message row) "networkUuid" = JStr (col_network row)
  /\ get_prop (search_message row) "channelName" = JStr (col_channel row)
  /\ get_prop (search_message row) "id" = JUndefined.
Proof.
  unfold search_message, parseSearchRowsToMessages, Msg. cbn [get_prop].
  repeat split.
  - rewrite !obj_get_set_other by discriminate. apply obj_get_set_same.
  - rewrite !obj_get_set_other by discriminate. apply obj_get_set_same.
  - rewrite !obj_get_set_other by discriminate. apply obj_get_set_same.
  - apply obj_get_set_same.
Qed.

(** X9.  On an enabled storage a search resolves to a page of at most 100
    messages, built from rows of the table that satisfy the condition of
    the search, in rising order of time and, within one time, of rowid;
    each message has the type [message] and the time, the network and the
    channel of its row, and the response repeats the term and the scope of
    the query. *)
Theorem search_page_is_chronological
    (this : MessageStorage) (db : sqlite_db) (query : SearchQuery) :
  isEnabled this = true ->
  database this = Some db ->
  exists response rows,
    search this query = Normal (Resolved response)
    /\ get_prop response "results" = JArr (map search_message rows)
    /\ get_prop response "searchTerm" = JStr (searchTerm query)
    /\ get_prop response "target" = js_of_string (channelName query)
    /\ get_prop response "networkUuid" = js_of_string (networkUuid query)
    /\ (List.length rows <= 100)%nat
    /\ StronglySorted
         (fun a b => col_time a < col_time b
                     \/ (col_time a = col_time b /\ col_rowid a <= col_rowid b)) rows
    /\ forall r, In r rows ->
         In r (messages db)
         /\ matches query r = true
         /\ get_prop (search_message r) "time" = JNum (col_time r)
         /\ get_prop (search_message r) "type" = JStr "message"
         /\ get_prop (search_message r) "networkUuid" = JStr (col_network r)
         /\ get_prop (search_message r) "channelName" = JStr (col_channel r).
Proof.
  intros Hen Hdb. rewrite (search_enabled this query db Hen Hdb).
  destruct (search_rows_sorted this db query Hdb) as (Hs & Hl & Hin).
  unfold search_callback. rewrite parseSearchRowsToMessages_map, <- map_rev.
  eexists. exists (rev (search_rows this query)). split; [reflexivity|].
  split; [reflexivity|]. split; [reflexivity|]. split; [reflexivity|].
  split; [reflexivity|]. split; [rewrite length_rev; exact Hl|]. split.
  - apply (sorted_rev (fun a b => time_rowid_desc a b = true)) in Hs.
    eapply sorted_impl; [|exact Hs]. intros a b H. cbv beta in H.
    apply time_rowid_desc_spec in H. exact H.
  - intros r Hr. apply in_rev in Hr. destruct (Hin r Hr) as [Hm Hc].
    destruct (search_message_columns r) as (Hty & Hn & Hch & _).
    split; [exact Hm|]. split; [exact Hc|]. split; [apply search_message_time|].
    split; [|split; assumption].
    rewrite Hty. apply matches_true in Hc. destruct Hc as [-> _]. reflexivity.
Qed.

Lemma search_page_is_chronological_witness :
  exists response rows,
    search example_storage (first_query "ONE" None (Some "#A"))
    = Normal (Resolved response)
    /\ get_prop response "results" = JArr (map search_message rows)
    /\ map col_time rows = [100; 300].
Proof.
  destruct (search_page_is_chronological
              example_storage example_db (first_query "ONE" None (Some "#A"))
              eq_refl eq_refl) as (response & rows & Hs & Hr & _).
  exists response, (rev (search_rows example_storage (first_query "ONE" None (Some "#A")))).
  split; [exact Hs|]. vm_compute in Hs. injection Hs as <-. split; reflexivity.
Defined.

(** X10.  The empty term is a term like any other and every text holds
    it.  For it [search] binds the pattern [%%]; the page it resolves to
    is made of rows of type [message], within the scope, whose payload has
    a text (a member [text] that is a string or a number), and when there
    are no more such rows than a page holds, the page has every one of
    them. *)
Theorem empty_term_matches_every_text
    (this : MessageStorage) (db : sqlite_db) (network channel : option string) :
  let query := first_query "" network channel in
  isEnabled this = true ->
  database this = Some db ->
  hd SNull (snd (search_statement query)) = SText "%%"
  /\ exists response,
       search this query = Normal (Resolved response)
       /\ get_prop response "results"
          = JArr (map search_message (rev (search_rows this query)))
       /\ (forall r,
             In r (search_rows this query) ->
             In r (messages db)
             /\ col_type r = "message"
             /\ extracted_text r <> None
             /\ (forall n, scope network = Some n -> col_network r = n)
             /\ (forall c, scope channel = Some c -> col_channel r = toLowerCase c))
       /\ ((List.length (matching query db) <= 100)%nat ->
           forall r,
             In r (messages db) ->
             col_type r = "message" ->
             extracted_text r <> None ->
             (forall n, scope network = Some n -> col_network r = n) ->
             (forall c, scope channel = Some c -> col_channel r = toLowerCase c) ->
             In r (search_rows this query)).
Proof.
  intros query Hen Hdb.
  assert (forall r,
            (exists text, extracted_text r = Some text /\ contains_nocase "" text)
            <-> extracted_text r <> None) as Ht.
  { intros r. split.
    - intros (text & Ht & _). congruence.
    - intros Hn. destruct (extracted_text r) as [text|]; [|contradiction].
      exists text. split; [reflexivity|]. exists "", "", text.
      split; [reflexivity|constructor]. }
  split; [rewrite search_statement_shape; reflexivity|].
  destruct (search_results this db query Hen Hdb) as (response & Hs & Hres).
  exists response. split; [exact Hs|]. split; [exact Hres|]. split.
  - intros r Hr.
    destruct (search_rows_sorted this db query Hdb) as (_ & _ & Hpage).
    destruct (Hpage r Hr) as [Hin Hm]. apply matches_true in Hm.
    destruct Hm as (Hty & Htext & Hn & Hc).
    split; [exact Hin|]. split; [exact Hty|]. split; [apply Ht; exact Htext|].
    split; assumption.
  - intros Hlen r Hin Hty Htext Hn Hc.
    apply (search_rows_whole this db query r Hdb eq_refl Hlen Hin).
    apply matches_true. split; [exact Hty|]. split; [apply Ht; exact Htext|].
    split; assumption.
Qed.

Lemma empty_term_matches_every_text_witness :
  exists response,
    search example_storage (first_query "" None (Some "#A"))
    = Normal (Resolved response)
    /\ List.length (search_rows example_storage (first_query "" None (Some "#A")))
       = 3%nat
    /\ forall r, In r (messages example_db) ->
                 In r (search_rows example_storage (first_query "" None (Some "#A"))).
Proof.
  destruct (empty_term_matches_every_text example_storage example_db None (Some "#A")
              eq_refl eq_refl) as (_ & response & Hs & _ & _ & Hall).
  exists response. split; [exact Hs|]. split; [vm_compute; reflexivity|].
  intros r Hr. apply Hall.
  - vm_compute. lia.
  - exact Hr.
  - vm_compute in Hr. destruct Hr as [<- | [<- | [<- | []]]]; reflexivity.
  - vm_compute in Hr. destruct Hr as [<- | [<- | [<- | []]]]; discriminate.
  - intros n Hn. discriminate Hn.
  - intros c Hc. injection Hc as <-.
    vm_compute in Hr. destruct Hr as [<- | [<- | [<- | []]]]; reflexivity.
Defined.

(** X11.  The [lastTime] of a response is the time of the earliest row of
    its page: one row of the page has this time and no row of the page has
    a smaller one.  For an empty page [lastTime] and [lastId] are -1. *)
Theorem search_cursor_time_is_earliest
    (this : MessageStorage) (db : sqlite_db) (query : SearchQuery) :
  isEnabled this = true ->
  database this = Some db ->
  exists response,
    search this query = Normal (Resolved response)
    /\ (search_rows this query = [] ->
        get_prop response "lastTime" = JNum (-1)
        /\ get_prop response "lastId" = JNum (-1))
    /\ (search_rows this query <> [] ->
        exists first,
          In first (search_rows this query)
          /\ get_prop response "lastTime" = JNum (col_time first)
          /\ forall r, In r (search_rows this query) -> col_time first <= col_time r).
Proof.
  intros Hen Hdb. rewrite (search_enabled this query db Hen Hdb).
  destruct (search_callback_cursor query (search_rows this query))
    as (response & Hr & Hcur).
  destruct (search_rows_sorted this db query Hdb) as (Hs & _ & _).
  exists response. split; [rewrite Hr; reflexivity|]. split.
  - intros Hempty. rewrite Hempty in Hcur. exact Hcur.
  - intros Hne. destruct (rev (search_rows this query)) as [|last rest] eqn:Erev.
    + exfalso. apply Hne.
      rewrite <- (rev_involutive (search_rows this query)), Erev. reflexivity.
    + assert (search_rows this query = (rev rest ++ [last])%list) as Hrows
          by (rewrite <- (rev_involutive (search_rows this query)), Erev; reflexivity).
      exists last. split; [rewrite Hrows; apply in_or_app; right; left; reflexivity|].
      split; [apply Hcur|].
      intros r Hin. rewrite Hrows in Hin, Hs. apply in_app_or in Hin.
      destruct Hin as [Hin | [<- | []]]; [|lia].
      pose proof (sorted_app_ordered _ _ _ Hs r last Hin (or_introl eq_refl)) as Ho.
      cbv beta in Ho. apply time_rowid_desc_spec in Ho. lia.
Qed.

Lemma search_cursor_time_is_earliest_witness :
  exists response,
    search example_storage (first_query "one" None None) = Normal (Resolved response)
    /\ get_prop response "lastTime" = JNum 100.
Proof.
  destruct (search_cursor_time_is_earliest
              example_storage example_db (first_query "one" None None)
              eq_refl eq_refl) as (response & Hs & _ & _).
  exists response. split; [exact Hs|].
  vm_compute in Hs. injection Hs as <-. reflexivity.
Defined.

(** ** Channels side by side *)

Lemma getMessages_of_rows (config : Config) (this : MessageStorage) (db : sqlite_db)
    (network : Network) (channel : Chan) :
  isEnabled this = true ->
  database this = Some db ->
  exists statement,
    getMessages config this network channel
    = Normal (if maxHistory config =? 0 then Resolved (JArr [])
              else Resolved (JArr (fst (history_messages this
                                          (rev (history_rows config db network channel))))),
              if maxHistory config =? 0 then this
              else snd (history_messages this
                          (rev (history_rows config db network channel))),
              statement)
    /\ statement
       = if maxHistory config =? 0 then None
         else Some ("SELECT msg, type, time FROM messages WHERE network = ? AND channel = ? ORDER BY time DESC LIMIT ?",
                    [ SText (uuid network); SText (toLowerCase (name channel));
                      SInt (history_limit config) ]).
Proof.
  intros Hen Hdb. destruct (Z.eqb_spec (maxHistory config) 0) as [H0|Hn].
  - unfold getMessages. rewrite Hen, H0. eexists. split; reflexivity.
  - rewrite (getMessages_enabled config this db network channel Hen Hdb Hn).
    eexists. split; reflexivity.
Qed.

Lemma filter_none {A : Type} (f : A -> bool) (l : list A) :
  (forall x, In x l -> f x = false) -> filter f l = [].
Proof.
  induction l as [|x l IH]; cbn; intros H; [reflexivity|].
  rewrite (H x (or_introl eq_refl)). apply IH. intros y Hy. apply H. right. exact Hy.
Qed.

Lemma filter_same {A : Type} (f g : A -> bool) (l : list A) :
  (forall x, f x = true -> g x = true) -> filter f (filter g l) = filter f l.
Proof.
  intros H. induction l as [|x l IH]; cbn; [reflexivity|].
  destruct (g x) eqn:Eg; cbn; [rewrite IH; reflexivity|].
  destruct (f x) eqn:Ef; [|exact IH].
  rewrite (H x Ef) in Eg. discriminate.
Qed.

(** X12.  After [deleteChannel] nothing of the channel is left: for the
    same network and any name that is the channel's up to letter case,
    [getMessages] resolves to the empty array and leaves the counter of
    message ids alone, and a second [deleteChannel] changes nothing. *)
Theorem deleteChannel_leaves_nothing_of_the_channel
    (this : MessageStorage) (db : sqlite_db) (network : Network) (channel : Chan) :
  isEnabled this = true ->
  database this = Some db ->
  exists this1,
    deleteChannel this network channel = Normal this1
    /\ forall channel',
         toLowerCase (name channel') = toLowerCase (name channel) ->
         deleteChannel this1 network channel' = Normal this1
         /\ forall config,
              exists statement,
                getMessages config this1 network channel'
                = Normal (Resolved (JArr []), this1, statement).
Proof.
  intros Hen Hdb.
  rewrite (deleteChannel_enabled this db network channel Hen Hdb).
  set (kept := filter (fun r => negb (in_channel (uuid network)
                                                 (toLowerCase (name channel)) r))
                      (messages db)).
  set (db1 := with_messages db kept). eexists. split; [reflexivity|].
  intros channel' Hcase.
  assert (forall r, In r kept ->
            in_channel (uuid network) (toLowerCase (name channel')) r = false) as Hgone.
  { intros r Hr. apply filter_In in Hr. destruct Hr as [_ Hr]. rewrite Hcase.
    apply negb_true_iff in Hr. exact Hr. }
  split.
  - rewrite (deleteChannel_enabled (set_database this db1) db1 network channel'
               Hen eq_refl).
    assert (filter (fun r => negb (in_channel (uuid network)
                                              (toLowerCase (name channel')) r)) kept
            = kept) as Hid.
    { apply forallb_filter_id. apply forallb_forall. intros r Hr.
      rewrite (Hgone r Hr). reflexivity. }
    cbn [db1 messages with_messages]. rewrite Hid. reflexivity.
  - intros config.
    destruct (getMessages_of_rows config (set_database this db1) db1 network channel'
                Hen eq_refl) as (statement & Hg & _).
    exists statement. rewrite Hg.
    destruct (maxHistory config =? 0); [reflexivity|].
    unfold history_rows. cbn [db1 messages with_messages].
    rewrite (filter_none _ kept Hgone). cbn [order_by].
    unfold sql_limit. destruct (history_limit config <? 0);
      [|rewrite firstn_nil]; reflexivity.
Qed.

Lemma deleteChannel_leaves_nothing_of_the_channel_witness :
  exists this1,
    deleteChannel example_storage example_network {| name := "#A" |} = Normal this1
    /\ exists statement,
         getMessages {| maxHistory := 5 |} this1 example_network {| name := "#a" |}
         = Normal (Resolved (JArr []), this1, statement).
Proof.
  destruct (deleteChannel_leaves_nothing_of_the_channel
              example_storage example_db example_network {| name := "#A" |}
              eq_refl eq_refl) as (this1 & Hd & Hafter).
  exists this1. split; [exact Hd|].
  apply (Hafter {| name := "#a" |} eq_refl).
Defined.

Lemma history_messages_other_db (rows : list message_row) (this : MessageStorage)
    (db : sqlite_db) :
  history_messages (set_database this db) rows
  = (fst (history_messages this rows),
     set_database (snd (history_messages this rows)) db).
Proof.
  revert this. induction rows as [|row rows IH]; intros this; [reflexivity|].
  rewrite !history_messages_cons. cbn [fst snd].
  change (snd (history_message (set_database this db) row))
    with (set_database (snd (history_message this row)) db).
  rewrite IH. reflexivity.
Qed.

(** X13.  What [getMessages] resolves to for a channel does not depend on
    what is indexed into, or deleted from, another channel: a channel of
    another network, or one whose name differs by more than letter case. *)
Theorem other_channels_are_untouched
    (config : Config) (this : MessageStorage) (db : sqlite_db)
    (network network' : Network) (channel channel' : Chan) (msg : Message) :
  isEnabled this = true ->
  database this = Some db ->
  uuid network' <> uuid network
  \/ toLowerCase (name channel') <> toLowerCase (name channel) ->
  exists this1 this2 p s s1 s2 statement,
    index this network channel msg = Normal this1
    /\ deleteChannel this network channel = Normal this2
    /\ getMessages config this network' channel' = Normal (p, s, statement)
    /\ getMessages config this1 network' channel' = Normal (p, s1, statement)
    /\ getMessages config this2 network' channel' = Normal (p, s2, statement).
Proof.
  intros Hen Hdb Hother.
  rewrite (index_writes this db network channel msg Hen Hdb).
  rewrite (deleteChannel_enabled this db network channel Hen Hdb).
  set (row := indexed_row db network channel msg).
  set (db1 := with_messages db (messages db ++ [row])).
  set (db2 := with_messages db
                (filter (fun r => negb (in_channel (uuid network)
                                                   (toLowerCase (name channel)) r))
                        (messages db))).
  assert (forall r,
             in_channel (uuid network') (toLowerCase (name channel')) r = true ->
             negb (in_channel (uuid network) (toLowerCase (name channel)) r) = true)
    as Hapart.
  { intros r Hr. apply in_channel_true in Hr. destruct Hr as [Hn Hc].
    apply negb_true_iff.
    destruct (in_channel (uuid network) (toLowerCase (name channel)) r) eqn:E;
      [|reflexivity].
    apply in_channel_true in E. destruct E as [En Ec].
    destruct Hother as [H | H]; exfalso; apply H; congruence. }
  assert (history_rows config db1 network' channel'
          = history_rows config db network' channel') as H1.
  { unfold history_rows. cbn [db1 messages with_messages]. rewrite filter_app.
    cbn [filter].
    destruct (in_channel (uuid network') (toLowerCase (name channel')) row) eqn:E.
    - apply Hapart in E. apply negb_true_iff in E.
      assert (in_channel (uuid network) (toLowerCase (name channel)) row = true)
        by (apply in_channel_true; split; reflexivity).
      congruence.
    - rewrite app_nil_r. reflexivity. }
  assert (history_rows config db2 network' channel'
          = history_rows config db network' channel') as H2.
  { unfold history_rows. cbn [db2 messages with_messages].
    rewrite (filter_same _ _ (messages db) Hapart). reflexivity. }
  destruct (getMessages_of_rows config this db network' channel' Hen Hdb)
    as (st & Hg & Hst).
  destruct (getMessages_of_rows config (set_database this db1) db1 network' channel'
              Hen eq_refl) as (st1 & Hg1 & Hst1).
  destruct (getMessages_of_rows config (set_database this db2) db2 network' channel'
              Hen eq_refl) as (st2 & Hg2 & Hst2).
  rewrite H1, history_messages_other_db in Hg1.
  rewrite H2, history_messages_other_db in Hg2.
  subst st st1 st2. cbn [fst snd] in Hg1, Hg2.
  exists (set_database this db1), (set_database this db2).
  eexists. eexists. eexists. eexists. eexists.
  split; [reflexivity|]. split; [reflexivity|].
  split; [exact Hg|]. split; [exact Hg1|exact Hg2].
Qed.

Lemma other_channels_are_untouched_witness :
  exists this1 p s s1 statement,
    index example_storage example_network {| name := "#b" |} (example_message 50 "b")
    = Normal this1
    /\ getMessages {| maxHistory := 2 |} example_storage example_network {| name := "#a" |}
       = Normal (p, s, statement)
    /\ getMessages {| maxHistory := 2 |} this1 example_network {| name := "#a" |}
       = Normal (p, s1, statement).
Proof.
  destruct (other_channels_are_untouched
              {| maxHistory := 2 |} example_storage example_db
              example_network example_network {| name := "#b" |} {| name := "#a" |}
              (example_message 50 "b") eq_refl eq_refl)
    as (this1 & this2 & p & s & s1 & s2 & statement & Hi & _ & Hg & Hg1 & _).
  - right. discriminate.
  - exists this1, p, s, s1, statement. split; [exact Hi|]. split; [exact Hg|exact Hg1].
Defined.

(** X14.  Deleting a channel undoes indexing into it: [deleteChannel]
    after an [index] into the same channel, under any spelling of its
    name in letter case, leaves the storage that [deleteChannel] alone
    leaves. *)
Theorem deleteChannel_absorbs_index
    (this : MessageStorage) (db : sqlite_db)
    (network : Network) (channel channel' : Chan) (msg : Message) :
  isEnabled this = true ->
  database this = Some db ->
  toLowerCase (name channel') = toLowerCase (name channel) ->
  exists this1,
    index this network channel msg = Normal this1
    /\ deleteChannel this1 network channel' = deleteChannel this network channel'.
Proof.
  intros Hen Hdb Hcase.
  rewrite (index_writes this db network channel msg Hen Hdb). eexists.
  split; [reflexivity|].
  rewrite (deleteChannel_enabled this db network channel' Hen Hdb).
  rewrite (deleteChannel_enabled (set_database this _) _ network channel' Hen eq_refl).
  cbn [messages with_messages]. rewrite filter_app. cbn [filter].
  replace (in_channel (uuid network) (toLowerCase (name channel'))
                      (indexed_row db network channel msg)) with true
    by (symmetry; apply in_channel_true; split; [reflexivity|symmetry; exact Hcase]).
  cbn [negb]. rewrite app_nil_r. reflexivity.
Qed.

Lemma deleteChannel_absorbs_index_witness :
  exists this1,
    index example_storage example_network {| name := "#Tmp" |} (example_message 7 "t")
    = Normal this1
    /\ deleteChannel this1 example_network {| name := "#TMP" |}
       = deleteChannel example_storage example_network {| name := "#TMP" |}.
Proof.
  apply (deleteChannel_absorbs_index example_storage example_db example_network
           {| name := "#Tmp" |} {| name := "#TMP" |} (example_message 7 "t")
           eq_refl eq_refl eq_refl).
Defined.

(** ** Lower case in the table *)

Lemma lower_char_idempotent (c : ascii) : lower_char (lower_char c) = lower_char c.
Proof. destruct c as [[] [] [] [] [] [] [] []]; reflexivity. Qed.

Lemma toLowerCase_idempotent (s : string) : toLowerCase (toLowerCase s) = toLowerCase s.
Proof.
  induction s as [|c s IH]; cbn; [reflexivity|].
  rewrite lower_char_idempotent, IH. reflexivity.
Qed.

(** X15.  The channel names in the table are in lower case and stay so:
    a new file has none, and [index] and [deleteChannel] keep a table of
    lowercase names as such.  In such a table no row escapes a channel
    because of letter case: every row of the network whose channel is the
    name up to letter case is a row of the channel that [getMessages] and
    [deleteChannel] address. *)
Theorem stored_channels_stay_lowercase
    (this : MessageStorage) (db : sqlite_db) :
  isEnabled this = true ->
  database this = Some db ->
  channels_lowercase db ->
  (forall network channel msg,
     exists db',
       index this network channel msg = Normal (set_database this db')
       /\ channels_lowercase db')
  /\ (forall network channel,
        exists db',
          deleteChannel this network channel = Normal (set_database this db')
          /\ channels_lowercase db')
  /\ (forall (network : Network) (channel : Chan) r,
        In r (messages db) ->
        col_network r = uuid network ->
        toLowerCase (col_channel r) = toLowerCase (name channel) ->
        in_channel (uuid network) (toLowerCase (name channel)) r = true)
  /\ (forall this0,
        exists db0,
          database (fst (enable None empty_db this0)) = Some db0
          /\ channels_lowercase db0).
Proof.
  intros Hen Hdb Hlow. unfold channels_lowercase in *. split; [|split; [|split]].
  - intros network channel msg. eexists.
    split; [apply (index_writes this db network channel msg Hen Hdb)|].
    cbn [messages with_messages]. apply Forall_app. split; [exact Hlow|].
    constructor; [|constructor]. cbn [indexed_row col_channel].
    symmetry. apply toLowerCase_idempotent.
  - intros network channel. eexists.
    split; [apply (deleteChannel_enabled this db network channel Hen Hdb)|].
    cbn [messages with_messages]. apply Forall_forall. intros r Hr.
    apply filter_In in Hr. rewrite Forall_forall in Hlow. apply Hlow, Hr.
  - intros network channel r Hr Hn Hc. apply in_channel_true. split; [exact Hn|].
    rewrite Forall_forall in Hlow. rewrite (Hlow r Hr). exact Hc.
  - intros this0. rewrite (enable_inserts this0 empty_db eq_refl).
    eexists. split; [reflexivity|].
    cbn [messages with_options]. rewrite (proj1 (proj2 (create_schema_frame empty_db))).
    constructor.
Qed.

Lemma stored_channels_stay_lowercase_witness :
  exists db',
    index fresh_storage example_network {| name := "#MiXed" |} (example_message 1 "m")
    = Normal (set_database fresh_storage db')
    /\ channels_lowercase db'.
Proof.
  apply (stored_channels_stay_lowercase
           fresh_storage
           {| objects := schema_objects;
              options := [("schema_version", "1520239200")];
              messages := [] |}
           eq_refl eq_refl).
  constructor.
Defined.

(** ** Columns over payload *)

Lemma history_messages_all_deliver (rows : list message_row) (this : MessageStorage) :
  Forall2 delivers (fst (history_messages this rows)) rows.
Proof.
  revert this. induction rows as [|row rows IH]; intros this.
  - constructor.
  - rewrite history_messages_cons. cbn [fst]. constructor; [|apply IH].
    apply history_message_delivers.
Qed.

(** X16.  Every message that [getMessages] resolves to is made from one
    row of the table, in the order of the rows: its [time] and its [type]
    are those of the columns, whatever the payload of the row says about
    them, and all its other properties but [id] are those of the
    payload. *)
Theorem getMessages_columns_override_payload
    (config : Config) (this : MessageStorage) (db : sqlite_db)
    (network : Network) (channel : Chan) :
  isEnabled this = true ->
  database this = Some db ->
  maxHistory config <> 0 ->
  exists ms this' statement rows,
    getMessages config this network channel
    = Normal (Resolved (JArr ms), this', statement)
    /\ Forall2 delivers ms rows
    /\ (forall r, In r rows ->
          In r (messages db)
          /\ col_network r = uuid network
          /\ col_channel r = toLowerCase (name channel)).
Proof.
  intros Hen Hdb Hmax.
  rewrite (getMessages_enabled config this db network channel Hen Hdb Hmax). cbv zeta.
  eexists. eexists. eexists. exists (rev (history_rows config db network channel)).
  split; [reflexivity|]. split; [apply history_messages_all_deliver|].
  intros r Hr. apply in_rev in Hr. unfold history_rows in Hr.
  destruct (sql_limit_split (history_limit config)
              (order_by time_desc
                 (filter (in_channel (uuid network) (toLowerCase (name channel)))
                         (messages db)))) as [rest Hsplit].
  assert (In r (order_by time_desc
                  (filter (in_channel (uuid network) (toLowerCase (name channel)))
                          (messages db)))) as Hin
      by (rewrite Hsplit; apply in_or_app; left; exact Hr).
  apply order_by_In in Hin. apply filter_In in Hin. destruct Hin as [Hm Hc].
  apply in_channel_true in Hc. destruct Hc as [Hn Hc]. auto.
Qed.

Lemma getMessages_columns_override_payload_witness :
  exists ms this' statement rows,
    getMessages {| maxHistory := 1 |} example_storage example_network {| name := "#a" |}
    = Normal (Resolved (JArr ms), this', statement)
    /\ Forall2 delivers ms rows
    /\ map message_time ms = [JNum 300].
Proof.
  destruct (getMessages_columns_override_payload
              {| maxHistory := 1 |} example_storage example_db
              example_network {| name := "#a" |} eq_refl eq_refl)
    as (ms & this' & statement & rows & Hg & Hd & _); [discriminate|].
  exists ms, this', statement, rows.
  split; [exact Hg|]. split; [exact Hd|].
  vm_compute in Hg. injection Hg as <- _ _. reflexivity.
Defined.

(** ** The scope of a search *)

(** X17.  A search with a network uuid delivers messages of that network
    only, and a search with a channel name delivers messages of the
    channel with that name in lower case only; an empty string is no
    scope. *)
Theorem search_stays_in_scope
    (this : MessageStorage) (db : sqlite_db) (query : SearchQuery) :
  isEnabled this = true ->
  database this = Some db ->
  exists response results,
    search this query = Normal (Resolved response)
    /\ get_prop response "results" = JArr results
    /\ (forall m, In m results ->
          (forall n, networkUuid query = Some n -> n <> "" ->
                     get_prop m "networkUuid" = JStr n)
          /\ (forall c, channelName query = Some c -> c <> "" ->
                        get_prop m "channelName" = JStr (toLowerCase c)))
    /\ scope (Some "") = None.
Proof.
  intros Hen Hdb. rewrite (search_enabled this query db Hen Hdb).
  destruct (search_rows_sorted this db query Hdb) as (_ & _ & Hin).
  unfold search_callback. rewrite parseSearchRowsToMessages_map, <- map_rev.
  eexists. eexists. split; [reflexivity|]. split; [reflexivity|].
  split; [|reflexivity].
  intros m Hm. apply in_map_iff in Hm. destruct Hm as (r & <- & Hr).
  apply in_rev in Hr. destruct (Hin r Hr) as [_ Hc].
  apply matches_true in Hc. destruct Hc as (_ & _ & Hn & Hch).
  destruct (search_message_columns r) as (_ & Hmn & Hmc & _).
  assert (forall s, s <> "" -> scope (Some s) = Some s) as Hscope.
  { intros s Hs. unfold scope. cbn [js_of_string truthy].
    destruct (String.eqb_spec s ""); [contradiction|reflexivity]. }
  split.
  - intros n En Hne. rewrite Hmn. f_equal. apply Hn. rewrite En. apply Hscope, Hne.
  - intros c Ec Hne. rewrite Hmc. f_equal. apply Hch. rewrite Ec. apply Hscope, Hne.
Qed.

Lemma search_stays_in_scope_witness :
  exists response results,
    search example_storage (first_query "one" (Some "net-1") (Some "#A"))
    = Normal (Resolved response)
    /\ get_prop response "results" = JArr results
    /\ forall m, In m results -> get_prop m "channelName" = JStr "#a".
Proof.
  destruct (search_stays_in_scope
              example_storage example_db
              (first_query "one" (Some "net-1") (Some "#A")) eq_refl eq_refl)
    as (response & results & Hs & Hr & Hscope & _).
  exists response, results. split; [exact Hs|]. split; [exact Hr|].
  intros m Hm. apply (proj2 (Hscope m Hm) "#A" eq_refl). discriminate.
Defined.
